(** * Session lifecycle and persistence of the Discord PC builder bot

    A shallow embedding of [discord_pc_bot.py]: the file lock, the session
    record and its JSON mirror, the session manager, the completion policy,
    the budget ceiling of [build_prompt] and the message handlers, followed
    by the properties the specification states about them.

    Conventions of the embedding.
    - A Python [str] is a Rocq [string] that holds the UTF-8 bytes of its
      characters; a byte that belongs to no well-formed sequence stands for
      the lone surrogate the error handler [surrogateescape] would put
      there.  A [str] with any other lone surrogate is not held.  JSON
      text is written and read character by character ([Json.decode],
      [Json.escape_cp], [Json.scan_chars]).
    - Case mapping and digit classification ([lower], [isdigit], the
      class [\d], [int]) act on ASCII characters only, where they are what
      Python computes; a property that depends on them for arbitrary text
      carries the hypothesis [isascii].
    - Files opened without an encoding are read and written as UTF-8;
      [json] is the module with its C scanner.  The limits of the
      interpreter (recursion depth, digit count of [str]/[int]
      conversions) are not part of the model.
    - A Python [int] is a [Z]; a [float] is an IEEE 754 binary64 number
      ([SpecFloat]).
    - The sessions dictionary is a [gmap Z PCBuilderSession]; the order in
      which a dictionary is walked is the order of [map_to_list], so the
      text of the mirror is known up to the order of its entries, and no
      property below depends on that order.
    - Exceptions are explicit: a computation returns [Ok], [Raise], or
      [OutsideModel] when a value met at run time has a type the typed
      record of the embedding cannot hold.
    - The external collaborators (the generation service, the clock, the
      parts catalogue, the chat transport) are inputs of the functions that
      call them.  A message that [on_message] hands to the command
      processor is recorded as the event [ProcessCommands]; what the
      command then does is not part of the step. *)

From Stdlib Require Import ZArith Bool Ascii String List Lia.
From Stdlib Require Import DecimalString DecimalPos DecimalN DecimalZ DecimalFacts.
From Stdlib Require Import SpecFloat.
From stdpp Require Import base option gmap strings list.

Local Open Scope Z_scope.
Set Warnings "-register-all".

(* ===================================================================== *)
(** * Part I.  The embedding                                              *)
(* ===================================================================== *)

(** ** Outcomes of fallible code *)

Inductive exn : Type :=
  | KeyError | TypeError | ValueError | AttributeError | OverflowError
  | JSONDecodeError | UnicodeDecodeError | LockError | OSError
  | GenerationError (msg : string).

Inductive result (A : Type) : Type :=
  | Ok (a : A)
  | Raise (e : exn)
  | OutsideModel.
Arguments Ok {A} a.
Arguments Raise {A} e.
Arguments OutsideModel {A}.

Definition rbind {A B} (r : result A) (k : A -> result B) : result B :=
  match r with
  | Ok a => k a
  | Raise e => Raise e
  | OutsideModel => OutsideModel
  end.

Notation "x <- r ;; k" := (rbind r (fun x => k))
  (at level 100, r at next level, right associativity).

(** ** Python text *)

Module PyStr.

Definition dquote : ascii := "034"%char.
Definition backslash : ascii := "092"%char.
Definition newline : ascii := "010"%char.

Definition code (c : ascii) : nat := nat_of_ascii c.

Definition in_range (lo hi : nat) (c : ascii) : bool :=
  (lo <=? code c)%nat && (code c <=? hi)%nat.

(** [c.isdigit()] and the regular expression class [\d], on ASCII. *)
Definition isdigit (c : ascii) : bool := in_range 48 57 c.

Definition isupper (c : ascii) : bool := in_range 65 90 c.

Definition lower_char (c : ascii) : ascii :=
  if isupper c then ascii_of_nat (code c + 32) else c.

(** [s.lower()] *)
Fixpoint lower (s : string) : string :=
  match s with
  | EmptyString => EmptyString
  | String c t => String (lower_char c) (lower t)
  end.

(** [w in s] for strings: [w] occurs in [s] as a contiguous run. *)
Fixpoint contains (w s : string) : bool :=
  String.prefix w s ||
  match s with
  | EmptyString => false
  | String _ t => contains w t
  end.

(** [any(w in s for w in ws)] *)
Definition any_in (ws : list string) (s : string) : bool :=
  existsb (fun w => contains w s) ws.

(** [any(c.isdigit() for c in s)] *)
Fixpoint any_digit (s : string) : bool :=
  match s with
  | EmptyString => false
  | String c t => isdigit c || any_digit t
  end.

(** [s.isascii()] *)
Fixpoint isascii (s : string) : bool :=
  match s with
  | EmptyString => true
  | String c t => (code c <? 128)%nat && isascii t
  end.

(** [sep.join(l)] *)
Fixpoint join (sep : string) (l : list string) : string :=
  match l with
  | [] => EmptyString
  | [x] => x
  | x :: t => x +:+ sep +:+ join sep t
  end.

(** [s.replace(c, '')] for a one-character [c]. *)
Fixpoint remove_char (c : ascii) (s : string) : string :=
  match s with
  | EmptyString => EmptyString
  | String a t => if Ascii.eqb a c then remove_char c t else String a (remove_char c t)
  end.

(** The longest run of digits at the head of [s], and what follows it. *)
Fixpoint span_digits (s : string) : string * string :=
  match s with
  | EmptyString => (EmptyString, EmptyString)
  | String c t =>
      if isdigit c
      then let '(ds, r) := span_digits t in (String c ds, r)
      else (EmptyString, s)
  end.

(** The number a run of decimal digits denotes. *)
Definition digits_value (ds : string) : Z :=
  match NilEmpty.uint_of_string ds with
  | Some d => Z.of_uint d
  | None => 0
  end.

(** [str(n)] for an integer. *)
Definition str_of_Z (n : Z) : string := NilZero.string_of_int (Z.to_int n).

(** The first [k] characters of [s] (a slice [s[:k]]). *)
Fixpoint take (k : nat) (s : string) : string :=
  match k, s with
  | S k', String c t => String c (take k' t)
  | _, _ => EmptyString
  end.

(** The blanks [int] skips at both ends of an ASCII text: tab, line feed,
    vertical tab, form feed, carriage return and space. *)
Definition is_space (c : ascii) : bool :=
  in_range 9 13 c || Ascii.eqb c " "%char.

Fixpoint skip_left (s : string) : string :=
  match s with
  | String c t => if is_space c then skip_left t else s
  | EmptyString => EmptyString
  end.

Fixpoint skip_right (s : string) : string :=
  match s with
  | EmptyString => EmptyString
  | String c t =>
      match skip_right t with
      | EmptyString => if is_space c then EmptyString else String c EmptyString
      | t' => String c t'
      end
  end.

Definition skip_spaces (s : string) : string := skip_right (skip_left s).

(** The digits of a literal that may group them with single underscores
    ([1_000]); [None] when the text is not such a literal. *)
Fixpoint grouped_digits (prev_digit : bool) (s : string) : option string :=
  match s with
  | EmptyString => if prev_digit then Some EmptyString else None
  | String c t =>
      if isdigit c then String c <$> grouped_digits true t
      else if Ascii.eqb c "_"%char
           then (if prev_digit then grouped_digits false t else None)
           else None
  end.

(** [int(s)] in base ten. *)
Definition int_of_str (s : string) : result Z :=
  let body (neg : bool) (t : string) : result Z :=
    match grouped_digits false t with
    | Some ds => Ok (if neg then - digits_value ds else digits_value ds)
    | None => Raise ValueError
    end in
  match skip_spaces s with
  | String c t =>
      if Ascii.eqb c "-"%char then body true t
      else if Ascii.eqb c "+"%char then body false t
      else body false (String c t)
  | EmptyString => Raise ValueError
  end.

End PyStr.

(** ** JSON values, [json.dump] and [json.load] *)

Module Json.
Import PyStr.

Inductive json : Type :=
  | JNull
  | JBool (b : bool)
  | JInt (n : Z)
  | JStr (s : string)
  | JArr (items : list json)
  | JObj (members : list (string * json)).

(** *** Text and its characters

    A [str] is carried as its UTF-8 bytes.  A byte that belongs to no
    well-formed sequence stands for the lone surrogate U+DC00 + byte, as the
    error handler [surrogateescape] has it, so that every text of the
    embedding is one [str]. *)

Definition byte (c : ascii) : Z := Z.of_N (N_of_ascii c).
Definition chr (n : Z) : ascii := ascii_of_N (Z.to_N n).

Definition str1 (c : ascii) : string := String c EmptyString.

Definition is_cont (c : ascii) : bool := (128 <=? byte c) && (byte c <=? 191).

Definition cp2 (c0 c1 : ascii) : Z := (byte c0 - 192) * 64 + (byte c1 - 128).
Definition cp3 (c0 c1 c2 : ascii) : Z :=
  (byte c0 - 224) * 4096 + (byte c1 - 128) * 64 + (byte c2 - 128).
Definition cp4 (c0 c1 c2 c3 : ascii) : Z :=
  (byte c0 - 240) * 262144 + (byte c1 - 128) * 4096 + (byte c2 - 128) * 64 +
  (byte c3 - 128).

(** The well-formed sequences of two, three and four bytes: no overlong
    form, no surrogate, nothing above U+10FFFF. *)
Definition ok2 (c0 c1 : ascii) : bool :=
  (194 <=? byte c0) && (byte c0 <=? 223) && is_cont c1.

Definition ok3 (c0 c1 c2 : ascii) : bool :=
  (224 <=? byte c0) && (byte c0 <=? 239) && is_cont c1 && is_cont c2 &&
  (2048 <=? cp3 c0 c1 c2) &&
  negb ((55296 <=? cp3 c0 c1 c2) && (cp3 c0 c1 c2 <=? 57343)).

Definition ok4 (c0 c1 c2 c3 : ascii) : bool :=
  (240 <=? byte c0) && (byte c0 <=? 244) &&
  is_cont c1 && is_cont c2 && is_cont c3 &&
  (65536 <=? cp4 c0 c1 c2 c3) && (cp4 c0 c1 c2 c3 <=? 1114111).

(** The characters of a text. *)
Fixpoint decode (s : string) : list Z :=
  match s with
  | EmptyString => []
  | String c0 t0 =>
      if byte c0 <? 128 then byte c0 :: decode t0
      else
        match t0 with
        | String c1 t1 =>
            if ok2 c0 c1 then cp2 c0 c1 :: decode t1
            else
              match t1 with
              | String c2 t2 =>
                  if ok3 c0 c1 c2 then cp3 c0 c1 c2 :: decode t2
                  else
                    match t2 with
                    | String c3 t3 =>
                        if ok4 c0 c1 c2 c3 then cp4 c0 c1 c2 c3 :: decode t3
                        else (56320 + byte c0) :: decode t0
                    | EmptyString => (56320 + byte c0) :: decode t0
                    end
              | EmptyString => (56320 + byte c0) :: decode t0
              end
        | EmptyString => (56320 + byte c0) :: decode t0
        end
  end.

(** The bytes of a character. *)
Definition encode_cp (n : Z) : string :=
  if n <? 128 then str1 (chr n)
  else if n <? 2048 then
    String (chr (192 + n / 64)) (str1 (chr (128 + n mod 64)))
  else if (56448 <=? n) && (n <=? 56575) then str1 (chr (n - 56320))
  else if n <? 65536 then
    String (chr (224 + n / 4096))
      (String (chr (128 + n / 64 mod 64)) (str1 (chr (128 + n mod 64))))
  else
    String (chr (240 + n / 262144))
      (String (chr (128 + n / 4096 mod 64))
         (String (chr (128 + n / 64 mod 64)) (str1 (chr (128 + n mod 64))))).

Fixpoint encode (l : list Z) : string :=
  match l with
  | [] => EmptyString
  | n :: t => encode_cp n +:+ encode t
  end.

(** The characters the embedding holds: those that are read back from
    their bytes. *)
Definition holds (l : list Z) : bool := bool_decide (decode (encode l) = l).

(** [f.read()] on a file opened as text: the bytes are decoded strictly. *)
Definition well_formed (s : string) : bool :=
  forallb (fun n => negb ((56448 <=? n) && (n <=? 56575))) (decode s).

(** *** Printing: [json.dumps(v, indent=2)] with the default
    [ensure_ascii=True] *)

Definition hexdigit (n : Z) : ascii := chr (if n <? 10 then 48 + n else 87 + n).

(** A code unit written with four hexadecimal digits. *)
Definition uescape (n : Z) : string :=
  String backslash
    (String "u"
       (String (hexdigit (n / 4096))
          (String (hexdigit (n / 256 mod 16))
             (String (hexdigit (n / 16 mod 16)) (str1 (hexdigit (n mod 16))))))).

(** One character: the short escapes, the printable ASCII characters as
    they are, every other character of the basic plane as one code unit
    and the characters above it as a surrogate pair. *)
Definition escape_cp (n : Z) : string :=
  if n =? 34 then String backslash (str1 dquote)
  else if n =? 92 then String backslash (str1 backslash)
  else if n =? 10 then String backslash "n"
  else if n =? 13 then String backslash "r"
  else if n =? 9 then String backslash "t"
  else if n =? 8 then String backslash "b"
  else if n =? 12 then String backslash "f"
  else if (32 <=? n) && (n <=? 126) then str1 (chr n)
  else if n <? 65536 then uescape n
  else uescape (55296 + (n - 65536) / 1024) +:+
       uescape (56320 + (n - 65536) mod 1024).

Fixpoint escape_all (l : list Z) : string :=
  match l with
  | [] => EmptyString
  | n :: t => escape_cp n +:+ escape_all t
  end.

Definition escape (s : string) : string := escape_all (decode s).

Definition quote (s : string) : string :=
  String dquote (escape s +:+ str1 dquote).

Fixpoint spaces (n : nat) : string :=
  match n with
  | O => EmptyString
  | S n' => String " " (spaces n')
  end.

(** The line break and indentation that precede an item at depth [lvl]. *)
Definition nl (lvl : nat) : string := String newline (spaces (2 * lvl)).

Fixpoint dumps (lvl : nat) (v : json) {struct v} : string :=
  match v with
  | JNull => "null"
  | JBool true => "true"
  | JBool false => "false"
  | JInt n => str_of_Z n
  | JStr s => quote s
  | JArr items =>
      match items with
      | [] => "[]"
      | x :: xs =>
          "[" +:+ nl (S lvl) +:+ dumps (S lvl) x +:+
          (fix more (l : list json) : string :=
             match l with
             | [] => nl lvl +:+ "]"
             | y :: ys => "," +:+ nl (S lvl) +:+ dumps (S lvl) y +:+ more ys
             end) xs
      end
  | JObj members =>
      match members with
      | [] => "{}"
      | (k, x) :: ms =>
          "{" +:+ nl (S lvl) +:+ quote k +:+ ": " +:+ dumps (S lvl) x +:+
          (fix more (l : list (string * json)) : string :=
             match l with
             | [] => nl lvl +:+ "}"
             | (k', y) :: ys =>
                 "," +:+ nl (S lvl) +:+ quote k' +:+ ": " +:+ dumps (S lvl) y +:+ more ys
             end) ms
      end
  end.

Definition json_dumps (v : json) : string := dumps 0 v.

(** *** Parsing: the scanner of [json.loads]

    A text is read to its end even where it holds what the embedding
    cannot (a float, [NaN], an infinity, a string with a surrogate that
    stands for no byte): the scanner then goes on without the value, so
    that a text [json.loads] rejects is rejected here as well. *)

Inductive parsed (A : Type) : Type :=
  | POk (a : A) (rest : string)
  | PErr                    (* JSONDecodeError *)
  | POut (rest : string)    (* well formed up to [rest], not held *)
  | PFuel.                  (* the recursion bound was reached *)
Arguments POk {A} a rest.
Arguments PErr {A}.
Arguments POut {A} rest.
Arguments PFuel {A}.

Definition taint {A} (r : parsed A) : parsed A :=
  match r with
  | POk _ rest => POut rest
  | PErr => PErr
  | POut rest => POut rest
  | PFuel => PFuel
  end.

Definition is_ws (c : ascii) : bool :=
  Ascii.eqb c " "%char || Ascii.eqb c "009"%char ||
  Ascii.eqb c "010"%char || Ascii.eqb c "013"%char.

Fixpoint skip_ws (s : string) : string :=
  match s with
  | String c t => if is_ws c then skip_ws t else s
  | EmptyString => EmptyString
  end.

Definition hexval (c : ascii) : option Z :=
  if in_range 48 57 c then Some (byte c - 48)
  else if in_range 97 102 c then Some (byte c - 87)
  else if in_range 65 70 c then Some (byte c - 55)
  else None.

Definition hex4 (h1 h2 h3 h4 : ascii) : option Z :=
  match hexval h1, hexval h2, hexval h3, hexval h4 with
  | Some a, Some b, Some c, Some d => Some (a * 4096 + b * 256 + c * 16 + d)
  | _, _, _, _ => None
  end.

Definition unescape_simple (e : ascii) : option ascii :=
  if Ascii.eqb e dquote then Some dquote
  else if Ascii.eqb e backslash then Some backslash
  else if Ascii.eqb e "/"%char then Some "/"%char
  else if Ascii.eqb e "b"%char then Some "008"%char
  else if Ascii.eqb e "f"%char then Some "012"%char
  else if Ascii.eqb e "n"%char then Some "010"%char
  else if Ascii.eqb e "r"%char then Some "013"%char
  else if Ascii.eqb e "t"%char then Some "009"%char
  else None.

Definition pcons (n : Z) (r : parsed (list Z)) : parsed (list Z) :=
  match r with
  | POk l rest => POk (n :: l) rest
  | PErr => PErr
  | POut rest => POut rest
  | PFuel => PFuel
  end.

(** The characters of a string, from just after its opening quote (strict
    mode).  A high surrogate followed by the escape of a low one is the
    character above the basic plane the pair stands for. *)
Fixpoint scan_chars (s : string) : parsed (list Z) :=
  match s with
  | EmptyString => PErr
  | String c t =>
      if Ascii.eqb c dquote then POk [] t
      else if Ascii.eqb c backslash then
        match t with
        | EmptyString => PErr
        | String e t1 =>
            if Ascii.eqb e "u"%char then
              match t1 with
              | String h1 (String h2 (String h3 (String h4 t2))) =>
                  match hex4 h1 h2 h3 h4 with
                  | Some n =>
                      if (55296 <=? n) && (n <=? 56319) then
                        match t2 with
                        | String b1 (String b2
                            (String g1 (String g2 (String g3 (String g4 t4))))) =>
                            if Ascii.eqb b1 backslash && Ascii.eqb b2 "u"%char then
                              match hex4 g1 g2 g3 g4 with
                              | Some m =>
                                  if (56320 <=? m) && (m <=? 57343)
                                  then pcons (65536 + (n - 55296) * 1024 + (m - 56320))
                                             (scan_chars t4)
                                  else pcons n (scan_chars t2)
                              | None => PErr
                              end
                            else pcons n (scan_chars t2)
                        | _ => pcons n (scan_chars t2)
                        end
                      else pcons n (scan_chars t2)
                  | None => PErr
                  end
              | _ => PErr
              end
            else
              match unescape_simple e with
              | Some ch => pcons (byte ch) (scan_chars t1)
              | None => PErr
              end
        end
      else if byte c <? 32 then PErr
      else if byte c <? 128 then pcons (byte c) (scan_chars t)
      else
        match t with
        | String c1 t1 =>
            if ok2 c c1 then pcons (cp2 c c1) (scan_chars t1)
            else
              match t1 with
              | String c2 t2 =>
                  if ok3 c c1 c2 then pcons (cp3 c c1 c2) (scan_chars t2)
                  else
                    match t2 with
                    | String c3 t3 =>
                        if ok4 c c1 c2 c3
                        then pcons (cp4 c c1 c2 c3) (scan_chars t3)
                        else pcons (56320 + byte c) (scan_chars t)
                    | EmptyString => pcons (56320 + byte c) (scan_chars t)
                    end
              | EmptyString => pcons (56320 + byte c) (scan_chars t)
              end
        | EmptyString => pcons (56320 + byte c) (scan_chars t)
        end
  end.

(** [scanstring]: the text of the characters, when the embedding holds
    them. *)
Definition scanstring (s : string) : parsed string :=
  match scan_chars s with
  | POk l rest => if holds l then POk (encode l) rest else POut rest
  | PErr => PErr
  | POut rest => POut rest
  | PFuel => PFuel
  end.

(** What follows the digits of a fraction, and of an exponent, when one
    starts here. *)
Definition after_fraction (r : string) : option string :=
  match r with
  | String c (String d t) =>
      if Ascii.eqb c "."%char && isdigit d then Some (snd (span_digits t)) else None
  | _ => None
  end.

Definition after_exponent (r : string) : option string :=
  match r with
  | String c t =>
      if Ascii.eqb c "e"%char || Ascii.eqb c "E"%char then
        match t with
        | String d t1 =>
            if isdigit d then Some (snd (span_digits t1))
            else if Ascii.eqb d "+"%char || Ascii.eqb d "-"%char then
              match t1 with
              | String x2 t2 =>
                  if isdigit x2 then Some (snd (span_digits t2)) else None
              | EmptyString => None
              end
            else None
        | EmptyString => None
        end
      else None
  | EmptyString => None
  end.

Definition starts_fraction (s : string) : bool :=
  match s with
  | String c _ => Ascii.eqb c "."%char || Ascii.eqb c "e"%char || Ascii.eqb c "E"%char
  | EmptyString => false
  end.

(** A number whose first digit [d] has been read: an integer, or, with a
    fraction or an exponent, a float. *)
Definition scan_int (neg : bool) (d : ascii) (t : string) : parsed json :=
  let '(ds, r) := if Ascii.eqb d "0"%char then (EmptyString, t) else span_digits t in
  match after_fraction r with
  | Some r1 =>
      match after_exponent r1 with
      | Some r2 => POut r2
      | None => POut r1
      end
  | None =>
      match after_exponent r with
      | Some r2 => POut r2
      | None =>
          let n := digits_value (String d ds) in
          POk (JInt (if neg then - n else n)) r
      end
  end.

Definition scan_literal (word : string) (v : json) (s : string) : parsed json :=
  if String.prefix word s
  then POk v (String.substring (String.length word) (String.length s - String.length word) s)
  else PErr.

(** [NaN], [Infinity] and [-Infinity], which [json.loads] reads as
    floats. *)
Definition scan_constant (word : string) (s : string) : parsed json :=
  taint (scan_literal word JNull s).

(** A dictionary receives a key: an existing key keeps its place. *)
Fixpoint dict_set (k : string) (v : json) (d : list (string * json))
  : list (string * json) :=
  match d with
  | [] => [(k, v)]
  | (k', v') :: t =>
      if String.eqb k k' then (k', v) :: t else (k', v') :: dict_set k v t
  end.

(** What follows a member whose key or value is not held. *)
Definition member_not_held (next : string -> parsed json) (r2 : string)
  : parsed json :=
  match skip_ws r2 with
  | String c2 r3 =>
      if Ascii.eqb c2 "}"%char then POut r3
      else if Ascii.eqb c2 ","%char then
        match skip_ws r3 with
        | String c3 r4 => if Ascii.eqb c3 dquote then taint (next r4) else PErr
        | EmptyString => PErr
        end
      else PErr
  | EmptyString => PErr
  end.

Fixpoint parse_value (fuel : nat) (s : string) {struct fuel} : parsed json :=
  match fuel with
  | O => PFuel
  | S f =>
      match s with
      | EmptyString => PErr
      | String c t =>
          if Ascii.eqb c dquote then
            match scanstring t with
            | POk str r => POk (JStr str) r
            | PErr => PErr
            | POut r => POut r
            | PFuel => PFuel
            end
          else if Ascii.eqb c "{"%char then
            match skip_ws t with
            | String c1 r =>
                if Ascii.eqb c1 "}"%char then POk (JObj []) r
                else if Ascii.eqb c1 dquote then parse_members f r []
                else PErr
            | EmptyString => PErr
            end
          else if Ascii.eqb c "["%char then
            match skip_ws t with
            | String c1 r =>
                if Ascii.eqb c1 "]"%char then POk (JArr []) r
                else parse_items f (String c1 r) []
            | EmptyString => PErr
            end
          else if Ascii.eqb c "n"%char then scan_literal "ull" JNull t
          else if Ascii.eqb c "t"%char then scan_literal "rue" (JBool true) t
          else if Ascii.eqb c "f"%char then scan_literal "alse" (JBool false) t
          else if Ascii.eqb c "-"%char then
            match t with
            | String d t1 =>
                if isdigit d then scan_int true d t1
                else if Ascii.eqb d "I"%char then scan_constant "nfinity" t1
                else PErr
            | EmptyString => PErr
            end
          else if isdigit c then scan_int false c t
          else if Ascii.eqb c "N"%char then scan_constant "aN" t
          else if Ascii.eqb c "I"%char then scan_constant "nfinity" t
          else PErr
      end
  end

(** The items of an array, [s] standing at the start of an item. *)
with parse_items (fuel : nat) (s : string) (acc : list json) {struct fuel}
  : parsed json :=
  match fuel with
  | O => PFuel
  | S f =>
      match parse_value f s with
      | POk v r =>
          match skip_ws r with
          | String c1 r1 =>
              if Ascii.eqb c1 "]"%char then POk (JArr (acc ++ [v])) r1
              else if Ascii.eqb c1 ","%char then parse_items f (skip_ws r1) (acc ++ [v])
              else PErr
          | EmptyString => PErr
          end
      | PErr => PErr
      | POut r =>
          match skip_ws r with
          | String c1 r1 =>
              if Ascii.eqb c1 "]"%char then POut r1
              else if Ascii.eqb c1 ","%char then taint (parse_items f (skip_ws r1) acc)
              else PErr
          | EmptyString => PErr
          end
      | PFuel => PFuel
      end
  end

(** The members of an object, [s] standing just after the opening quote
    of a key. *)
with parse_members (fuel : nat) (s : string) (acc : list (string * json))
       {struct fuel} : parsed json :=
  match fuel with
  | O => PFuel
  | S f =>
      match scanstring s with
      | POk k r =>
          match skip_ws r with
          | String c1 r1 =>
              if Ascii.eqb c1 ":"%char then
                match parse_value f (skip_ws r1) with
                | POk v r2 =>
                    match skip_ws r2 with
                    | String c2 r3 =>
                        if Ascii.eqb c2 "}"%char then POk (JObj (dict_set k v acc)) r3
                        else if Ascii.eqb c2 ","%char then
                          match skip_ws r3 with
                          | String c3 r4 =>
                              if Ascii.eqb c3 dquote
                              then parse_members f r4 (dict_set k v acc)
                              else PErr
                          | EmptyString => PErr
                          end
                        else PErr
                    | EmptyString => PErr
                    end
                | PErr => PErr
                | POut r2 => member_not_held (fun r4 => parse_members f r4 acc) r2
                | PFuel => PFuel
                end
              else PErr
          | EmptyString => PErr
          end
      | PErr => PErr
      | POut r =>
          match skip_ws r with
          | String c1 r1 =>
              if Ascii.eqb c1 ":"%char then
                match parse_value f (skip_ws r1) with
                | POk _ r2 => member_not_held (fun r4 => parse_members f r4 acc) r2
                | PErr => PErr
                | POut r2 => member_not_held (fun r4 => parse_members f r4 acc) r2
                | PFuel => PFuel
                end
              else PErr
          | EmptyString => PErr
          end
      | PFuel => PFuel
      end
  end.

(** [json.loads(text)]: one value, blank space around it, nothing else.
    The bound on the recursion is never reached. *)
Definition json_loads (text : string) : result json :=
  match parse_value (2 * String.length text + 2) (skip_ws text) with
  | POk v r =>
      match skip_ws r with
      | EmptyString => Ok v
      | String _ _ => Raise JSONDecodeError
      end
  | PErr => Raise JSONDecodeError
  | POut r =>
      match skip_ws r with
      | EmptyString => OutsideModel
      | String _ _ => Raise JSONDecodeError
      end
  | PFuel => OutsideModel
  end.

(** [json.load(f)] on a file opened as text: [f.read()] decodes the bytes
    of the file strictly, [json.loads] reads the text. *)
Definition json_load (content : string) : result json :=
  if well_formed content then json_loads content else Raise UnicodeDecodeError.

(** [d.get(k)] and [k in d] on the members of an object. *)
Fixpoint dict_get (k : string) (d : list (string * json)) : option json :=
  match d with
  | [] => None
  | (k', v) :: t => if String.eqb k k' then Some v else dict_get k t
  end.

End Json.

(** ** Stateful code: a state is threaded, an exception keeps the state
    reached when it was raised *)

Inductive outcome (S A : Type) : Type :=
  | Done (a : A) (s : S)
  | Throw (e : exn) (s : S)
  | Beyond.                      (* outside the model *)
Arguments Done {S A} a s.
Arguments Throw {S A} e s.
Arguments Beyond {S A}.

(** ** The files the session store touches *)

Record FS : Type := {
  sessions_file : option string;   (* USER_SESSIONS_FILE: its text, if it exists *)
  sessions_lock : bool             (* SESSIONS_LOCK_FILE exists *)
}.

Definition set_sessions_file (f : option string) (fs : FS) : FS :=
  {| sessions_file := f; sessions_lock := sessions_lock fs |}.

Definition set_sessions_lock (b : bool) (fs : FS) : FS :=
  {| sessions_file := sessions_file fs; sessions_lock := b |}.

(** What can go wrong while the mirror is rewritten: [open(..., 'w')] fails,
    or a write fails once [k] characters have reached the file. *)
Inductive io_fault : Type :=
  | NoFault
  | OpenFails
  | WriteFails (k : nat).

(** A program state that holds the files. *)
Class HasFS (S : Type) : Type := {
  the_fs : S -> FS;
  with_fs : FS -> S -> S;
  the_with_fs : forall f s, the_fs (with_fs f s) = f
}.

#[export] Instance FS_HasFS : HasFS FS :=
  {| the_fs := fun f => f; with_fs := fun f _ => f;
     the_with_fs := fun _ _ => eq_refl |}.

(** ** [class FileLock], on the marker [SESSIONS_LOCK_FILE] *)

Module FileLock.

(** [acquire]: each round of the loop tries [open(lock_file, 'x')]; when
    the marker exists it sleeps and tries again, until the timeout has
    let [tries] rounds pass.  No other process runs in between. *)
Fixpoint acquire (tries : nat) (fs : FS) : bool * FS :=
  match tries with
  | O => (false, fs)
  | S n =>
      if sessions_lock fs
      then acquire n fs
      else (true, set_sessions_lock true fs)
  end.

(** The rounds the default [timeout=5] allows with its sleeps of 0.1 s. *)
Definition DEFAULT_TRIES : nat := 50.

(** [release]: removes the marker when it exists. *)
Definition release (fs : FS) : FS :=
  if sessions_lock fs then set_sessions_lock false fs else fs.

(** [__enter__] *)
Definition enter {S} `{HasFS S} (s : S) : outcome S unit :=
  match acquire DEFAULT_TRIES (the_fs s) with
  | (true, fs') => Done tt (with_fs fs' s)
  | (false, fs') => Throw LockError (with_fs fs' s)
  end.

(** [__exit__] *)
Definition exit {S} `{HasFS S} (s : S) : S := with_fs (release (the_fs s)) s.

(** [with FileLock(SESSIONS_LOCK_FILE): body] *)
Definition with_lock {S A} `{HasFS S} (body : S -> outcome S A) (s : S)
  : outcome S A :=
  match enter s with
  | Done _ s1 =>
      match body s1 with
      | Done a s2 => Done a (exit s2)
      | Throw e s2 => Throw e (exit s2)
      | Beyond => Beyond
      end
  | Throw e s1 => Throw e s1
  | Beyond => Beyond
  end.

End FileLock.

(** ** [cleanup_lock_files] *)

(** [cleanup_lock_files], on the marker of the sessions file: the marker
    is removed when it exists (no removal raises). *)
Definition cleanup_lock_files (f : FS) : FS :=
  if sessions_lock f then set_sessions_lock false f else f.

(** ** [class PCBuilderSession] *)

Import PyStr Json.

Record Message : Type := { role : string; text : string }.

Record PCBuilderSession : Type := {
  user_id : Z;
  chat_history : list Message;
  answers : gmap string string;
  build_result : string;
  refinement_mode : bool;
  conversation_mode : bool;
  feedback_mode : bool;
  user_feedback : string;
  build_edits : list string;
  created_at : option string;
  last_activity : option string
}.

(** [__init__]; [now] is [datetime.now().isoformat()]. *)
Definition new_session (uid : Z) (now : string) : PCBuilderSession :=
  {| user_id := uid; chat_history := []; answers := ∅;
     build_result := EmptyString;
     refinement_mode := false; conversation_mode := false; feedback_mode := false;
     user_feedback := EmptyString; build_edits := [];
     created_at := Some now; last_activity := Some now |}.

Definition set_chat_history (h : list Message) (s : PCBuilderSession) :=
  {| user_id := user_id s; chat_history := h; answers := answers s;
     build_result := build_result s; refinement_mode := refinement_mode s;
     conversation_mode := conversation_mode s; feedback_mode := feedback_mode s;
     user_feedback := user_feedback s; build_edits := build_edits s;
     created_at := created_at s; last_activity := last_activity s |}.

Definition set_build_result (b : string) (s : PCBuilderSession) :=
  {| user_id := user_id s; chat_history := chat_history s; answers := answers s;
     build_result := b; refinement_mode := refinement_mode s;
     conversation_mode := conversation_mode s; feedback_mode := feedback_mode s;
     user_feedback := user_feedback s; build_edits := build_edits s;
     created_at := created_at s; last_activity := last_activity s |}.

Definition set_refinement_mode (b : bool) (s : PCBuilderSession) :=
  {| user_id := user_id s; chat_history := chat_history s; answers := answers s;
     build_result := build_result s; refinement_mode := b;
     conversation_mode := conversation_mode s; feedback_mode := feedback_mode s;
     user_feedback := user_feedback s; build_edits := build_edits s;
     created_at := created_at s; last_activity := last_activity s |}.

Definition set_conversation_mode (b : bool) (s : PCBuilderSession) :=
  {| user_id := user_id s; chat_history := chat_history s; answers := answers s;
     build_result := build_result s; refinement_mode := refinement_mode s;
     conversation_mode := b; feedback_mode := feedback_mode s;
     user_feedback := user_feedback s; build_edits := build_edits s;
     created_at := created_at s; last_activity := last_activity s |}.

Definition set_feedback_mode (b : bool) (s : PCBuilderSession) :=
  {| user_id := user_id s; chat_history := chat_history s; answers := answers s;
     build_result := build_result s; refinement_mode := refinement_mode s;
     conversation_mode := conversation_mode s; feedback_mode := b;
     user_feedback := user_feedback s; build_edits := build_edits s;
     created_at := created_at s; last_activity := last_activity s |}.

Definition set_user_feedback (f : string) (s : PCBuilderSession) :=
  {| user_id := user_id s; chat_history := chat_history s; answers := answers s;
     build_result := build_result s; refinement_mode := refinement_mode s;
     conversation_mode := conversation_mode s; feedback_mode := feedback_mode s;
     user_feedback := f; build_edits := build_edits s;
     created_at := created_at s; last_activity := last_activity s |}.

Definition set_build_edits (l : list string) (s : PCBuilderSession) :=
  {| user_id := user_id s; chat_history := chat_history s; answers := answers s;
     build_result := build_result s; refinement_mode := refinement_mode s;
     conversation_mode := conversation_mode s; feedback_mode := feedback_mode s;
     user_feedback := user_feedback s; build_edits := l;
     created_at := created_at s; last_activity := last_activity s |}.

(** [update_activity] *)
Definition update_activity (now : string) (s : PCBuilderSession) :=
  {| user_id := user_id s; chat_history := chat_history s; answers := answers s;
     build_result := build_result s; refinement_mode := refinement_mode s;
     conversation_mode := conversation_mode s; feedback_mode := feedback_mode s;
     user_feedback := user_feedback s; build_edits := build_edits s;
     created_at := created_at s; last_activity := Some now |}.

Definition json_of_message (m : Message) : json :=
  JObj [("role"%string, JStr (role m)); ("text"%string, JStr (text m))].

Definition json_of_opt_str (o : option string) : json :=
  match o with
  | Some s => JStr s
  | None => JNull
  end.

Definition json_of_answers (a : gmap string string) : json :=
  JObj (map (fun kv => (kv.1, JStr kv.2)) (map_to_list a)).

(** [to_dict] *)
Definition to_dict (s : PCBuilderSession) : json :=
  JObj [ ("user_id"%string, JInt (user_id s));
         ("chat_history"%string, JArr (map json_of_message (chat_history s)));
         ("answers"%string, json_of_answers (answers s));
         ("build_result"%string, JStr (build_result s));
         ("refinement_mode"%string, JBool (refinement_mode s));
         ("conversation_mode"%string, JBool (conversation_mode s));
         ("feedback_mode"%string, JBool (feedback_mode s));
         ("user_feedback"%string, JStr (user_feedback s));
         ("build_edits"%string, JArr (map JStr (build_edits s)));
         ("created_at"%string, json_of_opt_str (created_at s));
         ("last_activity"%string, json_of_opt_str (last_activity s)) ].

(** Reading a value of the mirror back at the type the record gives the
    field.  Python stores what it finds; a value of another type leaves the
    typed model. *)
Definition as_int (v : json) : result Z :=
  match v with JInt n => Ok n | _ => OutsideModel end.

Definition as_str (v : json) : result string :=
  match v with JStr s => Ok s | _ => OutsideModel end.

Definition as_bool (v : json) : result bool :=
  match v with JBool b => Ok b | _ => OutsideModel end.

Definition as_opt_str (v : json) : result (option string) :=
  match v with
  | JStr s => Ok (Some s)
  | JNull => Ok None
  | _ => OutsideModel
  end.

Definition as_message (v : json) : result Message :=
  match v with
  | JObj d =>
      match dict_get "role" d, dict_get "text" d, d with
      | Some (JStr r), Some (JStr t), [_; _] => Ok {| role := r; text := t |}
      | _, _, _ => OutsideModel
      end
  | _ => OutsideModel
  end.

Fixpoint as_list {A} (f : json -> result A) (l : list json) : result (list A) :=
  match l with
  | [] => Ok []
  | v :: t => x <- f v ;; xs <- as_list f t ;; Ok (x :: xs)
  end.

Definition as_messages (v : json) : result (list Message) :=
  match v with JArr l => as_list as_message l | _ => OutsideModel end.

Definition as_strings (v : json) : result (list string) :=
  match v with JArr l => as_list as_str l | _ => OutsideModel end.

Fixpoint as_pairs (d : list (string * json)) : result (list (string * string)) :=
  match d with
  | [] => Ok []
  | (k, v) :: t => s <- as_str v ;; r <- as_pairs t ;; Ok ((k, s) :: r)
  end.

Definition as_answers (v : json) : result (gmap string string) :=
  match v with
  | JObj d => l <- as_pairs d ;; Ok (list_to_map l)
  | _ => OutsideModel
  end.

(** [data.get(k, default)] *)
Definition get_default (k : string) (d : list (string * json)) (default : json) : json :=
  match dict_get k d with
  | Some v => v
  | None => default
  end.

(** [from_dict]: [data['user_id']] raises on a value that is not a
    dictionary or has no such key; every other field has a default. *)
Definition from_dict (data : json) : result PCBuilderSession :=
  match data with
  | JObj d =>
      match dict_get "user_id" d with
      | None => Raise KeyError
      | Some u =>
          uid <- as_int u ;;
          ch <- as_messages (get_default "chat_history" d (JArr [])) ;;
          an <- as_answers (get_default "answers" d (JObj [])) ;;
          br <- as_str (get_default "build_result" d (JStr EmptyString)) ;;
          rm <- as_bool (get_default "refinement_mode" d (JBool false)) ;;
          cm <- as_bool (get_default "conversation_mode" d (JBool false)) ;;
          fm <- as_bool (get_default "feedback_mode" d (JBool false)) ;;
          uf <- as_str (get_default "user_feedback" d (JStr EmptyString)) ;;
          be <- as_strings (get_default "build_edits" d (JArr [])) ;;
          ca <- as_opt_str (get_default "created_at" d JNull) ;;
          la <- as_opt_str (get_default "last_activity" d JNull) ;;
          Ok {| user_id := uid; chat_history := ch; answers := an;
                build_result := br; refinement_mode := rm;
                conversation_mode := cm; feedback_mode := fm;
                user_feedback := uf; build_edits := be;
                created_at := ca; last_activity := la |}
      end
  | _ => Raise TypeError
  end.

(** ** [class SessionManager] *)

Record Store : Type := {
  sessions : gmap Z PCBuilderSession;
  fs : FS;
  errors : list exn                 (* what [logger.error] was handed *)
}.

Definition set_sessions (m : gmap Z PCBuilderSession) (st : Store) : Store :=
  {| sessions := m; fs := fs st; errors := errors st |}.

Definition set_fs (f : FS) (st : Store) : Store :=
  {| sessions := sessions st; fs := f; errors := errors st |}.

Definition log_error (e : exn) (st : Store) : Store :=
  {| sessions := sessions st; fs := fs st; errors := errors st ++ [e] |}.

#[export] Instance Store_HasFS : HasFS Store :=
  {| the_fs := fs; with_fs := set_fs; the_with_fs := fun _ _ => eq_refl |}.

(** [try: body  except Exception as e: logger.error(...)] *)
Definition try_except (o : outcome Store unit) : option Store :=
  match o with
  | Done _ st => Some st
  | Throw e st => Some (log_error e st)
  | Beyond => None
  end.

Module SessionManager.

(** The loop of [load_sessions] over [data.items()]. *)
Fixpoint load_items (items : list (string * json)) (st : Store)
  : outcome Store unit :=
  match items with
  | [] => Done tt st
  | (user_id_str, session_data) :: rest =>
      match int_of_str user_id_str with
      | Ok uid =>
          match from_dict session_data with
          | Ok s => load_items rest (set_sessions (<[uid := s]> (sessions st)) st)
          | Raise e => Throw e st
          | OutsideModel => Beyond
          end
      | Raise e => Throw e st
      | OutsideModel => Beyond
      end
  end.

(** The block under the lock: [open], [json.load], the loop. *)
Definition load_locked (st : Store) : outcome Store unit :=
  match sessions_file (fs st) with
  | None => Throw OSError st
  | Some content =>
      match json_load content with
      | Ok (JObj members) => load_items members st
      | Ok _ => Throw AttributeError st
      | Raise e => Throw e st
      | OutsideModel => Beyond
      end
  end.

(** [load_sessions]; [None] when the mirror holds what the model cannot. *)
Definition load_sessions (st : Store) : option Store :=
  try_except
    match sessions_file (fs st) with
    | Some _ => FileLock.with_lock load_locked st
    | None => Done tt st
    end.

(** [__init__], on the files [f]. *)
Definition init (f : FS) : option Store :=
  load_sessions {| sessions := ∅; fs := f; errors := [] |}.

(** The dictionary [save_sessions] hands to [json.dump]. *)
Definition mirror_of (m : gmap Z PCBuilderSession) : json :=
  JObj (map (fun kv => (str_of_Z kv.1, to_dict kv.2)) (map_to_list m)).

(** [open(USER_SESSIONS_FILE, 'w')] truncates the file; [json.dump] then
    writes the text front to back. *)
Definition write_mirror (fault : io_fault) (content : string) (st : Store)
  : outcome Store unit :=
  match fault with
  | OpenFails => Throw OSError st
  | WriteFails k =>
      Throw OSError (set_fs (set_sessions_file (Some (take k content)) (fs st)) st)
  | NoFault =>
      Done tt (set_fs (set_sessions_file (Some content) (fs st)) st)
  end.

(** [save_sessions] *)
Definition save_sessions (fault : io_fault) (st : Store) : Store :=
  let data := mirror_of (sessions st) in
  match try_except (FileLock.with_lock (write_mirror fault (json_dumps data)) st) with
  | Some st' => st'
  | None => st
  end.

(** [get_session] *)
Definition get_session (uid : Z) (now : string) (st : Store)
  : PCBuilderSession * Store :=
  let m := match sessions st !! uid with
           | Some _ => sessions st
           | None => <[uid := new_session uid now]> (sessions st)
           end in
  let s := update_activity now (default (new_session uid now) (m !! uid)) in
  (s, set_sessions (<[uid := s]> m) st).

(** [clear_session] *)
Definition clear_session (fault : io_fault) (uid : Z) (st : Store) : Store :=
  save_sessions fault (set_sessions (delete uid (sessions st)) st).

End SessionManager.

(** ** Staleness eviction *)

(** A parsed time stamp: microseconds on the local time line, and whether
    the text carried a UTC offset (an aware [datetime]). *)
Record datetime : Type := { micros : Z; aware : bool }.

Section Cleanup.

(** [datetime.fromisoformat], on text; [None] is its [ValueError]. *)
Variable fromisoformat : string -> option datetime.

(** The body of the loop of [cleanup_old_sessions] for one session:
    [true] when the user is appended to [to_remove].  [cutoff] is naive,
    so comparing an aware time stamp with it raises, like a missing or
    unreadable one; the bare [except] catches all three. *)
Definition stale (cutoff : Z) (s : PCBuilderSession) : bool :=
  match last_activity s with
  | None => true
  | Some t =>
      match fromisoformat t with
      | None => true
      | Some d => if aware d then true else micros d <? cutoff
      end
  end.

Definition MICROS_PER_HOUR : Z := 3600000000.

(** The list [to_remove] the first loop builds. *)
Definition to_remove_of (cutoff : Z) (m : gmap Z PCBuilderSession) : list Z :=
  map fst (List.filter (fun kv => stale cutoff kv.2) (map_to_list m)).

(** [cleanup_old_sessions]; [now] is [datetime.now()] in microseconds.
    The result also tells whether [save_sessions] ran. *)
Definition cleanup_old_sessions (max_age_hours : Z) (now : Z) (fault : io_fault)
    (st : Store) : Store * bool :=
  let cutoff := now - max_age_hours * MICROS_PER_HOUR in
  let to_remove := to_remove_of cutoff (sessions st) in
  let st1 := set_sessions (foldl (fun m uid => delete uid m) (sessions st) to_remove) st in
  match to_remove with
  | [] => (st1, false)
  | _ :: _ => (SessionManager.save_sessions fault st1, true)
  end.

End Cleanup.

(** ** The completion policy *)

Definition REQUIRED_FIELDS : list string :=
  ["budget"; "color"; "rgb_level"; "aesthetics"; "use_case"; "upgradeability";
   "extra_notes"]%string.

Definition SPACE : string := " ".

(** [field in collected_fields] *)
Definition mem (field : string) (collected : list string) : bool :=
  existsb (String.eqb field) collected.

(** [field in session.answers and session.answers[field]] *)
Definition answered (a : gmap string string) (field : string) : bool :=
  match a !! field with
  | Some v => negb (String.eqb v EmptyString)
  | None => false
  end.

(** The lower-cased transcript [chat_text]. *)
Definition chat_text_of (h : list Message) : string :=
  lower (join SPACE (map text h)).

Definition BUDGET_WORDS : list string :=
  ["$"; "dollar"; "budget"; "price"; "cost"; "around"; "under"; "over"]%string.
Definition COLOR_WORDS : list string :=
  ["black"; "white"; "red"; "blue"; "green"; "pink"; "purple"; "rgb"]%string.
Definition RGB_WORDS : list string :=
  ["rgb"; "light"; "led"; "none"; "lots"; "some"]%string.
Definition AESTHETICS_WORDS : list string :=
  ["look"; "aesthetic"; "style"; "performance"; "balanced"]%string.
Definition USE_CASE_WORDS : list string :=
  ["fortnite"; "league"; "minecraft"; "valorant"; "gaming"; "streaming"; "work"]%string.
Definition UPGRADE_WORDS : list string :=
  ["upgrade"; "wont"; "won't"; "might"; "will"; "nah"]%string.
Definition EXTRA_WORDS : list string :=
  ["special"; "request"; "requirement"; "need"; "want"; "none"; "no"; "nah"]%string.

(** One [if field not in collected_fields: if <test>: add(field)] block. *)
Definition add_if (field : string) (test : bool) (collected : list string)
  : list string :=
  if mem field collected then collected
  else if test then field :: collected else collected.

Definition are_all_fields_collected (session : PCBuilderSession) : bool :=
  let collected0 := List.filter (answered (answers session)) REQUIRED_FIELDS in
  let chat_text := chat_text_of (chat_history session) in
  let c1 := add_if "budget" (any_in BUDGET_WORDS chat_text && any_digit chat_text) collected0 in
  let c2 := add_if "color" (any_in COLOR_WORDS chat_text) c1 in
  let c3 := add_if "rgb_level" (any_in RGB_WORDS chat_text) c2 in
  let c4 := add_if "aesthetics" (any_in AESTHETICS_WORDS chat_text) c3 in
  let c5 := add_if "use_case" (any_in USE_CASE_WORDS chat_text) c4 in
  let c6 := add_if "upgradeability" (any_in UPGRADE_WORDS chat_text) c5 in
  let c7 := add_if "extra_notes" (any_in EXTRA_WORDS chat_text) c6 in
  let essential_collected :=
    length (List.filter (fun f => mem f c7) REQUIRED_FIELDS) in
  (7 <=? essential_collected)%nat.

(** The policy in the words of the specification: a slot is satisfied by a
    non-empty structured answer, or by a keyword of its set somewhere in the
    transcript (the budget slot also wants a digit somewhere in it). *)
Definition slot_words (field : string) : list string :=
  if String.eqb field "budget" then BUDGET_WORDS
  else if String.eqb field "color" then COLOR_WORDS
  else if String.eqb field "rgb_level" then RGB_WORDS
  else if String.eqb field "aesthetics" then AESTHETICS_WORDS
  else if String.eqb field "use_case" then USE_CASE_WORDS
  else if String.eqb field "upgradeability" then UPGRADE_WORDS
  else if String.eqb field "extra_notes" then EXTRA_WORDS
  else [].

Definition mentions (ws : list string) (texts : list string) : bool :=
  existsb (fun t => any_in ws (lower t)) texts.

Definition slot_satisfied (a : gmap string string) (texts : list string)
    (field : string) : bool :=
  answered a field ||
  (mentions (slot_words field) texts &&
   (if String.eqb field "budget" then existsb (fun t => any_digit t) texts else true)).

Definition covers_all_slots (a : gmap string string) (texts : list string) : bool :=
  forallb (slot_satisfied a texts) REQUIRED_FIELDS.

(** The count the [!status] command shows in conversation mode:
    [len([k for k in REQUIRED_FIELDS if session.answers.get(k)])]. *)
Definition status_collected (session : PCBuilderSession) : nat :=
  length (List.filter (answered (answers session)) REQUIRED_FIELDS).

(** ** The budget ceiling of [build_prompt] *)

Module Budget.

(** Python floats are IEEE 754 binary64 numbers. *)
Definition prec : Z := 53.
Definition emax : Z := 1024.

(** The literal [0.85]: the double nearest to it. *)
Definition f085 : spec_float := S754_finite false 7656119366529843 (-53).

(** [float(n)]: the nearest double, [OverflowError] beyond the range. *)
Definition float_of_int (n : Z) : result spec_float :=
  match binary_normalize prec emax n 0 false with
  | S754_infinity _ => Raise OverflowError
  | S754_nan => Raise OverflowError
  | f => Ok f
  end.

(** [int(x)]: truncation towards zero. *)
Definition int_of_float (x : spec_float) : result Z :=
  match x with
  | S754_zero _ => Ok 0
  | S754_finite s m e =>
      Ok (cond_Zopp s (if 0 <=? e then Z.pos m * 2 ^ e else Z.pos m / 2 ^ (- e)))
  | S754_infinity _ => Raise OverflowError
  | S754_nan => Raise ValueError
  end.

(** [int(budget_val * 0.85)] *)
Definition reduced_of (budget_val : Z) : result Z :=
  x <- float_of_int budget_val ;;
  int_of_float (SFmul prec emax x f085).

(** The regular expression search of [build_prompt] (one or more digits,
    then any digits or commas) on a text whose commas were removed: the
    first run of digits. *)
Fixpoint search_number (s : string) : option string :=
  match s with
  | EmptyString => None
  | String c t =>
      if isdigit c then Some (fst (span_digits s)) else search_number t
  end.

Definition GAMING_WORDS : list string := ["fortnite"; "gaming"; "game"]%string.
Definition MONEY_WORDS : list string :=
  ["budget"; "cost"; "price"; "spend"; "afford"]%string.

(** The value [build_prompt] binds to [adjusted_budget] for a budget text. *)
Definition ceiling_of_text (budget_text : string) : result Z :=
  match search_number (remove_char ","%char budget_text) with
  | Some digits =>
      let budget_val := digits_value (remove_char ","%char digits) in
      reduced <- reduced_of budget_val ;;
      let adjusted_budget := Z.min reduced (budget_val - 200) in
      Ok (if budget_val - adjusted_budget <? 200
          then budget_val - 200
          else adjusted_budget)
  | None =>
      let budget_lower := lower budget_text in
      if any_in GAMING_WORDS budget_lower then Ok 800
      else if any_in MONEY_WORDS budget_lower then Ok 1200
      else Ok 1000
  end.

(** [session.answers.get('budget', '$1000')], then the above. *)
Definition adjusted_budget (session : PCBuilderSession) : result Z :=
  ceiling_of_text (default "$1000"%string (answers session !! "budget"%string)).

End Budget.

(** ** The generation collaborator and the message handlers *)

(** What [model.generate_content] does on one call: it hands back a
    response whose text may be empty, or it raises (an error or a timeout);
    [msg] is [str(e)]. *)
Inductive reply : Type :=
  | Reply (content : string)
  | Failure (msg : string).

(** What leaves the bot on a turn. *)
Inductive event : Type :=
  | Send (content : string)     (* a message, or an embed with this description *)
  | Generating                  (* [generate_build_from_conversation] was entered *)
  | BuildShown (doc : string)   (* the build was rendered and feedback asked for *)
  | ProcessCommands.            (* the message was handed to [bot.process_commands] *)

Definition CROSS : string := "âŒ".

Definition MSG_NO_PARTS : string :=
  CROSS +:+ " Error: Could not load parts data. Please contact an administrator.".
Definition MSG_EMPTY_BUILD : string :=
  CROSS +:+ " Error: Could not generate build recommendation. Please try again.".
Definition MSG_BUILD_ERROR (e : string) : string :=
  CROSS +:+ " Error generating build: " +:+ e.
Definition MSG_NO_PARTS_REFINE : string :=
  CROSS +:+ " Error: Could not load parts data for refinement.".
Definition MSG_REFINE_EMPTY : string :=
  "I'm here to help! What would you like to know about your build or what changes are you thinking about?".
Definition MSG_REFINE_SORRY : string :=
  "Sorry, I ran into an issue there. What were you thinking about changing or asking about your build?".
Definition MSG_CONV_EMPTY : string :=
  "I'm here to help! What would you like to know about building a PC?".
Definition MSG_CONV_SORRY : string :=
  "Sorry, I ran into an issue there. What would you like to know about building a PC?".
Definition MSG_CANCELLED : string :=
  CROSS +:+ " PC build cancelled. Use `!build` to start again.".
Definition MSG_DONE : string :=
  "ðŸŽ‰ Awesome! Enjoy your new PC build! Use `!build` anytime to create another build.".
Definition MSG_THINKING : string :=
  "This may take a moment while I analyze the latest parts and create your perfect build.".
Definition MSG_REGENERATING : string :=
  "ðŸ”„ **Regenerating your build with the requested changes...**".
Definition LF : string := String newline EmptyString.
Definition BULLET : string := "â€¢".
Definition MSG_REFINE_INVITE : string :=
  "Thanks for the feedback! I'm here if you want to make changes or ask questions! You can:"
  +:+ LF +:+ LF +:+
  BULLET +:+ " Ask about specific parts or performance" +:+ LF +:+
  BULLET +:+ " Request upgrades or downgrades" +:+ LF +:+
  BULLET +:+ " Change colors, RGB, or aesthetics" +:+ LF +:+
  BULLET +:+ " Get compatibility advice" +:+ LF +:+
  BULLET +:+ " Or just chat about your build!" +:+ LF +:+ LF +:+
  "Just type your question or request, and I'll help you out! ðŸš€".
Definition MSG_RESTART : string :=
  "Starting fresh! Let's build you an awesome PC from scratch.".
Definition READY_TO_BUILD : string := "<READY_TO_BUILD>".

Definition exn_message (e : exn) : string :=
  match e with
  | OverflowError => "int too large to convert to float"
  | GenerationError m => m
  | _ => "error"
  end.

Definition is_empty (s : string) : bool :=
  match s with EmptyString => true | String _ _ => false end.

(** [PCBuildGenerator.generate_build]: [parts_data] is what
    [load_parts_data] returned, [r] what the collaborator does with the
    prompt.  Every exception ends in the error text. *)
Definition generate_build (parts_data : string) (r : reply)
    (session : PCBuilderSession) : string :=
  if is_empty parts_data then MSG_NO_PARTS
  else
    match Budget.adjusted_budget session with
    | Ok _ =>
        match r with
        | Reply result => if is_empty result then MSG_EMPTY_BUILD else result
        | Failure e => MSG_BUILD_ERROR e
        end
    | Raise e => MSG_BUILD_ERROR (exn_message e)
    | OutsideModel => MSG_BUILD_ERROR (exn_message ValueError)
    end.

(** [PCBuildGenerator.handle_refinement_message] *)
Definition handle_refinement_message (parts_data : string) (r : reply) : string :=
  if is_empty parts_data then MSG_NO_PARTS_REFINE
  else
    match r with
    | Reply result => if is_empty result then MSG_REFINE_EMPTY else result
    | Failure _ => MSG_REFINE_SORRY
    end.

(** [send_build_result] *)
Definition send_build_result (session : PCBuilderSession) (build : string)
  : PCBuilderSession * list event :=
  if String.prefix CROSS build then (session, [Send build])
  else (set_feedback_mode true session, [BuildShown build]).

(** [generate_build_from_conversation] *)
Definition generate_build_from_conversation (parts_data : string) (r : reply)
    (session : PCBuilderSession) : PCBuilderSession * list event :=
  let build := generate_build parts_data r session in
  let s1 := set_conversation_mode false
              (set_refinement_mode true (set_build_result build session)) in
  let '(s2, out) := send_build_result s1 build in
  (s2, Generating :: Send MSG_THINKING :: out).

(** One inbound message and what the environment does during its turn. *)
Record Turn : Type := {
  turn_now : string;        (* [datetime.now().isoformat()] *)
  turn_content : string;    (* [message.content] *)
  turn_chat : reply;        (* the conversational call *)
  turn_parts : string;      (* [load_parts_data()] *)
  turn_build : reply;       (* the call of [generate_build] *)
  turn_refine : reply;      (* the call of [handle_refinement_message] *)
  turn_fault : io_fault     (* the rewrite of the mirror, if one happens *)
}.

Definition with_chat (r : reply) (t : Turn) : Turn :=
  {| turn_now := turn_now t; turn_content := turn_content t; turn_chat := r;
     turn_parts := turn_parts t; turn_build := turn_build t;
     turn_refine := turn_refine t; turn_fault := turn_fault t |}.

Definition with_refine (r : reply) (t : Turn) : Turn :=
  {| turn_now := turn_now t; turn_content := turn_content t; turn_chat := turn_chat t;
     turn_parts := turn_parts t; turn_build := turn_build t;
     turn_refine := r; turn_fault := turn_fault t |}.

(** The three phase flags of a session. *)
Definition phase_flags (s : PCBuilderSession) : bool * bool * bool :=
  (conversation_mode s, refinement_mode s, feedback_mode s).

(** [handle_conversation_mode] *)
Definition handle_conversation_mode (t : Turn) (session : PCBuilderSession)
  : PCBuilderSession * list event :=
  let s1 := set_chat_history
              (chat_history session ++ [{| role := "user"; text := turn_content t |}])
              session in
  match turn_chat t with
  | Failure _ => (s1, [Send MSG_CONV_SORRY])
  | Reply got =>
      let ai_text := if is_empty got then MSG_CONV_EMPTY else got in
      if contains READY_TO_BUILD ai_text
      then generate_build_from_conversation (turn_parts t) (turn_build t) s1
      else if are_all_fields_collected s1
      then generate_build_from_conversation (turn_parts t) (turn_build t) s1
      else
        let s2 := set_chat_history
                    (chat_history s1 ++ [{| role := "assistant"; text := ai_text |}])
                    s1 in
        (update_activity (turn_now t) s2, [Send ai_text])
  end.

Definition CONTROL_TOKENS : list string := ["done"; "restart"; "cancel"]%string.
Definition CHANGE_WORDS : list string :=
  ["change"; "upgrade"; "downgrade"; "replace"; "swap"; "different"; "better";
   "cheaper"; "more"; "less"; "instead"; "rather"; "prefer"]%string.

(** [handle_refinement_conversation] *)
Definition handle_refinement_conversation (t : Turn) (session : PCBuilderSession)
  : PCBuilderSession * list event :=
  let s1 := if mem (lower (turn_content t)) CONTROL_TOKENS then session
            else set_build_edits (build_edits session ++ [turn_content t]) session in
  let refinement_response := handle_refinement_message (turn_parts t) (turn_refine t) in
  let made_changes := any_in CHANGE_WORDS (lower (turn_content t)) in
  if made_changes && contains "change" (lower refinement_response)
  then
    let new_build := generate_build (turn_parts t) (turn_build t) s1 in
    let '(s2, out) := send_build_result (set_build_result new_build s1) new_build in
    (update_activity (turn_now t) s2,
     Send refinement_response :: Send MSG_REGENERATING :: out)
  else (update_activity (turn_now t) s1, [Send refinement_response]).

(** [on_message], for a message of user [uid] (not the bot itself).  A
    message of a user without a session, or whose session has no mode on,
    is handed to the command processor; what a command then does is not
    part of this step. *)
Definition on_message (uid : Z) (t : Turn) (st : Store) : Store * list event :=
  match sessions st !! uid with
  | None => (st, [ProcessCommands])
  | Some _ =>
      let '(session, st1) := SessionManager.get_session uid (turn_now t) st in
      let put s := set_sessions (<[uid := s]> (sessions st1)) st1 in
      if String.eqb (lower (turn_content t)) "cancel" then
        (SessionManager.clear_session (turn_fault t) uid st1, [Send MSG_CANCELLED])
      else if String.eqb (lower (turn_content t)) "restart" then
        let st2 := SessionManager.clear_session (turn_fault t) uid st1 in
        let '(fresh, st3) := SessionManager.get_session uid (turn_now t) st2 in
        let '(s', out) := handle_conversation_mode t (set_conversation_mode true fresh) in
        (set_sessions (<[uid := s']> (sessions st3)) st3, Send MSG_RESTART :: out)
      else if feedback_mode session then
        (put (set_refinement_mode true
                (set_feedback_mode false
                   (set_user_feedback (turn_content t) session))),
         [Send MSG_REFINE_INVITE])
      else if String.eqb (lower (turn_content t)) "done" then
        (SessionManager.clear_session (turn_fault t) uid st1, [Send MSG_DONE])
      else if refinement_mode session then
        let '(s', out) := handle_refinement_conversation t session in (put s', out)
      else if conversation_mode session then
        let '(s', out) := handle_conversation_mode t session in (put s', out)
      else (st1, [ProcessCommands])
  end.

(** The turns of a conversation, one after the other. *)
Fixpoint run (uid : Z) (turns : list Turn) (st : Store) : Store * list event :=
  match turns with
  | [] => (st, [])
  | t :: rest =>
      let '(st1, out1) := on_message uid t st in
      let '(st2, out2) := run uid rest st1 in
      (st2, out1 ++ out2)
  end.

(** Whether a message was handed to the command processor. *)
Definition handed_over (out : list event) : bool :=
  existsb (fun e => match e with ProcessCommands => true | _ => false end) out.

(** How often the session left Collecting for Generating. *)
Definition transitions (out : list event) : nat :=
  length (List.filter (fun e => match e with Generating => true | _ => false end) out).

Definition set_answers (a : gmap string string) (s : PCBuilderSession) :=
  {| user_id := user_id s; chat_history := chat_history s; answers := a;
     build_result := build_result s; refinement_mode := refinement_mode s;
     conversation_mode := conversation_mode s; feedback_mode := feedback_mode s;
     user_feedback := user_feedback s; build_edits := build_edits s;
     created_at := created_at s; last_activity := last_activity s |}.

(** The block of [start_build] that opens the session, reached when the
    user has no session and the thread was created: [get_session], then
    the five assignments that reset it. *)
Definition start_build_session (uid : Z) (now : string) (st : Store)
  : PCBuilderSession * Store :=
  let '(session, st1) := SessionManager.get_session uid now st in
  let s := set_build_result EmptyString
             (set_refinement_mode false
                (set_conversation_mode true
                   (set_answers ∅ (set_chat_history [] session)))) in
  (s, set_sessions (<[uid := s]> (sessions st1)) st1).

(** ** The collective file of builds *)

Definition BUILD_MARKER : string := "=== BUILD #".

(** [s[k:]] *)
Fixpoint drop_chars (k : nat) (s : string) : string :=
  match k, s with
  | S k', String _ t => drop_chars k' t
  | _, _ => s
  end.

(** [s.count(w)]: the occurrences of [w] in [s], taken from left to right
    without overlap.  Every step passes a character, so the length of [s]
    is fuel enough; between any two characters, and at both ends, the
    empty text occurs once. *)
Fixpoint count_from (w : string) (fuel : nat) (s : string) : nat :=
  match fuel with
  | O => 0%nat
  | S f =>
      match s with
      | EmptyString => 0%nat
      | String _ t =>
          if String.prefix w s
          then S (count_from w f (drop_chars (String.length w) s))
          else count_from w f t
      end
  end.

Definition str_count (w s : string) : nat :=
  if is_empty w then S (String.length s)
  else count_from w (String.length s) s.

(** [get_build_number]; [file] is the text of [collective_builds.txt] if
    the file exists, [readable] tells whether opening and reading it
    succeed. *)
Definition get_build_number (readable : bool) (file : option string) : Z :=
  match file with
  | Some content =>
      if readable then Z.of_nat (str_count BUILD_MARKER content) + 1 else 1
  | None => 1
  end.

(** The end of [save_build_to_collective_file], once the entry is made:
    the number is taken, then, under the lock of the collective file, three
    writes append to it ([open] in mode ['a'] creates the file).  [held]
    tells that the marker [COLLECTIVE_LOCK_FILE] exists: the lock is then
    not acquired and nothing is written. *)
Definition write_build (readable held : bool) (timestamp compressed_entry : string)
    (file : option string) : option string :=
  let build_number := get_build_number readable file in
  if held then file
  else Some (default EmptyString file +:+
             "=== BUILD #" +:+ str_of_Z build_number +:+ " - " +:+ timestamp +:+
             " ===" +:+ String newline EmptyString +:+
             compressed_entry +:+ String newline (String newline EmptyString)).

(** ** The parts list of a build text *)

(** Here a text is the sequence of its code points, so that [len] counts
    characters and [strip] removes the blanks of Unicode. *)
Definition COLON : Z := 58.
Definition LINE_FEED : Z := 10.
Definition HTTP : list Z := [104; 116; 116; 112].

(** [c.isspace()] for one character. *)
Definition is_blank (c : Z) : bool :=
  ((9 <=? c) && (c <=? 13)) || ((28 <=? c) && (c <=? 32)) ||
  (c =? 133) || (c =? 160) || (c =? 5760) ||
  ((8192 <=? c) && (c <=? 8202)) ||
  (c =? 8232) || (c =? 8233) || (c =? 8239) || (c =? 8287) || (c =? 12288).

(** [s.split('\n')] *)
Fixpoint split_lines (s : list Z) : list (list Z) :=
  match s with
  | [] => [[]]
  | c :: t =>
      if c =? LINE_FEED then [] :: split_lines t
      else match split_lines t with
           | line :: rest => (c :: line) :: rest
           | [] => [[c]]
           end
  end.

(** [s.startswith(w)] *)
Fixpoint starts_with (w s : list Z) : bool :=
  match w, s with
  | [], _ => true
  | x :: w', y :: s' => (x =? y) && starts_with w' s'
  | _ :: _, [] => false
  end.

(** [s.lstrip()] and [s.strip()] *)
Fixpoint lstrip_blanks (s : list Z) : list Z :=
  match s with
  | c :: t => if is_blank c then lstrip_blanks t else s
  | [] => []
  end.

Definition strip_blanks (s : list Z) : list Z :=
  reverse (lstrip_blanks (reverse (lstrip_blanks s))).

(** The test a line of the build has to pass. *)
Definition part_line (line : list Z) : bool :=
  existsb (Z.eqb COLON) line && negb (starts_with HTTP line) &&
  (length line <? 200)%nat.

(** [extract_parts_from_build] *)
Definition extract_parts_from_build (build_result : list Z) : list (list Z) :=
  flat_map
    (fun line =>
       if part_line line
       then match strip_blanks line with
            | [] => []
            | _ :: _ => [strip_blanks line]
            end
       else [])
    (split_lines build_result).

(** ** Notions the properties are stated with *)

(** A keyword that a blank cannot be part of, and that is not empty. *)
Fixpoint no_space (w : string) : bool :=
  match w with
  | EmptyString => true
  | String c t => negb (Ascii.eqb c " "%char) && no_space t
  end.

Definition keyword (w : string) : bool := no_space w && negb (is_empty w).



Definition user_message (t : Turn) : Message :=
  {| role := "user"; text := turn_content t |}.

(** Text made of decimal digits only, and text without a blank. *)
Fixpoint all_digits (s : string) : bool :=
  match s with
  | EmptyString => true
  | String c t => isdigit c && all_digits t
  end.

Fixpoint no_blank (s : string) : bool :=
  match s with
  | EmptyString => true
  | String c t => negb (is_space c) && no_blank t
  end.

(** The characters a text decodes to: no surrogate but those that stand
    for a stray byte. *)
Definition printable (n : Z) : Prop :=
  0 <= n < 55296 \/ 56448 <= n <= 56575 \/ 57344 <= n <= 1114111.

(** A verdict that is not the recursion bound, and that leaves less than
    it was given. *)
Definition settles (result : parsed json) (s : string) : Prop :=
  match result with
  | POk _ r => (String.length r < String.length s)%nat
  | PErr => True
  | POut r => (String.length r < String.length s)%nat
  | PFuel => False
  end.

(** The text after a number in the mirror never continues it. *)
Definition delimited (r : string) : bool :=
  match r with
  | EmptyString => true
  | String c _ => negb (isdigit c) && negb (starts_fraction r)
  end.

(** A text that begins a value: no blank, no closing bracket. *)
Definition starts_value (s : string) : bool :=
  match s with
  | String c _ => negb (is_ws c) && negb (Ascii.eqb c "]")
  | EmptyString => false
  end.

(** What follows the first item of an array, and the first member of an
    object, in the text [dumps] writes, with what follows the value. *)
Fixpoint items_tail (lvl : nat) (l : list json) (rest : string) : string :=
  match l with
  | [] => nl lvl +:+ String "]" rest
  | y :: ys =>
      String "," (nl (S lvl) +:+ dumps (S lvl) y +:+ items_tail lvl ys rest)
  end.

Fixpoint members_tail (lvl : nat) (l : list (string * json)) (rest : string)
  : string :=
  match l with
  | [] => nl lvl +:+ String "}" rest
  | (k, y) :: ys =>
      String "," (nl (S lvl) +:+ String dquote (escape k +:+ String dquote
        (String ":" (String " " (dumps (S lvl) y +:+ members_tail lvl ys rest)))))
  end.

(** The fuel the parser needs for a value. *)
Fixpoint size (v : json) : nat :=
  match v with
  | JArr l => S (list_sum (map (fun x => S (size x)) l))
  | JObj d => S (list_sum (map (fun kv => S (size kv.2)) d))
  | _ => 1%nat
  end.

(** A value as a Python dictionary holds it: no key twice in an object. *)
Inductive distinct_keys : json -> Prop :=
  | dk_null : distinct_keys JNull
  | dk_bool b : distinct_keys (JBool b)
  | dk_int n : distinct_keys (JInt n)
  | dk_str s : distinct_keys (JStr s)
  | dk_arr l : Forall distinct_keys l -> distinct_keys (JArr l)
  | dk_obj d :
      NoDup (map fst d) -> Forall (fun kv => distinct_keys kv.2) d ->
      distinct_keys (JObj d).

(** A value written at any depth, followed by anything that does not
    continue a number, is read back. *)
Definition reads_back (v : json) : Prop :=
  forall lvl f rest,
    distinct_keys v -> (size v <= f)%nat -> delimited rest = true ->
    parse_value f (dumps lvl v +:+ rest) = POk v rest.

(** [int(v * 0.85)] is [floor(0.85 v)], for [v] and for the [n] numbers
    from [v] on. *)
Definition floor_rule_holds (v : Z) : bool :=
  match Budget.reduced_of v with
  | Ok r => r =? 17 * v / 20
  | _ => false
  end.

Fixpoint floor_rule_from_to (n : nat) (v : Z) : bool :=
  match n with
  | O => true
  | S k => floor_rule_holds v && floor_rule_from_to k (v + 1)
  end.

(** What a message does to the session of its author, [session] being what
    [get_session] handed back: [None] when the session is cleared. *)
Definition session_after (uid : Z) (t : Turn) (session : PCBuilderSession)
  : option PCBuilderSession :=
  if String.eqb (lower (turn_content t)) "cancel" then None
  else if String.eqb (lower (turn_content t)) "restart" then
    Some (handle_conversation_mode t
            (set_conversation_mode true
               (update_activity (turn_now t) (new_session uid (turn_now t))))).1
  else if feedback_mode session then
    Some (set_refinement_mode true
            (set_feedback_mode false (set_user_feedback (turn_content t) session)))
  else if String.eqb (lower (turn_content t)) "done" then None
  else if refinement_mode session then
    Some (handle_refinement_conversation t session).1
  else if conversation_mode session then
    Some (handle_conversation_mode t session).1
  else Some session.

(** The phases of a session opened by [!build]: Collecting, Refining, and
    Refining with the feedback question open. *)
Definition well_phased (s : PCBuilderSession) : bool :=
  match phase_flags s with
  | (true, false, false) | (false, true, false) | (false, true, true) => true
  | _ => false
  end.

(** Text without a line break. *)
Fixpoint one_line (s : string) : bool :=
  match s with
  | EmptyString => true
  | String c t => negb (Ascii.eqb c newline) && one_line t
  end.

(* ===================================================================== *)
(** * Part II.  Properties                                                *)
(* ===================================================================== *)

(** ** The file lock *)

Lemma acquire_held (n : nat) (f : FS) :
  sessions_lock f = true -> FileLock.acquire n f = (false, f).
Proof.
  intros Hheld. induction n as [|n IH]; simpl; [reflexivity|].
  rewrite Hheld. exact IH.
Qed.

Lemma acquire_free (n : nat) (f : FS) :
  sessions_lock f = false ->
  FileLock.acquire (S n) f = (true, set_sessions_lock true f).
Proof. intros Hfree. simpl. rewrite Hfree. reflexivity. Qed.

Lemma acquire_default (f : FS) :
  FileLock.acquire FileLock.DEFAULT_TRIES f =
  if sessions_lock f then (false, f) else (true, set_sessions_lock true f).
Proof.
  destruct (sessions_lock f) eqn:E.
  - apply acquire_held, E.
  - apply acquire_free, E.
Qed.

Lemma release_unlocked (f : FS) : sessions_lock (FileLock.release f) = false.
Proof. unfold FileLock.release. destruct (sessions_lock f) eqn:E; simpl; auto. Qed.

Lemma release_keeps_file (f : FS) :
  sessions_file (FileLock.release f) = sessions_file f.
Proof. unfold FileLock.release. destruct (sessions_lock f); reflexivity. Qed.

Lemma exit_unlocked {S} `{HasFS S} (s : S) :
  sessions_lock (the_fs (FileLock.exit s)) = false.
Proof. unfold FileLock.exit. rewrite the_with_fs. apply release_unlocked. Qed.

(** C9.  Whenever the scoped form of the lock acquires the marker, the body
    runs with the marker held and the marker is gone when the scope is left,
    whether the body returns or raises. *)
Theorem FileLock_scope_releases {S A} `{HasFS S} (body : S -> outcome S A) (s : S) :
  fst (FileLock.acquire FileLock.DEFAULT_TRIES (the_fs s)) = true ->
  exists s1,
    sessions_lock (the_fs s1) = true /\
    (forall a s2, body s1 = Done a s2 ->
       FileLock.with_lock body s = Done a (FileLock.exit s2) /\
       sessions_lock (the_fs (FileLock.exit s2)) = false) /\
    (forall e s2, body s1 = Throw e s2 ->
       FileLock.with_lock body s = Throw e (FileLock.exit s2) /\
       sessions_lock (the_fs (FileLock.exit s2)) = false).
Proof.
  intros Hacq. rewrite acquire_default in Hacq.
  destruct (sessions_lock (the_fs s)) eqn:Hlock; [discriminate|].
  exists (with_fs (set_sessions_lock true (the_fs s)) s).
  split; [rewrite the_with_fs; reflexivity|].
  split; intros x s2 Hbody;
    (split; [|apply exit_unlocked]);
    unfold FileLock.with_lock, FileLock.enter;
    rewrite acquire_default, Hlock, Hbody; reflexivity.
Qed.

Lemma FileLock_scope_releases_witness :
  let f := {| sessions_file := None; sessions_lock := false |} in
  let body : FS -> outcome FS unit := fun x => Throw OSError x in
  fst (FileLock.acquire FileLock.DEFAULT_TRIES (the_fs f)) = true /\
  exists s1 : FS,
    sessions_lock (the_fs s1) = true /\
    (forall a s2, body s1 = Done a s2 ->
       FileLock.with_lock body f = Done a (FileLock.exit s2) /\
       sessions_lock (the_fs (FileLock.exit s2)) = false) /\
    (forall e s2, body s1 = Throw e s2 ->
       FileLock.with_lock body f = Throw e (FileLock.exit s2) /\
       sessions_lock (the_fs (FileLock.exit s2)) = false).
Proof.
  intros f body. split; [reflexivity|].
  apply (FileLock_scope_releases body f). reflexivity.
Defined.

(** ** The session manager: what a flush does *)

Lemma with_lock_store {A} (body : Store -> outcome Store A) (st : Store) :
  FileLock.with_lock body st =
  if sessions_lock (fs st) then Throw LockError st
  else match body (set_fs (set_sessions_lock true (fs st)) st) with
       | Done a s2 => Done a (FileLock.exit s2)
       | Throw e s2 => Throw e (FileLock.exit s2)
       | Beyond => Beyond
       end.
Proof.
  unfold FileLock.with_lock, FileLock.enter. simpl the_fs.
  rewrite acquire_default.
  destruct (sessions_lock (fs st)) eqn:E; simpl; [|reflexivity].
  destruct st; reflexivity.
Qed.

Lemma save_sessions_eq (fault : io_fault) (st : Store) :
  SessionManager.save_sessions fault st =
  let content := json_dumps (SessionManager.mirror_of (sessions st)) in
  if sessions_lock (fs st) then log_error LockError st
  else match fault with
       | NoFault =>
           set_fs {| sessions_file := Some content; sessions_lock := false |} st
       | OpenFails =>
           log_error OSError (set_fs (set_sessions_lock false (fs st)) st)
       | WriteFails k =>
           log_error OSError
             (set_fs {| sessions_file := Some (take k content); sessions_lock := false |} st)
       end.
Proof.
  unfold SessionManager.save_sessions. rewrite with_lock_store.
  destruct (sessions_lock (fs st)) eqn:E; [reflexivity|].
  destruct fault; reflexivity.
Qed.

Lemma save_sessions_sessions (fault : io_fault) (st : Store) :
  sessions (SessionManager.save_sessions fault st) = sessions st.
Proof.
  rewrite save_sessions_eq. simpl.
  destruct (sessions_lock (fs st)); [reflexivity|]. destruct fault; reflexivity.
Qed.


(** A session, a store that holds it, and the mirror of an earlier flush
    of that store. *)
Definition sample_session : PCBuilderSession :=
  set_conversation_mode true (new_session 7 "2025-01-01T00:00:00").

Definition sample_files : FS :=
  {| sessions_file :=
       Some (json_dumps (SessionManager.mirror_of {[ 7 := sample_session ]}));
     sessions_lock := false |}.

Definition sample_store : Store :=
  {| sessions := {[ 7 := sample_session ]}; fs := sample_files; errors := [] |}.

(** ** The session manager: loading *)

Lemma load_sessions_missing (st : Store) :
  sessions_file (fs st) = None -> SessionManager.load_sessions st = Some st.
Proof. intros E. unfold SessionManager.load_sessions. rewrite E. reflexivity. Qed.

Lemma load_sessions_malformed (st : Store) (content : string) (e : exn) :
  sessions_file (fs st) = Some content ->
  json_load content = Raise e ->
  SessionManager.load_sessions st =
  Some (log_error (if sessions_lock (fs st) then LockError else e) st).
Proof.
  intros Efile Eparse. unfold SessionManager.load_sessions.
  rewrite Efile, with_lock_store.
  destruct (sessions_lock (fs st)) eqn:Elock; [reflexivity|].
  unfold SessionManager.load_locked. simpl. rewrite Efile, Eparse. simpl.
  unfold FileLock.exit, FileLock.release, log_error. simpl.
  destruct st as [m [file lock] errs]. simpl in *. subst. reflexivity.
Qed.

Lemma load_sessions_not_a_dict (st : Store) (content : string) (v : json) :
  sessions_file (fs st) = Some content ->
  json_load content = Ok v -> (forall d, v <> JObj d) ->
  SessionManager.load_sessions st =
  Some (log_error (if sessions_lock (fs st) then LockError else AttributeError) st).
Proof.
  intros Efile Eparse Hv. unfold SessionManager.load_sessions.
  rewrite Efile, with_lock_store.
  destruct (sessions_lock (fs st)) eqn:Elock; [reflexivity|].
  unfold SessionManager.load_locked. simpl. rewrite Efile, Eparse.
  destruct v as [|b|n|s|l|d]; try (now destruct (Hv d));
    simpl; unfold FileLock.exit, FileLock.release, log_error; simpl;
    destruct st as [m [file lock] errs]; simpl in *; subst; reflexivity.
Qed.

(** C8.  Started on files whose mirror is missing, or cannot be read as
    text, or holds text that [json.load] rejects, or holds a JSON value
    that is not an object, the session manager comes up with an empty map:
    the load returns, the files are as they were, nothing is logged for a
    missing mirror and exactly one error for an unreadable one. *)
Theorem load_missing_or_malformed_is_empty (f : FS) :
  sessions_file f = None \/
  (exists content,
     sessions_file f = Some content /\
     ((exists e, json_load content = Raise e) \/
      (exists v, json_load content = Ok v /\ forall d, v <> JObj d))) ->
  exists st, SessionManager.init f = Some st /\
             sessions st = ∅ /\
             fs st = f /\
             (sessions_file f = None -> errors st = []) /\
             (sessions_file f <> None -> exists e, errors st = [e]).
Proof.
  unfold SessionManager.init.
  intros [Hmiss | (content & Hfile & [(e & Hparse) | (v & Hparse & Hv)])].
  - eexists. split; [apply load_sessions_missing; exact Hmiss|].
    simpl. repeat split; auto. intros H. now destruct H.
  - eexists. split; [eapply load_sessions_malformed; simpl; eauto|].
    simpl. repeat split; auto; [congruence | intros _; eexists; reflexivity].
  - eexists. split; [eapply load_sessions_not_a_dict; simpl; eauto|].
    simpl. repeat split; auto; [congruence | intros _; eexists; reflexivity].
Qed.

(** A session whose build text is an error message of the generator, and
    the start of the mirror that holds it: what a flush leaves when its
    write fails after 150 characters. *)
Definition cross_session : PCBuilderSession :=
  set_build_result "âŒ Error: Could not generate build recommendation. Please try again."
    sample_session.

Definition cut_mirror : string :=
  take 150 (json_dumps (SessionManager.mirror_of {[ 7 := cross_session ]})).

Lemma load_missing_or_malformed_is_empty_witness :
  let f := {| sessions_file := Some cut_mirror; sessions_lock := false |} in
  exists st, SessionManager.init f = Some st /\
             sessions st = ∅ /\
             fs st = f /\
             (sessions_file f = None -> errors st = []) /\
             (sessions_file f <> None -> exists e, errors st = [e]).
Proof.
  intros f. apply (load_missing_or_malformed_is_empty f).
  right. exists cut_mirror. split; [reflexivity|].
  left. exists JSONDecodeError. vm_compute. reflexivity.
Defined.

(** ** Staleness eviction *)

Lemma foldl_delete_lookup {V} (l : list Z) (m : gmap Z V) (k : Z) :
  foldl (fun m uid => delete uid m) m l !! k =
  if decide (k ∈ l) then None else m !! k.
Proof.
  revert m. induction l as [|x l IH]; intros m; simpl.
  - destruct (decide (k ∈ [])) as [Hin|_]; [inversion Hin | reflexivity].
  - rewrite IH.
    destruct (decide (k ∈ l)) as [Hin|Hnin].
    + rewrite decide_True; [reflexivity | right; exact Hin].
    + destruct (decide (k = x)) as [->|Hne].
      * rewrite decide_True; [apply lookup_delete_eq | left].
      * rewrite decide_False; [by rewrite lookup_delete_ne|].
        intros Hin. inversion Hin; subst; contradiction.
Qed.

Lemma filter_none {A} (f : A -> bool) (l : list A) :
  (forall x, In x l -> f x = false) -> List.filter f l = [].
Proof.
  induction l as [|x l IH]; intros H; simpl; [reflexivity|].
  rewrite (H x (or_introl eq_refl)). apply IH. intros y Hy. apply H. right. exact Hy.
Qed.

Section CleanupFacts.

Variable fromisoformat : string -> option datetime.

Local Abbreviation stale_at := (stale fromisoformat).
Local Abbreviation cleanup := (cleanup_old_sessions fromisoformat).
Local Abbreviation to_remove_at := (to_remove_of fromisoformat).

Lemma to_remove_spec (cutoff : Z) (m : gmap Z PCBuilderSession) (k : Z) :
  k ∈ to_remove_at cutoff m <->
  exists s, m !! k = Some s /\ stale_at cutoff s = true.
Proof.
  unfold to_remove_of. rewrite list_elem_of_fmap. split.
  - intros ([k' s] & -> & Hin). apply list_elem_of_In, filter_In in Hin.
    destruct Hin as [Hin Hst]. apply list_elem_of_In, elem_of_map_to_list in Hin.
    exists s. split; assumption.
  - intros (s & Hk & Hst). exists (k, s). split; [reflexivity|].
    apply list_elem_of_In, filter_In. split; [|exact Hst].
    apply list_elem_of_In, elem_of_map_to_list. exact Hk.
Qed.

(** The sessions that survive a sweep. *)
Lemma cleanup_lookup (h now : Z) (fault : io_fault) (st : Store) (k : Z) :
  sessions (cleanup h now fault st).1 !! k =
  match sessions st !! k with
  | Some s => if stale_at (now - h * MICROS_PER_HOUR) s then None else Some s
  | None => None
  end.
Proof.
  unfold cleanup_old_sessions.
  set (cutoff := now - h * MICROS_PER_HOUR).
  assert (Hm : foldl (fun m uid => delete uid m) (sessions st)
                 (to_remove_at cutoff (sessions st)) !! k =
               match sessions st !! k with
               | Some s => if stale_at cutoff s then None else Some s
               | None => None
               end).
  { rewrite foldl_delete_lookup.
    destruct (decide (k ∈ to_remove_at cutoff (sessions st))) as [Hin|Hnin].
    - apply to_remove_spec in Hin. destruct Hin as (s & -> & ->). reflexivity.
    - destruct (sessions st !! k) as [s|] eqn:E; [|reflexivity].
      destruct (stale_at cutoff s) eqn:Es; [|reflexivity].
      exfalso. apply Hnin, to_remove_spec. eauto. }
  destruct (to_remove_at cutoff (sessions st)) eqn:E; simpl;
    [|rewrite save_sessions_sessions; simpl]; exact Hm.
Qed.

Lemma stale_cases (cutoff : Z) (s : PCBuilderSession) :
  (if stale_at cutoff s then None else Some s) =
  match last_activity s with
  | None => None
  | Some t =>
      match fromisoformat t with
      | None => None
      | Some d =>
          if aware d then None
          else if micros d <? cutoff then None else Some s
      end
  end.
Proof.
  unfold stale. destruct (last_activity s) as [t|]; [|reflexivity].
  destruct (fromisoformat t) as [d|]; [|reflexivity].
  destruct (aware d); [reflexivity|]. now destruct (micros d <? cutoff).
Qed.

Lemma cleanup_flushes (h now : Z) (fault : io_fault) (st : Store) :
  (cleanup h now fault st).2 = true <->
  exists k s, sessions st !! k = Some s /\
              stale_at (now - h * MICROS_PER_HOUR) s = true.
Proof.
  unfold cleanup_old_sessions.
  destruct (to_remove_at (now - h * MICROS_PER_HOUR) (sessions st)) as [|k l] eqn:E;
    cbn [snd]; split.
  - discriminate.
  - intros (k & s & Hk & Hs).
    assert (Hin : k ∈ to_remove_at (now - h * MICROS_PER_HOUR) (sessions st))
      by (apply to_remove_spec; eauto).
    rewrite E in Hin. inversion Hin.
  - intros _.
    assert (Hin : k ∈ to_remove_at (now - h * MICROS_PER_HOUR) (sessions st))
      by (rewrite E; left).
    apply to_remove_spec in Hin as (s & Hk & Hs). eauto.
  - reflexivity.
Qed.

(** C7.  The first sweep removes the stale records and only them: a
    session stays exactly when its [last_activity] is present, parses to a
    naive time stamp, and that time is not before the cutoff; the mirror is
    flushed exactly when some record was removed.  A sweep run again at the
    same clock reading then removes nothing: the store it returns is the
    store it was given, and [save_sessions] is not called. *)
Theorem cleanup_old_sessions_idempotent (h now : Z) (f1 f2 : io_fault) (st : Store) :
  let st1 := (cleanup h now f1 st).1 in
  (forall k,
     sessions st1 !! k =
     match sessions st !! k with
     | Some s =>
         match last_activity s with
         | None => None
         | Some t =>
             match fromisoformat t with
             | None => None
             | Some d =>
                 if aware d then None
                 else if micros d <? now - h * MICROS_PER_HOUR then None
                      else Some s
             end
         end
     | None => None
     end) /\
  ((cleanup h now f1 st).2 = true <->
   exists k, sessions st !! k <> None /\ sessions st1 !! k = None) /\
  cleanup h now f2 st1 = (st1, false).
Proof.
  intros st1. split; [|split].
  - intros k. subst st1. rewrite cleanup_lookup.
    destruct (sessions st !! k) as [s|]; [apply stale_cases | reflexivity].
  - rewrite cleanup_flushes. subst st1. split.
    + intros (k & s & Hk & Hs). exists k. rewrite cleanup_lookup, Hk, Hs.
      split; [discriminate | reflexivity].
    + intros (k & Hk & Hgone). rewrite cleanup_lookup in Hgone.
      destruct (sessions st !! k) as [s|] eqn:E; [|congruence].
      exists k, s. split; [exact E|].
      destruct (stale_at (now - h * MICROS_PER_HOUR) s); [reflexivity | discriminate].
  - unfold cleanup_old_sessions at 1.
    assert (E : to_remove_at (now - h * MICROS_PER_HOUR) (sessions st1) = []).
    { unfold to_remove_of. rewrite filter_none; [reflexivity|].
      intros [k s] Hin. apply list_elem_of_In, elem_of_map_to_list in Hin.
      subst st1. rewrite cleanup_lookup in Hin. simpl.
      destruct (sessions st !! k) as [s0|]; [|discriminate].
      destruct (stale_at (now - h * MICROS_PER_HOUR) s0) eqn:Es; [discriminate|].
      congruence. }
    rewrite E. simpl. destruct st1; reflexivity.
Qed.

(** C10.  A sweep removes every session whose [last_activity] is missing
    or is text that [fromisoformat] rejects, whatever the clock says, and
    every session whose [last_activity] carries a UTC offset (the
    comparison with the naive cutoff raises); a session whose
    [last_activity] parses to a naive time stamp is removed exactly when
    that time lies before the cutoff. *)
Theorem cleanup_removes_unreadable_activity
    (h now : Z) (fault : io_fault) (st : Store) (uid : Z) (s : PCBuilderSession) :
  sessions st !! uid = Some s ->
  sessions (cleanup h now fault st).1 !! uid =
  match last_activity s with
  | None => None
  | Some t =>
      match fromisoformat t with
      | None => None
      | Some d =>
          if aware d then None
          else if micros d <? now - h * MICROS_PER_HOUR then None else Some s
      end
  end.
Proof.
  intros Hs. rewrite cleanup_lookup, Hs. apply stale_cases.
Qed.

End CleanupFacts.

(** A reader of the time stamps [isoformat] writes for two instants, and
    of one that carries a UTC offset. *)
Definition sample_fromisoformat (t : string) : option datetime :=
  if String.eqb t "2025-01-01T00:00:00" then Some {| micros := 0; aware := false |}
  else if String.eqb t "2025-01-03T00:00:00"
       then Some {| micros := 48 * MICROS_PER_HOUR; aware := false |}
       else if String.eqb t "2025-01-03T00:00:00+00:00"
            then Some {| micros := 48 * MICROS_PER_HOUR; aware := true |}
            else None.

Definition with_activity (a : option string) (s : PCBuilderSession)
  : PCBuilderSession :=
  {| user_id := user_id s; chat_history := chat_history s; answers := answers s;
     build_result := build_result s; refinement_mode := refinement_mode s;
     conversation_mode := conversation_mode s; feedback_mode := feedback_mode s;
     user_feedback := user_feedback s; build_edits := build_edits s;
     created_at := created_at s; last_activity := a |}.

(** Five sessions: no time stamp, an unreadable one, one with an offset,
    one two days old and one of this instant. *)
Definition stamped (uid : Z) (a : option string) : PCBuilderSession :=
  with_activity a (new_session uid "2025-01-01T00:00:00").

Definition swept_store : Store :=
  {| sessions :=
       <[1 := stamped 1 None]>
         (<[2 := stamped 2 (Some "yesterday"%string)]>
            (<[3 := stamped 3 (Some "2025-01-03T00:00:00+00:00"%string)]>
               (<[4 := stamped 4 (Some "2025-01-01T00:00:00"%string)]>
                  {[ 5 := stamped 5 (Some "2025-01-03T00:00:00"%string) ]})));
     fs := sample_files;
     errors := [] |}.

Lemma cleanup_removes_unreadable_activity_witness :
  let after :=
    sessions (cleanup_old_sessions sample_fromisoformat 24
                (48 * MICROS_PER_HOUR) NoFault swept_store).1 in
  after !! 1 = None /\ after !! 2 = None /\ after !! 3 = None /\
  after !! 4 = None /\
  after !! 5 = Some (stamped 5 (Some "2025-01-03T00:00:00"%string)).
Proof.
  intros after. subst after.
  split; [|split; [|split; [|split]]].
  - exact (cleanup_removes_unreadable_activity sample_fromisoformat 24
             (48 * MICROS_PER_HOUR) NoFault swept_store 1 _ eq_refl).
  - exact (cleanup_removes_unreadable_activity sample_fromisoformat 24
             (48 * MICROS_PER_HOUR) NoFault swept_store 2 _ eq_refl).
  - exact (cleanup_removes_unreadable_activity sample_fromisoformat 24
             (48 * MICROS_PER_HOUR) NoFault swept_store 3 _ eq_refl).
  - exact (cleanup_removes_unreadable_activity sample_fromisoformat 24
             (48 * MICROS_PER_HOUR) NoFault swept_store 4 _ eq_refl).
  - exact (cleanup_removes_unreadable_activity sample_fromisoformat 24
             (48 * MICROS_PER_HOUR) NoFault swept_store 5 _ eq_refl).
Defined.

(** ** The budget ceiling on the examples of the specification *)

(** C4 (as amended).  The three budget texts of the specification give the
    ceilings 800, 1700 and 800. *)
Theorem budget_ceiling_examples :
  Budget.ceiling_of_text "1000" = Ok 800 /\
  Budget.ceiling_of_text "2000" = Ok 1700 /\
  Budget.ceiling_of_text "no idea, maybe for fortnite" = Ok 800.
Proof. repeat split; vm_compute; reflexivity. Qed.

(** C4 (as stated) fails on its first example: the text 1000 gives 800,
    not 650. *)
Lemma budget_ceiling_1000_is_not_650 :
  Budget.ceiling_of_text "1000" <> Ok 650.
Proof. vm_compute. discriminate. Qed.

(** ** Failures of the generation collaborator *)

Lemma generate_build_failure (parts : string) (r : reply) (s : PCBuilderSession) :
  (exists m, r = Failure m) \/ r = Reply EmptyString ->
  String.prefix CROSS (generate_build parts r s) = true.
Proof.
  intros Hr. unfold generate_build.
  destruct (is_empty parts); [reflexivity|].
  destruct (Budget.adjusted_budget s); try reflexivity.
  destruct Hr as [[m ->] | ->]; reflexivity.
Qed.

(** C2 (as amended).  A failure raised by the collaborator on a Collecting
    or a Refining turn is caught, an apology goes out and the phase flags stay
    as they were.  An empty response on such a turn is replaced by a stock
    sentence and the turn goes on as for that reply.  A failure of the build
    generation call (raised, or an empty response) becomes an error text
    that is stored as [build_result] and sent, and the session leaves
    conversation mode for refinement mode. *)
Theorem generation_failure_semantics (t : Turn) (s : PCBuilderSession) :
  (forall m, turn_chat t = Failure m ->
     exists s', handle_conversation_mode t s = (s', [Send MSG_CONV_SORRY]) /\
                phase_flags s' = phase_flags s) /\
  (forall m, turn_refine t = Failure m -> is_empty (turn_parts t) = false ->
     exists s', handle_refinement_conversation t s = (s', [Send MSG_REFINE_SORRY]) /\
                phase_flags s' = phase_flags s /\
                build_result s' = build_result s) /\
  (turn_chat t = Reply EmptyString ->
     handle_conversation_mode t s =
     handle_conversation_mode (with_chat (Reply MSG_CONV_EMPTY) t) s) /\
  (turn_refine t = Reply EmptyString ->
     handle_refinement_conversation t s =
     handle_refinement_conversation (with_refine (Reply MSG_REFINE_EMPTY) t) s) /\
  ((exists m, turn_build t = Failure m) \/ turn_build t = Reply EmptyString ->
     exists s',
       generate_build_from_conversation (turn_parts t) (turn_build t) s =
         (s', [Generating; Send MSG_THINKING; Send (build_result s')]) /\
       String.prefix CROSS (build_result s') = true /\
       phase_flags s' = (false, true, feedback_mode s)).
Proof.
  repeat split.
  - intros m Hm. unfold handle_conversation_mode. rewrite Hm.
    eexists. split; reflexivity.
  - intros m Hm Hparts. unfold handle_refinement_conversation, handle_refinement_message.
    rewrite Hm, Hparts.
    replace (contains "change" (lower MSG_REFINE_SORRY)) with false by (vm_compute; reflexivity).
    rewrite andb_false_r.
    eexists. split; [reflexivity|].
    destruct (mem (lower (turn_content t)) CONTROL_TOKENS); split; reflexivity.
  - intros Hm. unfold handle_conversation_mode, with_chat. rewrite Hm.
    cbn [turn_chat turn_content turn_parts turn_build turn_now is_empty].
    change (is_empty MSG_CONV_EMPTY) with false. reflexivity.
  - intros Hm. unfold handle_refinement_conversation, handle_refinement_message, with_refine.
    rewrite Hm.
    cbn [turn_refine turn_content turn_parts turn_build turn_now is_empty].
    change (is_empty MSG_REFINE_EMPTY) with false. reflexivity.
  - intros Hfail.
    pose proof (generate_build_failure (turn_parts t) (turn_build t) s Hfail) as Hpre.
    unfold generate_build_from_conversation, send_build_result.
    rewrite Hpre.
    exists (set_conversation_mode false
              (set_refinement_mode true
                 (set_build_result (generate_build (turn_parts t) (turn_build t) s) s))).
    split; [reflexivity|]. split; [exact Hpre | reflexivity].
Qed.

Definition failing_build_turn : Turn :=
  {| turn_now := "2025-01-01T00:05:00";
     turn_content := "my budget is 900, black case, some rgb, balanced look, gaming, might upgrade, no";
     turn_chat := Reply "Got it!";
     turn_parts := "I|CPU|Ryzen 5 $150";
     turn_build := Failure "timeout";
     turn_refine := Failure "timeout";
     turn_fault := NoFault |}.

Lemma generation_failure_semantics_witness :
  let t := with_chat (Failure "timeout") failing_build_turn in
  let s := sample_session in
  (turn_chat t = Failure "timeout" /\ turn_refine t = Failure "timeout" /\
   is_empty (turn_parts t) = false /\ turn_build t = Failure "timeout") /\
  (forall m, turn_chat t = Failure m ->
     exists s', handle_conversation_mode t s = (s', [Send MSG_CONV_SORRY]) /\
                phase_flags s' = phase_flags s) /\
  (forall m, turn_refine t = Failure m -> is_empty (turn_parts t) = false ->
     exists s', handle_refinement_conversation t s = (s', [Send MSG_REFINE_SORRY]) /\
                phase_flags s' = phase_flags s /\
                build_result s' = build_result s) /\
  (turn_chat t = Reply EmptyString ->
     handle_conversation_mode t s =
     handle_conversation_mode (with_chat (Reply MSG_CONV_EMPTY) t) s) /\
  (turn_refine t = Reply EmptyString ->
     handle_refinement_conversation t s =
     handle_refinement_conversation (with_refine (Reply MSG_REFINE_EMPTY) t) s) /\
  ((exists m, turn_build t = Failure m) \/ turn_build t = Reply EmptyString ->
     exists s',
       generate_build_from_conversation (turn_parts t) (turn_build t) s =
         (s', [Generating; Send MSG_THINKING; Send (build_result s')]) /\
       String.prefix CROSS (build_result s') = true /\
       phase_flags s' = (false, true, feedback_mode s)).
Proof.
  intros t s. split; [repeat split|].
  apply (generation_failure_semantics t s).
Defined.

(** C2 (as stated) fails: on a Collecting turn whose build generation call
    times out, the session does not stay in its phase; it leaves conversation
    mode for refinement mode with the error text as its build. *)
Lemma generation_failure_changes_phase :
  let s' := (handle_conversation_mode failing_build_turn sample_session).1 in
  phase_flags sample_session = (true, false, false) /\
  phase_flags s' = (false, true, false) /\
  build_result s' = MSG_BUILD_ERROR "timeout".
Proof. vm_compute. repeat split. Qed.

(** ** Text: keywords in a joined, lower-cased transcript *)

Lemma append_space (s : string) : SPACE +:+ s = String " " s.
Proof. reflexivity. Qed.

Lemma lower_app (a b : string) : lower (a +:+ b) = lower a +:+ lower b.
Proof. induction a as [|c a IH]; simpl; [reflexivity | by rewrite IH]. Qed.

Lemma lower_join (l : list string) :
  lower (join SPACE l) = join SPACE (map lower l).
Proof.
  induction l as [|x l IH]; [reflexivity|].
  destruct l as [|y l]; [reflexivity|].
  change (join SPACE (x :: y :: l)) with (x +:+ SPACE +:+ join SPACE (y :: l)).
  rewrite !lower_app, IH. reflexivity.
Qed.

Lemma prefix_app_space (w a b : string) :
  no_space w = true ->
  String.prefix w (a +:+ String " " b) = String.prefix w a.
Proof.
  revert a. induction w as [|c w IH]; intros a Hw.
  - destruct a; reflexivity.
  - simpl in Hw. apply andb_prop in Hw. destruct Hw as [Hc Hw].
    destruct a as [|x a]; simpl.
    + destruct (ascii_dec c " ") as [->|_]; [discriminate Hc | reflexivity].
    + destruct (ascii_dec c x); [apply IH, Hw | reflexivity].
Qed.

Lemma contains_app_space (w a b : string) :
  no_space w = true ->
  contains w (a +:+ String " " b) = contains w a || contains w b.
Proof.
  intros Hw. induction a as [|x a IH].
  - change (contains w (EmptyString +:+ String " " b))
      with (String.prefix w (EmptyString +:+ String " " b) || contains w b).
    rewrite prefix_app_space by exact Hw. simpl. by rewrite orb_false_r.
  - change (contains w (String x a +:+ String " " b))
      with (String.prefix w (String x a +:+ String " " b) || contains w (a +:+ String " " b)).
    rewrite prefix_app_space by exact Hw. rewrite IH.
    simpl. by rewrite !orb_assoc.
Qed.

Lemma contains_empty (w : string) : keyword w = true -> contains w EmptyString = false.
Proof.
  unfold keyword. intros H. apply andb_prop in H. destruct H as [_ H].
  destruct w; [discriminate H | reflexivity].
Qed.

Lemma contains_join (w : string) (l : list string) :
  keyword w = true ->
  contains w (join SPACE l) = existsb (contains w) l.
Proof.
  intros Hw. induction l as [|x l IH].
  - apply contains_empty, Hw.
  - destruct l as [|y l].
    + simpl. by rewrite orb_false_r.
    + change (join SPACE (x :: y :: l)) with (x +:+ SPACE +:+ join SPACE (y :: l)).
      rewrite append_space, contains_app_space, IH; [reflexivity|].
      unfold keyword in Hw. apply andb_prop in Hw. tauto.
Qed.

Lemma existsb_map {A B} (f : B -> bool) (g : A -> B) (l : list A) :
  existsb f (map g l) = existsb (fun x => f (g x)) l.
Proof. induction l as [|x l IH]; simpl; [reflexivity | by rewrite IH]. Qed.

Lemma existsb_swap {A B} (f : A -> B -> bool) (la : list A) (lb : list B) :
  existsb (fun a => existsb (f a) lb) la = existsb (fun b => existsb (fun a => f a b) la) lb.
Proof.
  induction la as [|a la IH]; simpl.
  - induction lb as [|b lb IHb]; simpl; [reflexivity | exact IHb].
  - rewrite IH. clear IH. induction lb as [|b lb IHb]; simpl; [reflexivity|].
    rewrite <- IHb. destruct (f a b), (existsb (f a) lb),
      (existsb (fun a0 => f a0 b) la); reflexivity.
Qed.

Lemma existsb_ext_in {A} (f g : A -> bool) (l : list A) :
  (forall x, In x l -> f x = g x) -> existsb f l = existsb g l.
Proof.
  induction l as [|x l IH]; intros H; simpl; [reflexivity|].
  rewrite (H x (or_introl eq_refl)), IH; [reflexivity|].
  intros y Hy. apply H. right. exact Hy.
Qed.

(** A keyword of [ws] occurs in the transcript exactly when it occurs in
    one of the messages. *)
Lemma any_in_chat_text (ws : list string) (h : list Message) :
  forallb keyword ws = true ->
  any_in ws (chat_text_of h) = mentions ws (map text h).
Proof.
  intros Hws. unfold any_in, chat_text_of, mentions.
  rewrite lower_join.
  rewrite (existsb_ext_in _ (fun w => existsb (fun t => contains w (lower t)) (map text h))).
  - apply (existsb_swap (fun w t => contains w (lower t))).
  - intros w Hin. rewrite contains_join, existsb_map; [reflexivity|].
    rewrite forallb_forall in Hws. apply Hws, Hin.
Qed.

Lemma isdigit_lower_char (c : ascii) : isdigit (lower_char c) = isdigit c.
Proof. destruct c as [[] [] [] [] [] [] [] []]; reflexivity. Qed.

Lemma any_digit_lower (s : string) : any_digit (lower s) = any_digit s.
Proof.
  induction s as [|c s IH]; simpl; [reflexivity|].
  by rewrite isdigit_lower_char, IH.
Qed.

Lemma any_digit_app (a b : string) : any_digit (a +:+ b) = any_digit a || any_digit b.
Proof.
  induction a as [|c a IH]; simpl; [reflexivity|]. by rewrite IH, orb_assoc.
Qed.

Lemma any_digit_join (l : list string) :
  any_digit (join SPACE l) = existsb any_digit l.
Proof.
  induction l as [|x l IH]; [reflexivity|].
  destruct l as [|y l].
  - simpl. by rewrite orb_false_r.
  - change (join SPACE (x :: y :: l)) with (x +:+ SPACE +:+ join SPACE (y :: l)).
    rewrite !any_digit_app, IH. reflexivity.
Qed.

Lemma any_digit_chat_text (h : list Message) :
  any_digit (chat_text_of h) = existsb any_digit (map text h).
Proof. unfold chat_text_of. by rewrite any_digit_lower, any_digit_join. Qed.

(** ** The completion policy is the policy of the specification *)

Lemma mem_add_if (f g : string) (test : bool) (c : list string) :
  mem f (add_if g test c) = mem f c || (String.eqb f g && test).
Proof.
  unfold add_if. destruct (mem g c) eqn:Hg.
  - destruct (String.eqb f g) eqn:E; simpl; [|by rewrite orb_false_r].
    apply String.eqb_eq in E. subst f. rewrite Hg. reflexivity.
  - destruct test; simpl.
    + unfold mem. simpl. rewrite andb_true_r. apply orb_comm.
    + by rewrite andb_false_r, orb_false_r.
Qed.

Lemma mem_filter (f : string) (p : string -> bool) (l : list string) :
  mem f (List.filter p l) = existsb (fun g => String.eqb f g && p g) l.
Proof.
  unfold mem. induction l as [|x l IH]; simpl; [reflexivity|].
  destruct (p x); simpl; rewrite IH.
  - by rewrite andb_true_r.
  - by rewrite andb_false_r.
Qed.

Lemma all_counted {A} (p : A -> bool) (l : list A) :
  (length l <=? length (List.filter p l))%nat = forallb p l.
Proof.
  induction l as [|x l IH]; [reflexivity|].
  pose proof (filter_length_le p l) as Hle.
  cbn [List.filter forallb]. destruct (p x); cbn [andb].
  - exact IH.
  - apply (proj2 (Nat.leb_gt _ _)). cbn [length]. lia.
Qed.

Lemma collected_mem (A : string -> bool) (k1 k2 k3 k4 k5 k6 k7 : bool) (f : string) :
  mem f
    (add_if "extra_notes" k7
      (add_if "upgradeability" k6
        (add_if "use_case" k5
          (add_if "aesthetics" k4
            (add_if "rgb_level" k3
              (add_if "color" k2
                (add_if "budget" k1 (List.filter A REQUIRED_FIELDS)))))))) =
  existsb (fun g => String.eqb f g && A g) REQUIRED_FIELDS
  || (String.eqb f "budget" && k1) || (String.eqb f "color" && k2)
  || (String.eqb f "rgb_level" && k3) || (String.eqb f "aesthetics" && k4)
  || (String.eqb f "use_case" && k5) || (String.eqb f "upgradeability" && k6)
  || (String.eqb f "extra_notes" && k7).
Proof. by rewrite !mem_add_if, mem_filter. Qed.

(** The code's policy and the specification's policy agree on every
    session. *)
Lemma policy_is_coverage (s : PCBuilderSession) :
  are_all_fields_collected s =
  covers_all_slots (answers s) (map text (chat_history s)).
Proof.
  unfold are_all_fields_collected, covers_all_slots. cbv zeta.
  change 7%nat with (length REQUIRED_FIELDS).
  rewrite all_counted.
  rewrite !any_in_chat_text by reflexivity.
  rewrite any_digit_chat_text.
  unfold slot_satisfied.
  set (texts := map text (chat_history s)).
  set (A := answered (answers s)).
  set (digits := existsb (fun t => any_digit t) texts).
  set (m1 := mentions BUDGET_WORDS texts).
  set (m2 := mentions COLOR_WORDS texts).
  set (m3 := mentions RGB_WORDS texts).
  set (m4 := mentions AESTHETICS_WORDS texts).
  set (m5 := mentions USE_CASE_WORDS texts).
  set (m6 := mentions UPGRADE_WORDS texts).
  set (m7 := mentions EXTRA_WORDS texts).
  unfold REQUIRED_FIELDS at 2 3. cbn [forallb].
  rewrite !collected_mem.
  unfold slot_words. cbn.
  fold m1 m2 m3 m4 m5 m6 m7.
  destruct (A "budget"), (A "color"), (A "rgb_level"), (A "aesthetics"),
    (A "use_case"), (A "upgradeability"), (A "extra_notes");
  cbn; try reflexivity;
  destruct m1, m2, m3, m4, m5, m6, m7, digits; reflexivity.
Qed.


Lemma existsb_mono {A} (f : A -> bool) (l l' : list A) :
  (forall x, In x l -> In x l') -> existsb f l = true -> existsb f l' = true.
Proof.
  intros Hsub H. apply existsb_exists in H. destruct H as (x & Hin & Hx).
  apply existsb_exists. exists x. split; [apply Hsub, Hin | exact Hx].
Qed.


Lemma covers_mono (a : gmap string string) (l l' : list string) :
  (forall x, In x l -> In x l') ->
  covers_all_slots a l = true -> covers_all_slots a l' = true.
Proof.
  intros Hsub. unfold covers_all_slots. rewrite !forallb_forall.
  intros H f Hf. specialize (H f Hf). unfold slot_satisfied, mentions in *.
  destruct (answered a f); [reflexivity|]. simpl in *.
  apply andb_prop in H. destruct H as [Hm Hd].
  rewrite (existsb_mono _ l l' Hsub Hm). simpl.
  destruct (String.eqb f "budget"); [|reflexivity].
  apply (existsb_mono _ l l' Hsub Hd).
Qed.

(** ** The Collecting phase ends in exactly one generation *)

Lemma transitions_app (a b : list event) :
  transitions (a ++ b) = (transitions a + transitions b)%nat.
Proof. unfold transitions. by rewrite List.filter_app, length_app. Qed.




Lemma get_session_present (uid : Z) (now : string) (st : Store) (s : PCBuilderSession) :
  sessions st !! uid = Some s ->
  SessionManager.get_session uid now st =
  (update_activity now s,
   set_sessions (<[uid := update_activity now s]> (sessions st)) st).
Proof.
  intros Hs. unfold SessionManager.get_session. rewrite Hs. simpl. rewrite Hs.
  reflexivity.
Qed.

Lemma not_control (x : string) :
  mem x CONTROL_TOKENS = false ->
  String.eqb x "cancel" = false /\ String.eqb x "restart" = false /\
  String.eqb x "done" = false.
Proof.
  unfold mem, CONTROL_TOKENS. simpl. rewrite orb_false_r.
  intros H. apply orb_false_elim in H. destruct H as [H1 H].
  apply orb_false_elim in H. destruct H as [H2 H3]. auto.
Qed.



Lemma run_cons (uid : Z) (t : Turn) (rest : list Turn) (st : Store) :
  (run uid (t :: rest) st).2 =
  (on_message uid t st).2 ++ (run uid rest (on_message uid t st).1).2.
Proof.
  simpl. destruct (on_message uid t st) as [st1 out1]. simpl.
  destruct (run uid rest st1) as [st2 out2]. reflexivity.
Qed.






(** ** Decimal text: [str] and [int] on integers *)

Lemma append_cons (c : ascii) (a b : string) :
  String c a +:+ b = String c (a +:+ b).
Proof. reflexivity. Qed.

Lemma append_nil_l (b : string) : EmptyString +:+ b = b.
Proof. reflexivity. Qed.

Ltac push_append := rewrite ?append_cons, ?append_nil_l.

Lemma append_assoc (a b c : string) : (a +:+ b) +:+ c = a +:+ (b +:+ c).
Proof. induction a as [|x a IH]; push_append; congruence. Qed.

Lemma append_nil_r (a : string) : a +:+ EmptyString = a.
Proof. induction a as [|x a IH]; push_append; congruence. Qed.

Lemma length_append (a b : string) :
  String.length (a +:+ b) = (String.length a + String.length b)%nat.
Proof.
  induction a as [|x a IH]; push_append; cbn [String.length Nat.add]; congruence.
Qed.

(** What a digit is not. *)
Lemma digit_facts (c : ascii) :
  isdigit c = true ->
  is_space c = false /\ is_ws c = false /\
  Ascii.eqb c "-" = false /\ Ascii.eqb c "+" = false /\
  Ascii.eqb c "]" = false.
Proof.
  destruct c as [[] [] [] [] [] [] [] []]; intros H;
    try (vm_compute in H; discriminate H); vm_compute; auto.
Qed.

Lemma string_of_uint_digits (u : Decimal.uint) :
  all_digits (NilEmpty.string_of_uint u) = true.
Proof. induction u; simpl; auto. Qed.

Lemma span_digits_app (ds r : string) :
  all_digits ds = true -> delimited r = true ->
  span_digits (ds +:+ r) = (ds, r).
Proof.
  intros Hd Hr. induction ds as [|c t IH].
  - destruct r as [|c t]; [reflexivity|].
    simpl in Hr. apply andb_true_iff in Hr as [Hc _].
    apply negb_true_iff in Hc.
    change (EmptyString +:+ String c t) with (String c t).
    cbn [span_digits]. now rewrite Hc.
  - cbn [all_digits] in Hd. apply andb_true_iff in Hd as [Hc Ht].
    change (String c t +:+ r) with (String c (t +:+ r)).
    cbn [span_digits]. now rewrite Hc, (IH Ht).
Qed.

Lemma digits_value_uint (u : Decimal.uint) :
  digits_value (NilEmpty.string_of_uint u) = Z.of_uint u.
Proof. unfold digits_value. now rewrite NilEmpty.usu. Qed.

Lemma digits_value_pos (p : positive) :
  digits_value (NilEmpty.string_of_uint (Pos.to_uint p)) = Z.pos p.
Proof.
  rewrite digits_value_uint. unfold Z.of_uint.
  now rewrite DecimalPos.Unsigned.of_to.
Qed.

(** The decimal text of a positive number: digits, the first one not 0. *)
Lemma pos_text (p : positive) :
  exists c t, NilEmpty.string_of_uint (Pos.to_uint p) = String c t /\
              isdigit c = true /\ Ascii.eqb c "0" = false /\
              all_digits t = true.
Proof.
  pose proof (string_of_uint_digits (Pos.to_uint p)) as Hd.
  pose proof (DecimalPos.Unsigned.to_of (Pos.to_uint p)) as Hn.
  rewrite DecimalPos.Unsigned.of_to in Hn. cbn [N.to_uint] in Hn.
  pose proof (Unsigned.to_uint_nonnil p) as Hnil.
  pose proof (Unsigned.to_uint_nonzero p) as Hz.
  destruct (Pos.to_uint p) as [|u|u|u|u|u|u|u|u|u|u] eqn:E;
    try congruence;
    try (cbn [NilEmpty.string_of_uint all_digits] in *;
         apply andb_true_iff in Hd as [_ Hd];
         eexists _, _; split; [reflexivity|]; split; [reflexivity|];
         split; [reflexivity | exact Hd]).
  exfalso. rewrite unorm_D0 in Hn. unfold Decimal.unorm in Hn.
  destruct (Decimal.nzhead u) eqn:N; try discriminate.
  - injection Hn as Hu. subst u. now apply Hz.
  - now apply (nzhead_nonzero u u0).
Qed.

Lemma str_of_Z_pos (p : positive) :
  str_of_Z (Z.pos p) = NilEmpty.string_of_uint (Pos.to_uint p).
Proof.
  unfold str_of_Z. cbn [Z.to_int NilZero.string_of_int].
  unfold NilZero.string_of_uint.
  pose proof (Unsigned.to_uint_nonnil p).
  now destruct (Pos.to_uint p).
Qed.

Lemma str_of_Z_neg (p : positive) :
  str_of_Z (Z.neg p) = String "-" (NilEmpty.string_of_uint (Pos.to_uint p)).
Proof.
  unfold str_of_Z. cbn [Z.to_int NilZero.string_of_int].
  unfold NilZero.string_of_uint.
  pose proof (Unsigned.to_uint_nonnil p).
  now destruct (Pos.to_uint p).
Qed.

Lemma rstrip_no_blank (s : string) : no_blank s = true -> skip_right s = s.
Proof.
  induction s as [|c t IH]; [reflexivity|]. cbn [no_blank skip_right].
  intros H. apply andb_true_iff in H as [Hc Ht]. apply negb_true_iff in Hc.
  rewrite (IH Ht). destruct t; [now rewrite Hc | reflexivity].
Qed.

Lemma digits_no_blank (s : string) : all_digits s = true -> no_blank s = true.
Proof.
  induction s as [|c t IH]; [reflexivity|]. cbn [all_digits no_blank].
  intros H. apply andb_true_iff in H as [Hc Ht].
  destruct (digit_facts c Hc) as [-> _]. now rewrite (IH Ht).
Qed.

Lemma grouped_digits_plain (b : bool) (ds : string) :
  all_digits ds = true -> (b = true \/ ds <> EmptyString) ->
  grouped_digits b ds = Some ds.
Proof.
  revert b. induction ds as [|c t IH]; intros b Hd Hb.
  - destruct Hb as [-> | Hb]; [reflexivity | congruence].
  - cbn [all_digits] in Hd. apply andb_true_iff in Hd as [Hc Ht].
    cbn [grouped_digits]. rewrite Hc, (IH true Ht); [reflexivity | now left].
Qed.

Lemma int_of_str_of_Z (z : Z) : int_of_str (str_of_Z z) = Ok z.
Proof.
  destruct z as [|p|p].
  - reflexivity.
  - rewrite str_of_Z_pos. destruct (pos_text p) as (c & t & E & Hc & _ & Ht).
    pose proof (digits_value_pos p) as Hv. rewrite E in Hv.
    assert (Hd : all_digits (String c t) = true)
      by (cbn [all_digits]; now rewrite Hc, Ht).
    rewrite E. destruct (digit_facts c Hc) as (Hs & _ & Hm & Hp & _).
    unfold int_of_str, skip_spaces. cbn [skip_left]. rewrite Hs.
    rewrite (rstrip_no_blank _ (digits_no_blank _ Hd)).
    rewrite Hm, Hp, (grouped_digits_plain false _ Hd); [| now right].
    now rewrite Hv.
  - rewrite str_of_Z_neg. destruct (pos_text p) as (c & t & E & Hc & _ & Ht).
    pose proof (digits_value_pos p) as Hv. rewrite E in Hv.
    assert (Hd : all_digits (String c t) = true)
      by (cbn [all_digits]; now rewrite Hc, Ht).
    rewrite E. unfold int_of_str, skip_spaces.
    change (skip_left (String "-" (String c t))) with (String "-" (String c t)).
    rewrite rstrip_no_blank
      by (change (no_blank (String "-" (String c t)))
            with (no_blank (String c t)); now apply digits_no_blank).
    change (Ascii.eqb "-" "-") with true. cbv iota.
    rewrite (grouped_digits_plain false _ Hd); [| now right].
    now rewrite Hv.
Qed.

Lemma str_of_Z_inj (a b : Z) : str_of_Z a = str_of_Z b -> a = b.
Proof.
  intros H. pose proof (int_of_str_of_Z a) as Ha.
  rewrite H, int_of_str_of_Z in Ha. now injection Ha.
Qed.

(** ** Text and its characters *)

Lemma byte_range (c : ascii) : 0 <= byte c <= 255.
Proof.
  unfold byte. pose proof (N_ascii_bounded c). lia.
Qed.

Lemma chr_byte (c : ascii) : chr (byte c) = c.
Proof. unfold chr, byte. rewrite N2Z.id. apply ascii_N_embedding. Qed.

Lemma chr_eq (n : Z) (c : ascii) : n = byte c -> chr n = c.
Proof. intros ->. apply chr_byte. Qed.

Lemma byte_chr (n : Z) : 0 <= n < 256 -> byte (chr n) = n.
Proof.
  intros H. unfold byte, chr. rewrite N_ascii_embedding by lia. lia.
Qed.

Ltac split_bools :=
  repeat match goal with
         | H : _ && _ = true |- _ => apply andb_prop in H as [? ?]
         | H : negb _ = true |- _ => apply negb_true_iff in H
         | H : _ && _ = false |- _ => apply andb_false_iff in H
         | H : (_ <=? _) = true |- _ => apply Z.leb_le in H
         | H : (_ <=? _) = false |- _ => apply Z.leb_gt in H
         | H : (_ <? _) = true |- _ => apply Z.ltb_lt in H
         | H : (_ <? _) = false |- _ => apply Z.ltb_ge in H
         end.

Ltac div_mod_lia := Z.div_mod_to_equations; lia.

Lemma encode_cp2 (c0 c1 : ascii) :
  ok2 c0 c1 = true -> encode_cp (cp2 c0 c1) = String c0 (str1 c1).
Proof.
  unfold ok2, is_cont, cp2, encode_cp. intros H. split_bools.
  set (a := byte c0) in *. set (b := byte c1) in *.
  destruct (Z.ltb_spec ((a - 192) * 64 + (b - 128)) 128); [lia|].
  destruct (Z.ltb_spec ((a - 192) * 64 + (b - 128)) 2048); [|lia].
  f_equal; [|f_equal]; apply chr_eq; subst a b; div_mod_lia.
Qed.

Lemma encode_cp3 (c0 c1 c2 : ascii) :
  ok3 c0 c1 c2 = true -> encode_cp (cp3 c0 c1 c2) = String c0 (String c1 (str1 c2)).
Proof.
  unfold ok3, is_cont, cp3, encode_cp. intros H. split_bools.
  set (a := byte c0) in *. set (b := byte c1) in *. set (c := byte c2) in *.
  set (n := (a - 224) * 4096 + (b - 128) * 64 + (c - 128)) in *.
  assert (Hn : n < 65536) by (subst n; lia).
  destruct (Z.ltb_spec n 128); [lia|].
  destruct (Z.ltb_spec n 2048); [lia|].
  assert (Hs : (56448 <=? n) && (n <=? 56575) = false).
  { apply andb_false_iff.
    destruct (Z.leb_spec 56448 n); [right|now left].
    apply Z.leb_gt. lia. }
  rewrite Hs. destruct (Z.ltb_spec n 65536); [|lia].
  f_equal; [|f_equal; [|f_equal]]; apply chr_eq; subst n a b c; div_mod_lia.
Qed.

Lemma encode_cp4 (c0 c1 c2 c3 : ascii) :
  ok4 c0 c1 c2 c3 = true ->
  encode_cp (cp4 c0 c1 c2 c3) = String c0 (String c1 (String c2 (str1 c3))).
Proof.
  unfold ok4, is_cont, cp4, encode_cp. intros H. split_bools.
  set (a := byte c0) in *. set (b := byte c1) in *. set (c := byte c2) in *.
  set (d := byte c3) in *.
  set (n := (a - 240) * 262144 + (b - 128) * 4096 + (c - 128) * 64 + (d - 128)) in *.
  destruct (Z.ltb_spec n 128); [lia|].
  destruct (Z.ltb_spec n 2048); [lia|].
  assert (Hs : (56448 <=? n) && (n <=? 56575) = false)
    by (apply andb_false_iff; right; apply Z.leb_gt; lia).
  rewrite Hs. destruct (Z.ltb_spec n 65536); [lia|].
  f_equal; [|f_equal; [|f_equal; [|f_equal]]]; apply chr_eq; subst n a b c d;
    div_mod_lia.
Qed.

Lemma encode_lone (c0 : ascii) :
  128 <= byte c0 -> encode_cp (56320 + byte c0) = str1 c0.
Proof.
  intros H. pose proof (byte_range c0). unfold encode_cp.
  destruct (Z.ltb_spec (56320 + byte c0) 128); [lia|].
  destruct (Z.ltb_spec (56320 + byte c0) 2048); [lia|].
  assert (Hs : (56448 <=? 56320 + byte c0) && (56320 + byte c0 <=? 56575) = true)
    by (apply andb_true_intro; split; apply Z.leb_le; lia).
  rewrite Hs. f_equal. apply chr_eq. lia.
Qed.

Lemma encode_ascii (c0 : ascii) : byte c0 < 128 -> encode_cp (byte c0) = str1 c0.
Proof.
  intros H. unfold encode_cp. destruct (Z.ltb_spec (byte c0) 128); [|lia].
  now rewrite chr_byte.
Qed.


Lemma decode_cases (P : string -> Prop) :
  P EmptyString ->
  (forall c0 t0, byte c0 < 128 -> P t0 -> P (String c0 t0)) ->
  (forall c0 c1 t1, 128 <= byte c0 -> ok2 c0 c1 = true -> P t1 ->
                    P (String c0 (String c1 t1))) ->
  (forall c0 c1 c2 t2, 128 <= byte c0 -> ok2 c0 c1 = false ->
                       ok3 c0 c1 c2 = true -> P t2 ->
                       P (String c0 (String c1 (String c2 t2)))) ->
  (forall c0 c1 c2 c3 t3, 128 <= byte c0 -> ok2 c0 c1 = false ->
                          ok3 c0 c1 c2 = false -> ok4 c0 c1 c2 c3 = true ->
                          P t3 -> P (String c0 (String c1 (String c2 (String c3 t3))))) ->
  (forall c0 t0, 128 <= byte c0 ->
                 decode (String c0 t0) = (56320 + byte c0) :: decode t0 ->
                 P t0 -> P (String c0 t0)) ->
  forall s, P s.
Proof.
  intros H0 H1 H2 H3 H4 HL s.
  assert (H : forall n s, (String.length s <= n)%nat -> P s).
  { clear s. induction n as [|n IH]; intros s Hn.
    - destruct s; [exact H0 | cbn in Hn; lia].
    - destruct s as [|c0 t0]; [exact H0|]. cbn [String.length] in Hn.
      destruct (Z.ltb_spec (byte c0) 128) as [Hlt|Hge].
      { apply H1; [exact Hlt | apply IH; lia]. }
      assert (Hb : (byte c0 <? 128) = false) by (apply Z.ltb_ge; lia).
      assert (Pt0 : P t0) by (apply IH; lia).
      destruct t0 as [|c1 t1];
        [apply HL; [lia | cbn [decode]; now rewrite Hb | exact Pt0]|].
      cbn [String.length] in Hn.
      destruct (ok2 c0 c1) eqn:E2; [apply H2; [lia | exact E2 | apply IH; lia]|].
      destruct t1 as [|c2 t2];
        [apply HL; [lia | cbn [decode]; now rewrite Hb, E2 | exact Pt0]|].
      cbn [String.length] in Hn.
      destruct (ok3 c0 c1 c2) eqn:E3;
        [apply H3; [lia | exact E2 | exact E3 | apply IH; lia]|].
      destruct t2 as [|c3 t3];
        [apply HL; [lia | cbn [decode]; now rewrite Hb, E2, E3 | exact Pt0]|].
      cbn [String.length] in Hn.
      destruct (ok4 c0 c1 c2 c3) eqn:E4;
        [apply H4; [lia | exact E2 | exact E3 | exact E4 | apply IH; lia]|].
      apply HL; [lia | cbn [decode]; now rewrite Hb, E2, E3, E4 | exact Pt0]. }
  apply (H (String.length s)). lia.
Qed.

Lemma decode_ascii_cons (c0 : ascii) (t0 : string) :
  byte c0 < 128 -> decode (String c0 t0) = byte c0 :: decode t0.
Proof. intros H. cbn [decode]. apply Z.ltb_lt in H. now rewrite H. Qed.

Lemma decode_2 (c0 c1 : ascii) (t1 : string) :
  128 <= byte c0 -> ok2 c0 c1 = true ->
  decode (String c0 (String c1 t1)) = cp2 c0 c1 :: decode t1.
Proof. intros H E. cbn [decode]. apply Z.ltb_ge in H. now rewrite H, E. Qed.

Lemma decode_3 (c0 c1 c2 : ascii) (t2 : string) :
  128 <= byte c0 -> ok2 c0 c1 = false -> ok3 c0 c1 c2 = true ->
  decode (String c0 (String c1 (String c2 t2))) = cp3 c0 c1 c2 :: decode t2.
Proof. intros H E2 E3. cbn [decode]. apply Z.ltb_ge in H. now rewrite H, E2, E3. Qed.

Lemma decode_4 (c0 c1 c2 c3 : ascii) (t3 : string) :
  128 <= byte c0 -> ok2 c0 c1 = false -> ok3 c0 c1 c2 = false ->
  ok4 c0 c1 c2 c3 = true ->
  decode (String c0 (String c1 (String c2 (String c3 t3)))) =
  cp4 c0 c1 c2 c3 :: decode t3.
Proof.
  intros H E2 E3 E4. cbn [decode]. apply Z.ltb_ge in H. now rewrite H, E2, E3, E4.
Qed.

(** A text is the bytes of its characters. *)
Lemma encode_decode (s : string) : encode (decode s) = s.
Proof.
  induction s as [|c0 t0 H IH|c0 c1 t1 H E IH|c0 c1 c2 t2 H E2 E3 IH
                  |c0 c1 c2 c3 t3 H E2 E3 E4 IH|c0 t0 H E IH] using decode_cases.
  - reflexivity.
  - rewrite decode_ascii_cons by exact H. cbn [encode].
    now rewrite encode_ascii, IH.
  - rewrite decode_2 by assumption. cbn [encode]. now rewrite encode_cp2, IH.
  - rewrite decode_3 by assumption. cbn [encode]. now rewrite encode_cp3, IH.
  - rewrite decode_4 by assumption. cbn [encode]. now rewrite encode_cp4, IH.
  - rewrite E. cbn [encode]. now rewrite encode_lone, IH.
Qed.

Lemma holds_decode (s : string) : holds (decode s) = true.
Proof. unfold holds. apply bool_decide_eq_true. now rewrite encode_decode. Qed.

Lemma printable_decode (s : string) : Forall printable (decode s).
Proof.
  induction s as [|c0 t0 H IH|c0 c1 t1 H E IH|c0 c1 c2 t2 H E2 E3 IH
                  |c0 c1 c2 c3 t3 H E2 E3 E4 IH|c0 t0 H E IH] using decode_cases.
  - constructor.
  - rewrite decode_ascii_cons by exact H. constructor; [|exact IH].
    pose proof (byte_range c0). left. lia.
  - rewrite decode_2 by assumption. constructor; [|exact IH].
    unfold ok2, is_cont in E. split_bools. unfold cp2. left. lia.
  - rewrite decode_3 by assumption. constructor; [|exact IH].
    unfold ok3, is_cont in E3. split_bools. unfold printable.
    set (n := cp3 c0 c1 c2) in *.
    assert (n < 65536) by (subst n; unfold cp3; lia).
    destruct H1 as [H1 | H1]; split_bools; lia.
  - rewrite decode_4 by assumption. constructor; [|exact IH].
    unfold ok4 in E4. split_bools. right. right. lia.
  - rewrite E. constructor; [|exact IH].
    pose proof (byte_range c0). right. left. lia.
Qed.

(** ** The mirror read back: strings *)

Lemma hexval_hexdigit (k : Z) : 0 <= k < 16 -> hexval (hexdigit k) = Some k.
Proof.
  intros H.
  assert (E : k = 0 \/ k = 1 \/ k = 2 \/ k = 3 \/ k = 4 \/ k = 5 \/ k = 6 \/ k = 7 \/
              k = 8 \/ k = 9 \/ k = 10 \/ k = 11 \/ k = 12 \/ k = 13 \/ k = 14 \/
              k = 15) by lia.
  repeat (destruct E as [-> | E]; [reflexivity|]). subst k. reflexivity.
Qed.

Lemma hex4_digits (n : Z) :
  0 <= n < 65536 ->
  hex4 (hexdigit (n / 4096)) (hexdigit (n / 256 mod 16))
       (hexdigit (n / 16 mod 16)) (hexdigit (n mod 16)) = Some n.
Proof.
  intros H. unfold hex4.
  rewrite !hexval_hexdigit by div_mod_lia. f_equal. div_mod_lia.
Qed.

Lemma scan_chars_unit (h1 h2 h3 h4 : ascii) (t2 : string) (n : Z) :
  hex4 h1 h2 h3 h4 = Some n ->
  (55296 <=? n) && (n <=? 56319) = false ->
  scan_chars (String backslash (String "u" (String h1 (String h2 (String h3
    (String h4 t2)))))) = pcons n (scan_chars t2).
Proof.
  intros E H.
  change (scan_chars (String backslash (String "u" (String h1 (String h2 (String h3
            (String h4 t2)))))))
    with (match hex4 h1 h2 h3 h4 with
          | Some n =>
              if (55296 <=? n) && (n <=? 56319) then
                match t2 with
                | String b1 (String b2
                    (String g1 (String g2 (String g3 (String g4 t4))))) =>
                    if Ascii.eqb b1 backslash && Ascii.eqb b2 "u"%char then
                      match hex4 g1 g2 g3 g4 with
                      | Some m =>
                          if (56320 <=? m) && (m <=? 57343)
                          then pcons (65536 + (n - 55296) * 1024 + (m - 56320))
                                     (scan_chars t4)
                          else pcons n (scan_chars t2)
                      | None => PErr
                      end
                    else pcons n (scan_chars t2)
                | _ => pcons n (scan_chars t2)
                end
              else pcons n (scan_chars t2)
          | None => PErr
          end).
  now rewrite E, H.
Qed.

Lemma scan_chars_pair (h1 h2 h3 h4 g1 g2 g3 g4 : ascii) (t4 : string) (n m : Z) :
  hex4 h1 h2 h3 h4 = Some n -> (55296 <=? n) && (n <=? 56319) = true ->
  hex4 g1 g2 g3 g4 = Some m -> (56320 <=? m) && (m <=? 57343) = true ->
  scan_chars (String backslash (String "u" (String h1 (String h2 (String h3
    (String h4 (String backslash (String "u" (String g1 (String g2 (String g3
    (String g4 t4)))))))))))) =
  pcons (65536 + (n - 55296) * 1024 + (m - 56320)) (scan_chars t4).
Proof.
  intros E H E' H'.
  change (scan_chars (String backslash (String "u" (String h1 (String h2 (String h3
    (String h4 (String backslash (String "u" (String g1 (String g2 (String g3
    (String g4 t4)))))))))))))
    with (match hex4 h1 h2 h3 h4 with
          | Some n =>
              if (55296 <=? n) && (n <=? 56319) then
                match hex4 g1 g2 g3 g4 with
                | Some m =>
                    if (56320 <=? m) && (m <=? 57343)
                    then pcons (65536 + (n - 55296) * 1024 + (m - 56320))
                               (scan_chars t4)
                    else pcons n (scan_chars (String backslash (String "u"
                           (String g1 (String g2 (String g3 (String g4 t4)))))))
                | None => PErr
                end
              else pcons n (scan_chars (String backslash (String "u"
                     (String g1 (String g2 (String g3 (String g4 t4)))))))
          | None => PErr
          end).
  now rewrite E, H, E', H'.
Qed.

Lemma scan_chars_plain (c : ascii) (t : string) :
  32 <= byte c < 128 -> byte c <> 34 -> byte c <> 92 ->
  scan_chars (String c t) = pcons (byte c) (scan_chars t).
Proof.
  intros H Hq Hb.
  assert (E1 : Ascii.eqb c dquote = false)
    by (apply Ascii.eqb_neq; intros ->; now apply Hq).
  assert (E2 : Ascii.eqb c backslash = false)
    by (apply Ascii.eqb_neq; intros ->; now apply Hb).
  assert (E3 : (byte c <? 32) = false) by (apply Z.ltb_ge; lia).
  assert (E4 : (byte c <? 128) = true) by (apply Z.ltb_lt; lia).
  cbn [scan_chars]. now rewrite E1, E2, E3, E4.
Qed.

Lemma uescape_app (n : Z) (tail : string) :
  uescape n +:+ tail =
  String backslash (String "u" (String (hexdigit (n / 4096))
    (String (hexdigit (n / 256 mod 16)) (String (hexdigit (n / 16 mod 16))
      (String (hexdigit (n mod 16)) tail))))).
Proof. reflexivity. Qed.

(** One character written, then read. *)
Lemma scan_chars_escape_cp (n : Z) (tail : string) :
  printable n ->
  scan_chars (escape_cp n +:+ tail) = pcons n (scan_chars tail).
Proof.
  intros Hp. unfold escape_cp.
  destruct (Z.eqb_spec n 34) as [->|N1]; [reflexivity|].
  destruct (Z.eqb_spec n 92) as [->|N2]; [reflexivity|].
  destruct (Z.eqb_spec n 10) as [->|N3]; [reflexivity|].
  destruct (Z.eqb_spec n 13) as [->|N4]; [reflexivity|].
  destruct (Z.eqb_spec n 9) as [->|N5]; [reflexivity|].
  destruct (Z.eqb_spec n 8) as [->|N6]; [reflexivity|].
  destruct (Z.eqb_spec n 12) as [->|N7]; [reflexivity|].
  destruct ((32 <=? n) && (n <=? 126)) eqn:Hr.
  { split_bools. unfold str1. push_append.
    assert (Hb : byte (chr n) = n) by (apply byte_chr; lia).
    rewrite scan_chars_plain; rewrite Hb; [reflexivity | lia | lia | lia]. }
  destruct (Z.ltb_spec n 65536) as [Hlt|Hge].
  - rewrite uescape_app.
    apply scan_chars_unit; [apply hex4_digits; unfold printable in Hp; lia|].
    apply andb_false_iff. unfold printable in Hp.
    destruct (Z.leb_spec 55296 n); [right; apply Z.leb_gt; lia | now left].
  - rewrite append_assoc, !uescape_app. unfold printable in Hp.
    set (hi := 55296 + (n - 65536) / 1024).
    set (lo := 56320 + (n - 65536) mod 1024).
    assert (Hhi : 55296 <= hi <= 56319) by (subst hi; div_mod_lia).
    assert (Hlo : 56320 <= lo <= 57343) by (subst lo; div_mod_lia).
    rewrite (scan_chars_pair _ _ _ _ _ _ _ _ _ hi lo).
    + f_equal. subst hi lo. div_mod_lia.
    + apply hex4_digits. lia.
    + apply andb_true_intro; split; apply Z.leb_le; lia.
    + apply hex4_digits. lia.
    + apply andb_true_intro; split; apply Z.leb_le; lia.
Qed.

Lemma scan_chars_escape_all (l : list Z) (rest : string) :
  Forall printable l ->
  scan_chars (escape_all l +:+ String dquote rest) = POk l rest.
Proof.
  induction 1 as [|n l Hn _ IH]; [reflexivity|].
  cbn [escape_all]. rewrite append_assoc, (scan_chars_escape_cp _ _ Hn), IH.
  reflexivity.
Qed.

Lemma scanstring_escape (s rest : string) :
  scanstring (escape s +:+ String dquote rest) = POk s rest.
Proof.
  unfold scanstring, escape.
  rewrite (scan_chars_escape_all _ _ (printable_decode s)), holds_decode.
  now rewrite encode_decode.
Qed.

Lemma quote_app (s rest : string) :
  quote s +:+ rest = String dquote (escape s +:+ String dquote rest).
Proof.
  unfold quote, str1. push_append. now rewrite append_assoc.
Qed.

(** ** The mirror read back: values *)

Lemma dumps_arr (lvl : nat) (x : json) (xs : list json) (rest : string) :
  dumps lvl (JArr (x :: xs)) +:+ rest =
  String "[" (nl (S lvl) +:+ dumps (S lvl) x +:+ items_tail lvl xs rest).
Proof.
  cbn [dumps]. rewrite !append_assoc. push_append. do 3 f_equal.
  induction xs as [|y ys IH].
  - cbn [items_tail]. rewrite append_assoc. reflexivity.
  - cbn [items_tail]. rewrite <- IH, !append_assoc. reflexivity.
Qed.

Lemma dumps_obj (lvl : nat) (k : string) (x : json)
    (ms : list (string * json)) (rest : string) :
  dumps lvl (JObj ((k, x) :: ms)) +:+ rest =
  String "{" (nl (S lvl) +:+ String dquote (escape k +:+ String dquote
    (String ":" (String " " (dumps (S lvl) x +:+ members_tail lvl ms rest))))).
Proof.
  cbn [dumps]. rewrite !append_assoc. push_append.
  rewrite quote_app. push_append. do 8 f_equal.
  induction ms as [|[k' y] ys IH].
  - cbn [members_tail]. rewrite append_assoc. reflexivity.
  - cbn [members_tail]. rewrite <- IH, !append_assoc. push_append.
    rewrite quote_app. reflexivity.
Qed.

Lemma skip_ws_spaces (n : nat) (s : string) : skip_ws (spaces n +:+ s) = skip_ws s.
Proof. induction n as [|n IH]; [reflexivity | exact IH]. Qed.

Lemma skip_ws_nl (lvl : nat) (s : string) : skip_ws (nl lvl +:+ s) = skip_ws s.
Proof. unfold nl. exact (skip_ws_spaces _ s). Qed.

Lemma skip_ws_value (s : string) : starts_value s = true -> skip_ws s = s.
Proof.
  destruct s as [|c t]; [discriminate|]. cbn [starts_value skip_ws].
  intros H. apply andb_true_iff in H as [H _]. apply negb_true_iff in H.
  now rewrite H.
Qed.

Lemma dumps_starts_value (lvl : nat) (v : json) (rest : string) :
  starts_value (dumps lvl v +:+ rest) = true.
Proof.
  destruct v as [|[]|n|s|[|x xs]|[|[k x] ms]]; try reflexivity.
  cbn [dumps]. destruct n as [|p|p].
  - reflexivity.
  - rewrite str_of_Z_pos. destruct (pos_text p) as (c & t & -> & Hc & _).
    destruct (digit_facts c Hc) as (_ & Hw & _ & _ & Hb).
    push_append; cbn [starts_value]. now rewrite Hw, Hb.
  - rewrite str_of_Z_neg. reflexivity.
Qed.

Lemma substring_all (s : string) : substring 0 (String.length s) s = s.
Proof. induction s as [|c t IH]; [reflexivity|]. cbn. now rewrite IH. Qed.

Lemma prefix_append (w r : string) : String.prefix w (w +:+ r) = true.
Proof.
  induction w as [|c t IH]; [now destruct r|].
  rewrite append_cons. cbn [String.prefix].
  destruct (ascii_dec c c); [exact IH | congruence].
Qed.

Lemma substring_append (w r : string) :
  substring (String.length w) (String.length r) (w +:+ r) = r.
Proof.
  induction w as [|c t IH]; [rewrite append_nil_l; apply substring_all|].
  rewrite append_cons. cbn [String.length substring]. exact IH.
Qed.

Lemma scan_literal_app (word : string) (v : json) (rest : string) :
  scan_literal word v (word +:+ rest) = POk v rest.
Proof.
  unfold scan_literal. rewrite prefix_append, length_append.
  replace (String.length word + String.length rest - String.length word)%nat
    with (String.length rest) by lia.
  now rewrite substring_append.
Qed.

Lemma parse_value_digit (f : nat) (c : ascii) (t : string) :
  isdigit c = true -> parse_value (S f) (String c t) = scan_int false c t.
Proof.
  destruct c as [[] [] [] [] [] [] [] []]; intros H;
    try (vm_compute in H; discriminate H); reflexivity.
Qed.

Lemma not_a_float (rest : string) :
  delimited rest = true -> after_fraction rest = None /\ after_exponent rest = None.
Proof.
  destruct rest as [|a r]; [now split|]. cbn [delimited starts_fraction].
  intros H. apply andb_true_iff in H as [_ H]. apply negb_true_iff in H.
  apply orb_false_iff in H as [H H3]. apply orb_false_iff in H as [H1 H2].
  split.
  - cbn [after_fraction]. destruct r; [reflexivity|]. now rewrite H1.
  - cbn [after_exponent]. now rewrite H2, H3.
Qed.

Lemma scan_int_digits (neg : bool) (c : ascii) (t rest : string) :
  Ascii.eqb c "0" = false -> all_digits t = true -> delimited rest = true ->
  scan_int neg c (t +:+ rest) =
  POk (JInt (if neg then - digits_value (String c t) else digits_value (String c t)))
      rest.
Proof.
  intros Hc Ht Hr. unfold scan_int. rewrite Hc, (span_digits_app _ _ Ht Hr).
  destruct (not_a_float _ Hr) as [Hf He]. now rewrite Hf, He.
Qed.

Lemma parse_value_minus (f : nat) (c : ascii) (t : string) :
  isdigit c = true ->
  parse_value (S f) (String "-" (String c t)) = scan_int true c t.
Proof. intros H. cbn [parse_value]. now rewrite H. Qed.

Lemma parse_int (f : nat) (n : Z) (rest : string) :
  delimited rest = true ->
  parse_value (S f) (str_of_Z n +:+ rest) = POk (JInt n) rest.
Proof.
  intros Hr. destruct (not_a_float _ Hr) as [Hf He].
  destruct n as [|p|p].
  - change (str_of_Z 0 +:+ rest) with (String "0" rest).
    rewrite parse_value_digit by reflexivity.
    unfold scan_int. change (Ascii.eqb "0" "0") with true. cbv iota beta.
    now rewrite Hf, He.
  - rewrite str_of_Z_pos. destruct (pos_text p) as (c & t & E & Hc & H0 & Ht).
    pose proof (digits_value_pos p) as Hv. rewrite E in Hv. rewrite E.
    push_append. rewrite (parse_value_digit _ _ _ Hc).
    rewrite (scan_int_digits false _ _ _ H0 Ht Hr). now rewrite Hv.
  - rewrite str_of_Z_neg. destruct (pos_text p) as (c & t & E & Hc & H0 & Ht).
    pose proof (digits_value_pos p) as Hv. rewrite E in Hv. rewrite E.
    push_append. rewrite (parse_value_minus _ _ _ Hc).
    rewrite (scan_int_digits true _ _ _ H0 Ht Hr). now rewrite Hv.
Qed.

(** Induction on a value, with the hypothesis for every item of an array
    and every member of an object. *)
Lemma json_induction (P : json -> Prop) :
  P JNull -> (forall b, P (JBool b)) -> (forall n, P (JInt n)) ->
  (forall s, P (JStr s)) ->
  (forall l, Forall P l -> P (JArr l)) ->
  (forall d, Forall (fun kv => P kv.2) d -> P (JObj d)) ->
  forall v, P v.
Proof.
  intros HN HB HI HS HA HO. fix IH 1. intros [|b|n|s|l|d].
  - exact HN.
  - apply HB.
  - apply HI.
  - apply HS.
  - apply HA. induction l as [|x l IHl]; constructor; [apply IH | exact IHl].
  - apply HO. induction d as [|[k x] d IHd]; constructor; [apply IH | exact IHd].
Qed.

Lemma list_sum_cons (a : nat) (l : list nat) :
  list_sum (a :: l) = (a + list_sum l)%nat.
Proof. reflexivity. Qed.

Lemma dict_set_fresh (k : string) (v : json) (d : list (string * json)) :
  ~ In k (map fst d) -> dict_set k v d = d ++ [(k, v)].
Proof.
  induction d as [|[k' v'] d IH]; intros H; [reflexivity|].
  cbn [dict_set]. cbn [map fst In] in H.
  destruct (String.eqb_spec k k') as [->|Hne]; [exfalso; apply H; now left|].
  rewrite IH; [reflexivity|]. intros Hin. apply H. now right.
Qed.

Lemma parse_value_string (f : nat) (t : string) :
  parse_value (S f) (String dquote t) =
  match scanstring t with
  | POk str r => POk (JStr str) r
  | PErr => PErr
  | POut r => POut r
  | PFuel => PFuel
  end.
Proof. reflexivity. Qed.

Lemma parse_value_arr (f : nat) (t : string) :
  parse_value (S f) (String "[" t) =
  match skip_ws t with
  | String c1 r =>
      if Ascii.eqb c1 "]" then POk (JArr []) r
      else parse_items f (String c1 r) []
  | EmptyString => PErr
  end.
Proof. reflexivity. Qed.

Lemma parse_value_obj (f : nat) (t : string) :
  parse_value (S f) (String "{" t) =
  match skip_ws t with
  | String c1 r =>
      if Ascii.eqb c1 "}" then POk (JObj []) r
      else if Ascii.eqb c1 dquote then parse_members f r []
      else PErr
  | EmptyString => PErr
  end.
Proof. reflexivity. Qed.

(** An item that is held and read, then the rest of the array. *)
Lemma parse_items_held (f : nat) (s : string) (acc : list json) (v : json)
    (r : string) :
  parse_value f s = POk v r ->
  parse_items (S f) s acc =
  match skip_ws r with
  | String c1 r1 =>
      if Ascii.eqb c1 "]" then POk (JArr (acc ++ [v])) r1
      else if Ascii.eqb c1 "," then parse_items f (skip_ws r1) (acc ++ [v])
      else PErr
  | EmptyString => PErr
  end.
Proof. intros E. cbn [parse_items]. now rewrite E. Qed.

(** A member that is held and read, then the rest of the object. *)
Lemma parse_members_held (f : nat) (s : string) (acc : list (string * json))
    (k : string) (v : json) (r1 r2 : string) :
  scanstring s = POk k (String ":" r1) ->
  parse_value f (skip_ws r1) = POk v r2 ->
  parse_members (S f) s acc =
  match skip_ws r2 with
  | String c2 r3 =>
      if Ascii.eqb c2 "}" then POk (JObj (dict_set k v acc)) r3
      else if Ascii.eqb c2 "," then
        match skip_ws r3 with
        | String c3 r4 =>
            if Ascii.eqb c3 dquote
            then parse_members f r4 (dict_set k v acc)
            else PErr
        | EmptyString => PErr
        end
      else PErr
  | EmptyString => PErr
  end.
Proof.
  intros Ek Ev. cbn [parse_members]. rewrite Ek.
  change (skip_ws (String ":" r1)) with (String ":" r1). cbv iota.
  change (Ascii.eqb ":" ":") with true. cbv iota. now rewrite Ev.
Qed.

Lemma parse_arr_open (f lvl : nat) (X : string) :
  starts_value X = true ->
  parse_value (S f) (String "[" (nl lvl +:+ X)) = parse_items f X [].
Proof.
  intros H. rewrite parse_value_arr.
  rewrite skip_ws_nl, (skip_ws_value _ H). destruct X as [|c r]; [discriminate|].
  cbn [starts_value] in H. apply andb_true_iff in H as [_ H].
  apply negb_true_iff in H. now rewrite H.
Qed.

Lemma parse_obj_open (f lvl : nat) (X : string) :
  parse_value (S f) (String "{" (nl lvl +:+ String dquote X)) =
  parse_members f X [].
Proof. rewrite parse_value_obj, skip_ws_nl. reflexivity. Qed.

Lemma items_tail_delimited (lvl : nat) (xs : list json) (rest : string) :
  delimited (items_tail lvl xs rest) = true.
Proof. destruct xs; reflexivity. Qed.

Lemma members_tail_delimited (lvl : nat) (ms : list (string * json))
    (rest : string) :
  delimited (members_tail lvl ms rest) = true.
Proof. destruct ms as [|[k y] ms]; reflexivity. Qed.

Lemma parse_items_tail (lvl : nat) (xs : list json) :
  Forall reads_back xs -> Forall distinct_keys xs ->
  forall x f acc rest,
    reads_back x -> distinct_keys x ->
    (S (size x) + list_sum (map (fun y => S (size y)) xs) <= f)%nat ->
    parse_items f (dumps (S lvl) x +:+ items_tail lvl xs rest) acc =
    POk (JArr (acc ++ x :: xs)) rest.
Proof.
  intros HP Hwf. induction xs as [|y ys IH]; intros x f acc rest Hx Hdx Hf;
    (destruct f as [|f]; [lia|]);
    rewrite (parse_items_held f _ acc x (items_tail lvl _ rest))
      by (apply (Hx (S lvl) f _ Hdx);
          [cbn in Hf; lia | apply items_tail_delimited]).
  - cbn [items_tail]. rewrite skip_ws_nl. reflexivity.
  - cbn [items_tail].
    change (skip_ws (String "," ?t)) with (String "," t). cbv iota.
    change (Ascii.eqb "," "]") with false. change (Ascii.eqb "," ",") with true.
    cbv iota.
    rewrite skip_ws_nl, (skip_ws_value _ (dumps_starts_value _ _ _)).
    inversion HP as [|? ? Hy HP']; subst. inversion Hwf as [|? ? Hdy Hwf']; subst.
    rewrite (IH HP' Hwf' y f (acc ++ [x]) rest Hy Hdy)
      by (cbn [map] in Hf; rewrite list_sum_cons in Hf; lia).
    now rewrite <- app_assoc.
Qed.

Lemma parse_members_tail (lvl : nat) (ms : list (string * json)) :
  Forall (fun kv => reads_back kv.2) ms ->
  Forall (fun kv => distinct_keys kv.2) ms ->
  forall k x f acc rest,
    reads_back x -> distinct_keys x ->
    NoDup (map fst acc ++ k :: map fst ms) ->
    (S (size x) + list_sum (map (fun kv => S (size kv.2)) ms) <= f)%nat ->
    parse_members f
      (escape k +:+ String dquote
        (String ":" (String " " (dumps (S lvl) x +:+ members_tail lvl ms rest))))
      acc =
    POk (JObj (acc ++ (k, x) :: ms)) rest.
Proof.
  intros HP Hwf.
  induction ms as [|[k' y] ys IH]; intros k x f acc rest Hx Hdx Hnd Hf;
    (destruct f as [|f]; [lia|]);
    rewrite (parse_members_held f _ acc k x _ (members_tail lvl _ rest)
               (scanstring_escape _ _))
      by (change (skip_ws (String " " ?t)) with (skip_ws t);
          rewrite (skip_ws_value _ (dumps_starts_value _ _ _));
          apply (Hx (S lvl) f _ Hdx);
          [cbn in Hf; lia | apply members_tail_delimited]);
    assert (Hk : ~ In k (map fst acc))
      by (intros Hin; apply NoDup_app in Hnd as (_ & Hd & _);
          apply list_elem_of_In in Hin; apply (Hd k Hin); left);
    rewrite (dict_set_fresh _ _ _ Hk).
  - cbn [members_tail]. rewrite skip_ws_nl. reflexivity.
  - cbn [members_tail].
    change (skip_ws (String "," ?t)) with (String "," t). cbv iota.
    change (Ascii.eqb "," "}") with false. change (Ascii.eqb "," ",") with true.
    cbv iota. rewrite skip_ws_nl.
    change (skip_ws (String dquote ?t)) with (String dquote t). cbv iota.
    change (Ascii.eqb dquote dquote) with true. cbv iota.
    inversion HP as [|? ? Hy HP']; subst. inversion Hwf as [|? ? Hdy Hwf']; subst.
    cbn [snd] in Hy, Hdy.
    rewrite (IH HP' Hwf' k' y f (acc ++ [(k, x)]) rest Hy Hdy).
    + now rewrite <- app_assoc.
    + rewrite map_app, <- app_assoc. exact Hnd.
    + cbn [map snd] in Hf. rewrite list_sum_cons in Hf. lia.
Qed.

Lemma parse_dumps (v : json) : reads_back v.
Proof.
  induction v as [|b|n|s|l IH|d IH] using json_induction;
    intros lvl f rest Hwf Hf Hr; (destruct f as [|f]; [cbn in Hf; lia|]).
  - apply (scan_literal_app "ull" JNull rest).
  - destruct b.
    + apply (scan_literal_app "rue" (JBool true) rest).
    + apply (scan_literal_app "alse" (JBool false) rest).
  - apply parse_int, Hr.
  - cbn [dumps]. rewrite quote_app.
    now rewrite parse_value_string, scanstring_escape.
  - inversion Hwf as [| | | |? Hl|]; subst.
    destruct l as [|x xs]; [reflexivity|].
    inversion IH as [|? ? Hx IH']; subst. inversion Hl as [|? ? Hdx Hl']; subst.
    rewrite dumps_arr, parse_arr_open by apply dumps_starts_value.
    apply (parse_items_tail lvl xs IH' Hl' x f [] rest Hx Hdx).
    cbn [size map] in Hf. rewrite list_sum_cons in Hf. lia.
  - inversion Hwf as [| | | | |? Hnd Hl]; subst.
    destruct d as [|[k x] ms]; [reflexivity|].
    inversion IH as [|? ? Hx IH']; subst. inversion Hl as [|? ? Hdx Hl']; subst.
    rewrite dumps_obj, parse_obj_open.
    apply (parse_members_tail lvl ms IH' Hl' k x f [] rest Hx Hdx).
    + exact Hnd.
    + cbn [size map snd] in Hf. rewrite list_sum_cons in Hf. lia.
Qed.

Lemma length_nl (lvl : nat) : (1 <= String.length (nl lvl))%nat.
Proof. unfold nl. cbn [String.length]. lia. Qed.

Lemma size_le_length (v : json) :
  forall lvl rest,
    (size v + String.length rest <= String.length (dumps lvl v +:+ rest))%nat.
Proof.
  induction v as [|b|n|s|l IH|d IH] using json_induction; intros lvl rest.
  - rewrite length_append. cbn [size dumps String.length]. lia.
  - rewrite length_append. destruct b; cbn [size dumps String.length]; lia.
  - rewrite length_append.
    pose proof (dumps_starts_value lvl (JInt n) EmptyString) as H.
    rewrite append_nil_r in H. destruct (dumps lvl (JInt n)); [discriminate|].
    cbn [size String.length]. lia.
  - rewrite length_append. cbn [size dumps]. unfold quote.
    cbn [String.length]. lia.
  - destruct l as [|x xs];
      [rewrite length_append; cbn; lia|].
    rewrite dumps_arr.
    inversion IH as [|? ? Hx IH']; subst.
    assert (Ht : (list_sum (map (fun y => S (size y)) xs) + 1 + String.length rest
                  <= String.length (items_tail lvl xs rest))%nat).
    { clear Hx IH. induction IH' as [|y ys Hy _ IHys]; cbn [items_tail map].
      - rewrite length_append. pose proof (length_nl lvl).
        change (list_sum []) with 0%nat. cbn [String.length]. lia.
      - rewrite list_sum_cons. cbn [String.length]. rewrite !length_append.
        pose proof (length_nl (S lvl)).
        pose proof (Hy (S lvl) (items_tail lvl ys rest)).
        rewrite length_append in *. lia. }
    cbn [size map String.length]. rewrite list_sum_cons, !length_append.
    pose proof (length_nl (S lvl)).
    pose proof (Hx (S lvl) (items_tail lvl xs rest)) as Hx'.
    rewrite length_append in Hx'. lia.
  - destruct d as [|[k x] ms];
      [rewrite length_append; cbn; lia|].
    rewrite dumps_obj.
    inversion IH as [|? ? Hx IH']; subst. cbn [snd] in Hx.
    assert (Ht : (list_sum (map (fun kv => S (size kv.2)) ms) + 1 + String.length rest
                  <= String.length (members_tail lvl ms rest))%nat).
    { clear Hx IH. induction IH' as [|[k' y] ys Hy _ IHys];
        cbn [members_tail map snd].
      - rewrite length_append. pose proof (length_nl lvl).
        change (list_sum []) with 0%nat. cbn [String.length]. lia.
      - rewrite list_sum_cons. cbn [String.length]. rewrite length_append.
        cbn [String.length]. rewrite length_append. cbn [String.length].
        pose proof (length_nl (S lvl)). cbn [snd] in Hy.
        pose proof (Hy (S lvl) (members_tail lvl ys rest)) as Hy'.
        rewrite length_append in *. lia. }
    cbn [size map String.length snd]. rewrite list_sum_cons, length_append.
    cbn [String.length]. rewrite length_append. cbn [String.length].
    pose proof (length_nl (S lvl)).
    pose proof (Hx (S lvl) (members_tail lvl ms rest)) as Hx'.
    rewrite length_append in *. lia.
Qed.

(** [json.loads(json.dumps(v, indent=2)) == v] *)
Lemma json_loads_dumps (v : json) :
  distinct_keys v -> json_loads (json_dumps v) = Ok v.
Proof.
  intros Hwf. unfold json_loads, json_dumps.
  pose proof (dumps_starts_value 0%nat v EmptyString) as Hs.
  pose proof (size_le_length v 0%nat EmptyString) as Hl.
  pose proof (parse_dumps v 0%nat (2 * String.length (dumps 0 v) + 2)%nat
                EmptyString Hwf) as H.
  rewrite append_nil_r in *. cbn [String.length] in Hl.
  rewrite (skip_ws_value _ Hs), H; [reflexivity | lia | reflexivity].
Qed.

(** ** The mirror is ASCII text *)

Lemma isascii_app (a b : string) : isascii (a +:+ b) = isascii a && isascii b.
Proof.
  induction a as [|c t IH]; [reflexivity|]. push_append. cbn [isascii].
  now rewrite IH, andb_assoc.
Qed.

Lemma code_byte (c : ascii) : Z.of_nat (code c) = byte c.
Proof. unfold code, byte, nat_of_ascii. lia. Qed.

Lemma isascii_chr (n : Z) : 0 <= n < 128 -> (code (chr n) <? 128)%nat = true.
Proof.
  intros H. apply Nat.ltb_lt. pose proof (code_byte (chr n)) as E.
  rewrite byte_chr in E by lia. lia.
Qed.

Lemma well_formed_ascii (s : string) : isascii s = true -> well_formed s = true.
Proof.
  unfold well_formed. induction s as [|c t IH]; [reflexivity|].
  cbn [isascii]. intros H. apply andb_prop in H as [Hc Ht].
  apply Nat.ltb_lt in Hc. pose proof (code_byte c) as E.
  rewrite decode_ascii_cons by lia. cbn [forallb]. rewrite (IH Ht), andb_true_r.
  apply negb_true_iff, andb_false_iff. left. apply Z.leb_gt. lia.
Qed.

Lemma isascii_digits (s : string) : all_digits s = true -> isascii s = true.
Proof.
  induction s as [|c t IH]; [reflexivity|]. cbn [all_digits isascii].
  intros H. apply andb_prop in H as [Hc Ht]. rewrite (IH Ht), andb_true_r.
  unfold isdigit, in_range in Hc. apply andb_prop in Hc as [_ Hc].
  apply Nat.leb_le in Hc. apply Nat.ltb_lt. lia.
Qed.

Lemma isascii_str_of_Z (n : Z) : isascii (str_of_Z n) = true.
Proof.
  destruct n as [|p|p]; [reflexivity| |].
  - rewrite str_of_Z_pos. apply isascii_digits, string_of_uint_digits.
  - rewrite str_of_Z_neg. cbn [isascii].
    now rewrite (isascii_digits _ (string_of_uint_digits _)).
Qed.

Lemma isascii_hexdigit (k : Z) (t : string) :
  0 <= k < 16 -> isascii (String (hexdigit k) t) = isascii t.
Proof.
  intros H. cbn [isascii]. unfold hexdigit.
  rewrite isascii_chr; [reflexivity|]. destruct (k <? 10); lia.
Qed.

Lemma isascii_uescape (n : Z) : 0 <= n < 65536 -> isascii (uescape n) = true.
Proof.
  intros H. unfold uescape, str1.
  change (isascii (String backslash (String "u" ?t))) with (isascii t).
  rewrite !isascii_hexdigit by div_mod_lia. reflexivity.
Qed.

Lemma isascii_escape_cp (n : Z) : printable n -> isascii (escape_cp n) = true.
Proof.
  intros Hp. unfold escape_cp, printable in *.
  repeat match goal with
         | |- context [?a =? ?b] => destruct (a =? b); [reflexivity|]
         end.
  destruct ((32 <=? n) && (n <=? 126)) eqn:Hr.
  { split_bools. unfold str1. cbn [isascii]. rewrite isascii_chr by lia.
    reflexivity. }
  destruct (Z.ltb_spec n 65536).
  - apply isascii_uescape. lia.
  - rewrite isascii_app, !isascii_uescape by div_mod_lia. reflexivity.
Qed.

Lemma isascii_escape (s : string) : isascii (escape s) = true.
Proof.
  unfold escape. pose proof (printable_decode s) as H.
  induction H as [|n l Hn _ IH]; [reflexivity|].
  cbn [escape_all]. now rewrite isascii_app, (isascii_escape_cp _ Hn), IH.
Qed.

Lemma isascii_quote (s : string) : isascii (quote s) = true.
Proof.
  unfold quote. cbn [isascii]. rewrite isascii_app, isascii_escape. reflexivity.
Qed.

Lemma isascii_nl (lvl : nat) : isascii (nl lvl) = true.
Proof. unfold nl. cbn [isascii]. induction (2 * lvl)%nat; [reflexivity | assumption]. Qed.

Lemma isascii_dumps (v : json) : forall lvl, isascii (dumps lvl v) = true.
Proof.
  induction v as [|b|n|s|l IH|d IH] using json_induction; intros lvl.
  - reflexivity.
  - now destruct b.
  - apply isascii_str_of_Z.
  - apply isascii_quote.
  - destruct l as [|x xs]; [reflexivity|].
    pose proof (dumps_arr lvl x xs EmptyString) as E.
    rewrite append_nil_r in E. rewrite E. clear E.
    inversion IH as [|? ? Hx IH']; subst.
    cbn [isascii]. rewrite !isascii_app, isascii_nl, Hx.
    clear Hx IH. induction IH' as [|y ys Hy _ IHys]; cbn [items_tail isascii].
    + now rewrite isascii_app, isascii_nl.
    + now rewrite !isascii_app, isascii_nl, Hy.
  - destruct d as [|[k x] ms]; [reflexivity|].
    pose proof (dumps_obj lvl k x ms EmptyString) as E.
    rewrite append_nil_r in E. rewrite E. clear E.
    inversion IH as [|? ? Hx IH']; subst. cbn [snd] in Hx.
    cbn [isascii]. rewrite !isascii_app, isascii_nl. cbn [isascii].
    rewrite !isascii_app, isascii_escape. cbn [isascii].
    rewrite !isascii_app, Hx.
    clear Hx IH. induction IH' as [|[k' y] ys Hy _ IHys];
      cbn [members_tail isascii snd] in *.
    + now rewrite isascii_app, isascii_nl.
    + rewrite !isascii_app, isascii_nl. cbn [isascii].
      rewrite !isascii_app, isascii_escape. cbn [isascii].
      now rewrite !isascii_app, Hy.
Qed.

(** [json.load] on what [json.dump] wrote. *)
Lemma json_load_dumps (v : json) :
  distinct_keys v -> json_load (json_dumps v) = Ok v.
Proof.
  intros H. unfold json_load, json_dumps.
  rewrite (well_formed_ascii _ (isascii_dumps v 0%nat)).
  apply json_loads_dumps, H.
Qed.

(** ** The parser reaches a verdict *)

Lemma length_skip_ws (s : string) : (String.length (skip_ws s) <= String.length s)%nat.
Proof.
  induction s as [|c t IH]; [reflexivity|]. cbn [skip_ws].
  destruct (is_ws c); cbn [String.length]; lia.
Qed.

Lemma skip_ws_cons (s : string) (c : ascii) (r : string) :
  skip_ws s = String c r -> (String.length r < String.length s)%nat.
Proof.
  intros H. pose proof (length_skip_ws s) as L. rewrite H in L.
  cbn [String.length] in L. lia.
Qed.

(** What the scanner of a string leaves is shorter than what it was
    given. *)
Lemma scan_chars_rest (n : nat) :
  forall s, (String.length s <= n)%nat ->
  match scan_chars s with
  | POk _ r => (String.length r < String.length s)%nat
  | PErr => True
  | POut _ => False
  | PFuel => False
  end.
Proof.
  induction n as [|n IH]; intros s Hn.
  - destruct s; [exact I | cbn in Hn; lia].
  - destruct s as [|c t]; [exact I|]. cbn [String.length] in Hn.
    assert (step : forall (k : Z) (t' : string),
               (String.length t' <= String.length t)%nat ->
               match pcons k (scan_chars t') with
               | POk _ r => (String.length r < String.length (String c t))%nat
               | PErr => True
               | POut _ => False
               | PFuel => False
               end).
    { intros k t' Ht'. pose proof (IH t' ltac:(lia)) as H.
      destruct (scan_chars t'); cbn [pcons String.length] in *; auto; lia. }
    cbn [scan_chars].
    repeat match goal with
           | |- context [match ?x with _ => _ end] => is_var x; destruct x
           | |- context [match hex4 ?a ?b ?c ?d with _ => _ end] =>
               destruct (hex4 a b c d)
           | |- context [match unescape_simple ?e with _ => _ end] =>
               destruct (unescape_simple e)
           | |- context [if ?b then _ else _] =>
               match type of b with bool => destruct b end
           end;
      try exact I; try (cbn [String.length]; lia);
      try (apply step; cbn [String.length]; lia).
Qed.

Lemma scanstring_rest (s : string) :
  match scanstring s with
  | POk _ r => (String.length r < String.length s)%nat
  | PErr => True
  | POut r => (String.length r < String.length s)%nat
  | PFuel => False
  end.
Proof.
  unfold scanstring. pose proof (scan_chars_rest _ s (Nat.le_refl _)) as H.
  destruct (scan_chars s) as [l r| |r|]; try contradiction; [|exact I].
  destruct (holds l); exact H.
Qed.

Lemma length_span_digits (s : string) :
  (String.length (span_digits s).2 <= String.length s)%nat.
Proof.
  induction s as [|c t IH]; [reflexivity|]. cbn [span_digits].
  destruct (isdigit c); [|reflexivity].
  destruct (span_digits t) as [ds r]. cbn [snd String.length] in *. lia.
Qed.

Lemma after_fraction_rest (r r1 : string) :
  after_fraction r = Some r1 -> (String.length r1 <= String.length r)%nat.
Proof.
  destruct r as [|c [|d t]]; try discriminate. cbn [after_fraction].
  destruct (_ && _); [|discriminate]. intros [= <-].
  pose proof (length_span_digits t). cbn [String.length]. unfold snd in *. lia.
Qed.

Lemma after_exponent_rest (r r1 : string) :
  after_exponent r = Some r1 -> (String.length r1 <= String.length r)%nat.
Proof.
  destruct r as [|c t]; [discriminate|]. cbn [after_exponent].
  destruct (_ || _); [|discriminate].
  destruct t as [|d t1]; [discriminate|].
  destruct (isdigit d).
  { intros [= <-]. pose proof (length_span_digits t1). cbn [String.length].
    unfold snd in *. lia. }
  destruct (_ || _); [|discriminate].
  destruct t1 as [|x2 t2]; [discriminate|].
  destruct (isdigit x2); [|discriminate]. intros [= <-].
  pose proof (length_span_digits t2). cbn [String.length]. unfold snd in *. lia.
Qed.

Lemma scan_int_rest (neg : bool) (d : ascii) (t : string) :
  match scan_int neg d t with
  | POk _ r => (String.length r <= String.length t)%nat
  | PErr => True
  | POut r => (String.length r <= String.length t)%nat
  | PFuel => False
  end.
Proof.
  unfold scan_int.
  assert (H : exists ds r, (if Ascii.eqb d "0" then (EmptyString, t) else span_digits t)
                           = (ds, r) /\ (String.length r <= String.length t)%nat).
  { destruct (Ascii.eqb d "0"); [now exists EmptyString, t|].
    pose proof (length_span_digits t). destruct (span_digits t) as [ds r].
    now exists ds, r. }
  destruct H as (ds & r & -> & Hr).
  destruct (after_fraction r) as [r1|] eqn:E1.
  - apply after_fraction_rest in E1.
    destruct (after_exponent r1) as [r2|] eqn:E2; [|lia].
    apply after_exponent_rest in E2. lia.
  - destruct (after_exponent r) as [r2|] eqn:E2; [|exact Hr].
    apply after_exponent_rest in E2. lia.
Qed.

Lemma length_substring (n m : nat) (s : string) :
  (String.length (substring n m s) <= m)%nat.
Proof.
  revert n m. induction s as [|c t IH]; intros [|n] [|m]; cbn; try lia.
  - specialize (IH 0%nat m). lia.
  - apply IH.
  - apply IH.
Qed.

Lemma scan_literal_rest (word : string) (v : json) (s : string) :
  match scan_literal word v s with
  | POk _ r => (String.length r <= String.length s)%nat
  | PErr => True
  | POut _ => False
  | PFuel => False
  end.
Proof.
  unfold scan_literal. destruct (String.prefix word s); [|exact I].
  pose proof (length_substring (String.length word)
                (String.length s - String.length word) s). lia.
Qed.

Lemma settles_taint (result : parsed json) (s : string) :
  settles result s -> settles (taint result) s.
Proof. now destruct result. Qed.

Lemma settles_shorter (result : parsed json) (s s' : string) :
  settles result s -> (String.length s <= String.length s')%nat ->
  settles result s'.
Proof. destruct result; cbn; auto; lia. Qed.


Lemma member_not_held_settles (next : string -> parsed json) (r2 s : string) :
  (String.length r2 <= String.length s)%nat ->
  (forall r4, (String.length r4 + 2 <= String.length r2)%nat -> settles (next r4) r4) ->
  settles (member_not_held next r2) s.
Proof.
  intros Hr Hnext. unfold member_not_held.
  destruct (skip_ws r2) as [|c2 r3] eqn:E2; [exact I|].
  apply skip_ws_cons in E2.
  destruct (Ascii.eqb c2 "}"); [cbn [settles]; lia|].
  destruct (Ascii.eqb c2 ","); [|exact I].
  destruct (skip_ws r3) as [|c3 r4] eqn:E3; [exact I|].
  apply skip_ws_cons in E3.
  destruct (Ascii.eqb c3 dquote); [|exact I].
  apply settles_taint, (settles_shorter _ r4); [apply Hnext|]; lia.
Qed.

Ltac settle_with H :=
  pose proof H as Hrest;
  match type of Hrest with
  | match ?x with _ => _ end =>
      destruct x; cbn [settles taint String.length] in *;
      try exact I; try contradiction; try lia
  end.

Lemma parse_settles (f : nat) :
  (forall s, (2 * String.length s + 1 <= f)%nat -> settles (parse_value f s) s) /\
  (forall s acc, (2 * String.length s + 2 <= f)%nat ->
                 settles (parse_items f s acc) s) /\
  (forall s acc, (2 * String.length s + 2 <= f)%nat ->
                 settles (parse_members f s acc) s).
Proof.
  induction f as [|f (IHv & IHi & IHm)].
  { repeat split; intros; lia. }
  split; [|split].
  - intros [|c t] Hf; [exact I|]. cbn [String.length] in Hf. cbn [parse_value].
    destruct (Ascii.eqb c dquote).
    { settle_with (scanstring_rest t). }
    destruct (Ascii.eqb c "{").
    { destruct (skip_ws t) as [|c1 r] eqn:E; [exact I|]. apply skip_ws_cons in E.
      destruct (Ascii.eqb c1 "}"); [cbn [settles String.length]; lia|].
      destruct (Ascii.eqb c1 dquote); [|exact I].
      apply (settles_shorter _ r); [apply IHm|cbn [String.length]]; lia. }
    destruct (Ascii.eqb c "[").
    { destruct (skip_ws t) as [|c1 r] eqn:E; [exact I|]. apply skip_ws_cons in E.
      destruct (Ascii.eqb c1 "]"); [cbn [settles String.length]; lia|].
      apply (settles_shorter _ (String c1 r)); [apply IHi|]; cbn [String.length]; lia. }
    destruct (Ascii.eqb c "n"); [settle_with (scan_literal_rest "ull" JNull t)|].
    destruct (Ascii.eqb c "t"); [settle_with (scan_literal_rest "rue" (JBool true) t)|].
    destruct (Ascii.eqb c "f"); [settle_with (scan_literal_rest "alse" (JBool false) t)|].
    destruct (Ascii.eqb c "-").
    { destruct t as [|d t1]; [exact I|].
      destruct (isdigit d); [settle_with (scan_int_rest true d t1)|].
      destruct (Ascii.eqb d "I"); [|exact I].
      unfold scan_constant. settle_with (scan_literal_rest "nfinity" JNull t1). }
    destruct (isdigit c); [settle_with (scan_int_rest false c t)|].
    destruct (Ascii.eqb c "N");
      [unfold scan_constant; settle_with (scan_literal_rest "aN" JNull t)|].
    destruct (Ascii.eqb c "I"); [|exact I].
    unfold scan_constant. settle_with (scan_literal_rest "nfinity" JNull t).
  - intros s acc Hf. cbn [parse_items].
    pose proof (IHv s ltac:(lia)) as Hv.
    destruct (parse_value f s) as [v r| |r|]; cbn [settles] in Hv;
      [| exact I | | contradiction].
    + destruct (skip_ws r) as [|c1 r1] eqn:E; [exact I|]. apply skip_ws_cons in E.
      destruct (Ascii.eqb c1 "]"); [cbn [settles]; lia|].
      destruct (Ascii.eqb c1 ","); [|exact I].
      pose proof (length_skip_ws r1).
      apply (settles_shorter _ (skip_ws r1)); [apply IHi|]; lia.
    + destruct (skip_ws r) as [|c1 r1] eqn:E; [exact I|]. apply skip_ws_cons in E.
      destruct (Ascii.eqb c1 "]"); [cbn [settles]; lia|].
      destruct (Ascii.eqb c1 ","); [|exact I].
      pose proof (length_skip_ws r1).
      apply settles_taint, (settles_shorter _ (skip_ws r1)); [apply IHi|]; lia.
  - intros s acc Hf. cbn [parse_members].
    assert (Hnext : forall (r2 : string) (acc' : list (string * json)),
               (String.length r2 <= String.length s)%nat ->
               settles (member_not_held (fun r4 => parse_members f r4 acc') r2) s).
    { intros r2 acc' Hr2. apply member_not_held_settles; [exact Hr2|].
      intros r4 Hr4. apply IHm. lia. }
    pose proof (scanstring_rest s) as Hk.
    destruct (scanstring s) as [k r| |r|]; [| exact I | | contradiction].
    + destruct (skip_ws r) as [|c1 r1] eqn:E; [exact I|]. apply skip_ws_cons in E.
      destruct (Ascii.eqb c1 ":"); [|exact I].
      pose proof (length_skip_ws r1) as L1.
      pose proof (IHv (skip_ws r1) ltac:(lia)) as Hv.
      destruct (parse_value f (skip_ws r1)) as [v r2| |r2|]; cbn [settles] in Hv;
        [| exact I | apply Hnext; lia | contradiction].
      destruct (skip_ws r2) as [|c2 r3] eqn:E2; [exact I|]. apply skip_ws_cons in E2.
      destruct (Ascii.eqb c2 "}"); [cbn [settles]; lia|].
      destruct (Ascii.eqb c2 ","); [|exact I].
      destruct (skip_ws r3) as [|c3 r4] eqn:E3; [exact I|]. apply skip_ws_cons in E3.
      destruct (Ascii.eqb c3 dquote); [|exact I].
      apply (settles_shorter _ r4); [apply IHm|]; lia.
    + destruct (skip_ws r) as [|c1 r1] eqn:E; [exact I|]. apply skip_ws_cons in E.
      destruct (Ascii.eqb c1 ":"); [|exact I].
      pose proof (length_skip_ws r1) as L1.
      pose proof (IHv (skip_ws r1) ltac:(lia)) as Hv.
      destruct (parse_value f (skip_ws r1)) as [v r2| |r2|]; cbn [settles] in Hv;
        [apply Hnext; lia | exact I | apply Hnext; lia | contradiction].
Qed.

(** The bound [json_loads] sets on the recursion is never reached. *)
Lemma json_loads_settles (text : string) :
  parse_value (2 * String.length text + 2) (skip_ws text) <> PFuel.
Proof.
  pose proof (length_skip_ws text) as L.
  destruct (parse_settles (2 * String.length text + 2)) as [H _].
  specialize (H (skip_ws text) ltac:(lia)). intros E. now rewrite E in H.
Qed.

(** ** The mirror read back: session records *)

Lemma as_messages_of (h : list Message) :
  as_messages (JArr (map json_of_message h)) = Ok h.
Proof.
  cbn [as_messages]. induction h as [|[r t] h IH]; [reflexivity|].
  cbn [map as_list]. rewrite IH. reflexivity.
Qed.

Lemma as_strings_of (l : list string) : as_strings (JArr (map JStr l)) = Ok l.
Proof.
  cbn [as_strings]. induction l as [|x l IH]; [reflexivity|].
  cbn [map as_list]. rewrite IH. reflexivity.
Qed.

Lemma as_pairs_of (l : list (string * string)) :
  as_pairs (map (fun kv => (kv.1, JStr kv.2)) l) = Ok l.
Proof.
  induction l as [|[k v] l IH]; [reflexivity|].
  cbn [map as_pairs fst snd]. rewrite IH. reflexivity.
Qed.

Lemma as_answers_of (a : gmap string string) :
  as_answers (json_of_answers a) = Ok a.
Proof.
  unfold json_of_answers. cbn [as_answers]. rewrite as_pairs_of.
  cbn [rbind]. now rewrite list_to_map_to_list.
Qed.

Lemma as_opt_str_of (o : option string) : as_opt_str (json_of_opt_str o) = Ok o.
Proof. destruct o; reflexivity. Qed.

Lemma from_dict_to_dict (s : PCBuilderSession) : from_dict (to_dict s) = Ok s.
Proof.
  destruct s as [uid ch an br rm cm fm uf be ca la].
  unfold to_dict, from_dict.
  cbn [user_id chat_history answers build_result refinement_mode
       conversation_mode feedback_mode user_feedback build_edits created_at
       last_activity].
  change (dict_get "user_id" _) with (Some (JInt uid)). cbv iota.
  change (get_default "chat_history" _ _) with (JArr (map json_of_message ch)).
  change (get_default "answers" _ _) with (json_of_answers an).
  change (get_default "build_result" _ _) with (JStr br).
  change (get_default "refinement_mode" _ _) with (JBool rm).
  change (get_default "conversation_mode" _ _) with (JBool cm).
  change (get_default "feedback_mode" _ _) with (JBool fm).
  change (get_default "user_feedback" _ _) with (JStr uf).
  change (get_default "build_edits" _ _) with (JArr (map JStr be)).
  change (get_default "created_at" _ _) with (json_of_opt_str ca).
  change (get_default "last_activity" _ _) with (json_of_opt_str la).
  rewrite as_messages_of, as_answers_of, as_strings_of, !as_opt_str_of.
  reflexivity.
Qed.

(** The mirror is a value a dictionary holds. *)
Lemma map_fmap {A B} (f : A -> B) (l : list A) : map f l = f <$> l.
Proof. induction l as [|x l IH]; [reflexivity|]. cbn. now rewrite IH. Qed.

Lemma distinct_keys_message (m : Message) : distinct_keys (json_of_message m).
Proof.
  apply dk_obj.
  - cbn [map fst]. apply NoDup_cons. split.
    + rewrite list_elem_of_singleton. discriminate.
    + apply NoDup_singleton.
  - repeat constructor.
Qed.

Lemma distinct_keys_answers (a : gmap string string) :
  distinct_keys (json_of_answers a).
Proof.
  apply dk_obj.
  - rewrite map_map. cbn [fst]. rewrite map_fmap. apply NoDup_fst_map_to_list.
  - apply Forall_forall. intros kv Hin. apply list_elem_of_In, in_map_iff in Hin as (x & <- & _).
    constructor.
Qed.

Lemma distinct_keys_to_dict (s : PCBuilderSession) : distinct_keys (to_dict s).
Proof.
  apply dk_obj.
  - cbn [map fst].
    apply (bool_decide_unpack _). vm_compute. exact I.
  - repeat (apply List.Forall_cons; cbn [snd]); try apply List.Forall_nil;
      try (constructor; fail).
    + apply dk_arr, Forall_forall. intros v Hin.
      apply list_elem_of_In, in_map_iff in Hin as (m & <- & _). apply distinct_keys_message.
    + apply distinct_keys_answers.
    + apply dk_arr, Forall_forall. intros v Hin.
      apply list_elem_of_In, in_map_iff in Hin as (m & <- & _). constructor.
    + destruct (created_at s); constructor.
    + destruct (last_activity s); constructor.
Qed.

Lemma distinct_keys_mirror (m : gmap Z PCBuilderSession) :
  distinct_keys (SessionManager.mirror_of m).
Proof.
  apply dk_obj.
  - rewrite map_map. cbn [fst].
    rewrite <- (map_map fst str_of_Z), !map_fmap.
    apply NoDup_fmap_2; [intros a b; apply str_of_Z_inj|].
    apply NoDup_fst_map_to_list.
  - apply Forall_forall. intros kv Hin. apply list_elem_of_In, in_map_iff in Hin as (x & <- & _).
    apply distinct_keys_to_dict.
Qed.

(** ** The mirror read back: the loop of [load_sessions] *)

Lemma load_items_mirror (l : list (Z * PCBuilderSession)) (st : Store) :
  SessionManager.load_items
    (map (fun kv => (str_of_Z kv.1, to_dict kv.2)) l) st =
  Done tt (set_sessions (foldl (fun m kv => <[kv.1 := kv.2]> m) (sessions st) l) st).
Proof.
  revert st. induction l as [|[k s] l IH]; intros st; [now destruct st|].
  cbn [map SessionManager.load_items fst snd].
  rewrite int_of_str_of_Z, from_dict_to_dict, IH. reflexivity.
Qed.

Lemma foldl_insert_lookup {V} (l : list (Z * V)) (m0 : gmap Z V) (k : Z) :
  NoDup l.*1 ->
  foldl (fun m kv => <[kv.1 := kv.2]> m) m0 l !! k =
  match (list_to_map l : gmap Z V) !! k with
  | Some v => Some v
  | None => m0 !! k
  end.
Proof.
  revert m0. induction l as [|[k1 v1] l IH]; intros m0 Hnd; [reflexivity|].
  cbn [foldl fst snd]. apply NoDup_cons in Hnd as [Hk1 Hnd].
  rewrite (IH _ Hnd). cbn [list_to_map foldr fst snd].
  destruct (decide (k = k1)) as [->|Hne].
  - rewrite !lookup_insert_eq.
    rewrite (not_elem_of_list_to_map_1 _ _ Hk1). reflexivity.
  - rewrite !lookup_insert_ne by congruence. reflexivity.
Qed.

Lemma foldl_insert_map_to_list {V} (m : gmap Z V) :
  foldl (fun m kv => <[kv.1 := kv.2]> m) ∅ (map_to_list m) = m.
Proof.
  apply map_eq. intros k.
  rewrite foldl_insert_lookup by apply NoDup_fst_map_to_list.
  rewrite list_to_map_to_list, lookup_empty. now destruct (m !! k).
Qed.

(** What [load_sessions] makes of the mirror a flush wrote. *)
Lemma load_sessions_mirror (m : gmap Z PCBuilderSession) (e : list exn) :
  SessionManager.load_sessions
    {| sessions := ∅;
       fs := {| sessions_file := Some (json_dumps (SessionManager.mirror_of m));
                sessions_lock := false |};
       errors := e |} =
  Some {| sessions := m;
          fs := {| sessions_file := Some (json_dumps (SessionManager.mirror_of m));
                   sessions_lock := false |};
          errors := e |}.
Proof.
  unfold SessionManager.load_sessions. cbn [fs sessions_file].
  rewrite with_lock_store. cbn [fs sessions_lock].
  unfold SessionManager.load_locked. cbn [fs set_fs sessions_file set_sessions_lock].
  rewrite (json_load_dumps _ (distinct_keys_mirror m)).
  unfold SessionManager.mirror_of. rewrite load_items_mirror.
  cbn [sessions set_fs]. rewrite foldl_insert_map_to_list. reflexivity.
Qed.

(** ** Persistence: what a restart finds *)

(** X1.  A session record written with [to_dict] and [json.dumps] and read
    back with [json.loads] and [from_dict] is the record that was written:
    identity, transcript, answers, build, the three phase flags, feedback,
    edits and both time stamps. *)
Theorem session_record_round_trip (s : PCBuilderSession) :
  (d <- json_loads (json_dumps (to_dict s)) ;; from_dict d) = Ok s.
Proof.
  rewrite (json_loads_dumps _ (distinct_keys_to_dict s)). cbn [rbind].
  apply from_dict_to_dict.
Qed.

(** A flush with the marker free and no fault, then a new manager. *)
Lemma init_after_flush (st : Store) :
  sessions_lock (fs st) = false ->
  SessionManager.init (fs (SessionManager.save_sessions NoFault st)) =
  Some {| sessions := sessions st;
          fs := {| sessions_file :=
                     Some (json_dumps (SessionManager.mirror_of (sessions st)));
                   sessions_lock := false |};
          errors := [] |}.
Proof.
  intros Hfree. rewrite save_sessions_eq. cbv zeta. rewrite Hfree.
  cbn [fs set_fs]. apply load_sessions_mirror.
Qed.







(** The loop of [load_sessions] stops at the first entry it cannot read. *)
Lemma load_items_bad_entry (good : list (Z * PCBuilderSession)) (k : string)
    (v : json) (rest : list (string * json)) (e : exn) (st : Store) :
  (int_of_str k = Raise e \/
   exists uid, int_of_str k = Ok uid /\ from_dict v = Raise e) ->
  SessionManager.load_items
    (map (fun kv => (str_of_Z kv.1, to_dict kv.2)) good ++ (k, v) :: rest) st =
  Throw e (set_sessions
             (foldl (fun m kv => <[kv.1 := kv.2]> m) (sessions st) good) st).
Proof.
  intros Hbad. revert st. induction good as [|[k0 s0] good IH]; intros st.
  - cbn [map app SessionManager.load_items foldl].
    destruct Hbad as [-> | (uid & -> & ->)]; now destruct st.
  - cbn [map app SessionManager.load_items fst snd foldl].
    rewrite int_of_str_of_Z, from_dict_to_dict, IH. reflexivity.
Qed.

(** X3.  When an entry of the mirror has an ASCII key that is not an
    integer literal, or an integer key and a value without [user_id],
    loading stops there: the sessions of the entries before it are in
    memory, those after it are not read, the exception is logged and the
    lock marker is released. *)
Theorem load_keeps_entries_before_bad_one
    (good : list (Z * PCBuilderSession)) (k : string) (v : json)
    (rest : list (string * json)) (e : exn) (content : string) (st : Store) :
  sessions_lock (fs st) = false ->
  sessions_file (fs st) = Some content ->
  json_load content =
    Ok (JObj (map (fun kv => (str_of_Z kv.1, to_dict kv.2)) good ++ (k, v) :: rest)) ->
  (isascii k = true /\ int_of_str k = Raise e \/
   exists uid, int_of_str k = Ok uid /\ from_dict v = Raise e) ->
  SessionManager.load_sessions st =
  Some (log_error e
          (set_sessions
             (foldl (fun m kv => <[kv.1 := kv.2]> m) (sessions st) good) st)).
Proof.
  intros Hfree Hfile Hparse Hbad. unfold SessionManager.load_sessions.
  rewrite Hfile, with_lock_store, Hfree.
  unfold SessionManager.load_locked. cbn [fs set_fs sessions_file set_sessions_lock].
  rewrite Hfile, Hparse, (load_items_bad_entry _ _ _ _ e).
  - destruct st as [m [file lock] errs]. cbn in Hfree. subst lock. reflexivity.
  - destruct Hbad as [[_ H] | H]; [now left | now right].
Qed.

Definition torn_mirror : string :=
  json_dumps (JObj [("7"%string, to_dict sample_session); ("x"%string, JNull)]).

Lemma load_keeps_entries_before_bad_one_witness :
  let st := {| sessions := ∅;
               fs := {| sessions_file := Some torn_mirror; sessions_lock := false |};
               errors := [] |} in
  SessionManager.load_sessions st =
  Some (log_error ValueError (set_sessions {[ 7 := sample_session ]} st)).
Proof.
  intros st.
  apply (load_keeps_entries_before_bad_one [(7, sample_session)] "x" JNull []
           ValueError torn_mirror st).
  - reflexivity.
  - reflexivity.
  - vm_compute. reflexivity.
  - left. vm_compute. split; reflexivity.
Defined.

(** X4.  While the lock marker exists (a marker left behind, no other
    process removing it), a flush changes nothing but the log: the mirror,
    the marker and the sessions in memory stay as they were and one
    [LockError] is logged; a load of an existing mirror does the same. *)
Theorem held_marker_blocks_flush_and_load (fault : io_fault) (st : Store) :
  sessions_lock (fs st) = true ->
  SessionManager.save_sessions fault st = log_error LockError st /\
  (sessions_file (fs st) <> None ->
   SessionManager.load_sessions st = Some (log_error LockError st)).
Proof.
  intros Hheld. split.
  - rewrite save_sessions_eq. cbv zeta. now rewrite Hheld.
  - intros Hfile. unfold SessionManager.load_sessions.
    destruct (sessions_file (fs st)) as [content|]; [|congruence].
    rewrite with_lock_store, Hheld. reflexivity.
Qed.

Definition stuck_store : Store :=
  {| sessions := {[ 7 := sample_session ]};
     fs := {| sessions_file := Some "{}"%string; sessions_lock := true |};
     errors := [] |}.

Lemma held_marker_blocks_flush_and_load_witness :
  sessions_lock (fs stuck_store) = true /\
  SessionManager.save_sessions NoFault stuck_store = log_error LockError stuck_store /\
  (sessions_file (fs stuck_store) <> None ->
   SessionManager.load_sessions stuck_store = Some (log_error LockError stuck_store)).
Proof.
  split; [reflexivity|].
  apply (held_marker_blocks_flush_and_load NoFault stuck_store). reflexivity.
Defined.

(** ** The session manager: lookups *)

(** X5.  [get_session] returns the session stored under the user, creating
    a fresh one when there is none; the session it returns is the stored
    one with [last_activity] set to now; no other user's session changes,
    and nothing is written to the files. *)
Theorem get_session_laws (uid : Z) (now : string) (st : Store) :
  let r := SessionManager.get_session uid now st in
  sessions r.2 !! uid = Some r.1 /\
  r.1 = update_activity now (default (new_session uid now) (sessions st !! uid)) /\
  (forall k, k <> uid -> sessions r.2 !! k = sessions st !! k) /\
  fs r.2 = fs st /\ errors r.2 = errors st.
Proof.
  unfold SessionManager.get_session. cbn [fst snd sessions set_sessions fs errors].
  destruct (sessions st !! uid) as [s0|] eqn:E.
  - rewrite E. cbn [default]. repeat split; try apply lookup_insert_eq.
    intros k Hk. now rewrite lookup_insert_ne by congruence.
  - rewrite !lookup_insert_eq. cbn [default]. repeat split;
      try apply lookup_insert_eq.
    intros k Hk. now rewrite !lookup_insert_ne by congruence.
Qed.

(** X6.  [clear_session] removes the user's session and no other; with the
    lock marker free and no write fault the mirror is rewritten without
    it, so a restart does not bring the session back. *)
Theorem cleared_session_stays_cleared (uid : Z) (st : Store) :
  sessions_lock (fs st) = false ->
  let st1 := SessionManager.clear_session NoFault uid st in
  sessions st1 !! uid = None /\
  (forall k, k <> uid -> sessions st1 !! k = sessions st !! k) /\
  option_map sessions (SessionManager.init (fs st1)) =
    Some (delete uid (sessions st)).
Proof.
  intros Hfree st1. subst st1. unfold SessionManager.clear_session.
  rewrite save_sessions_sessions. cbn [sessions set_sessions]. repeat split.
  - apply lookup_delete_eq.
  - intros k Hk. now rewrite lookup_delete_ne by congruence.
  - rewrite init_after_flush by exact Hfree. reflexivity.
Qed.

Lemma cleared_session_stays_cleared_witness :
  sessions_lock (fs sample_store) = false /\
  let st1 := SessionManager.clear_session NoFault 7 sample_store in
  sessions st1 !! 7 = None /\
  (forall k, k <> 7 -> sessions st1 !! k = sessions sample_store !! k) /\
  option_map sessions (SessionManager.init (fs st1)) =
    Some (delete 7 (sessions sample_store)).
Proof.
  split; [reflexivity|].
  apply (cleared_session_stays_cleared 7 sample_store). reflexivity.
Defined.

(** ** The completion policy: more of what it does *)

(** X7.  Once the completion policy holds it keeps holding when messages
    are added to the transcript, before or after the ones it has. *)
Theorem completion_is_monotone (s : PCBuilderSession) (before after : list Message) :
  are_all_fields_collected s = true ->
  are_all_fields_collected
    (set_chat_history (before ++ chat_history s ++ after) s) = true.
Proof.
  rewrite !policy_is_coverage. cbn [answers chat_history set_chat_history].
  apply covers_mono. intros x Hin. rewrite !map_app, !in_app_iff. tauto.
Qed.

Definition complete_session : PCBuilderSession :=
  set_chat_history [user_message failing_build_turn] sample_session.

Lemma completion_is_monotone_witness :
  let more := [{| role := "assistant"; text := "Anything else?" |}] in
  are_all_fields_collected complete_session = true /\
  are_all_fields_collected
    (set_chat_history (more ++ chat_history complete_session ++ more)
       complete_session) = true.
Proof.
  intros more.
  assert (H : are_all_fields_collected complete_session = true)
    by (vm_compute; reflexivity).
  split; [exact H|].
  exact (completion_is_monotone complete_session more more H).
Defined.

(** X8.  The count the [!status] command shows is at most 7; when it shows
    7 of 7 the completion policy holds; the policy can hold while the count
    is 0, because the count looks at the structured answers only. *)
Theorem status_count_and_policy :
  (forall s, (status_collected s <= 7)%nat) /\
  (forall s, status_collected s = 7%nat -> are_all_fields_collected s = true) /\
  (exists s, status_collected s = 0%nat /\ are_all_fields_collected s = true).
Proof.
  split; [|split].
  - intros s. unfold status_collected.
    change 7%nat with (length REQUIRED_FIELDS). apply filter_length_le.
  - intros s H. rewrite policy_is_coverage. unfold covers_all_slots.
    unfold status_collected in H.
    assert (Hall : forallb (answered (answers s)) REQUIRED_FIELDS = true).
    { revert H. unfold REQUIRED_FIELDS. cbn [List.filter forallb].
      destruct (answered (answers s) "budget"),
        (answered (answers s) "color"), (answered (answers s) "rgb_level"),
        (answered (answers s) "aesthetics"), (answered (answers s) "use_case"),
        (answered (answers s) "upgradeability"),
        (answered (answers s) "extra_notes");
        cbn [length andb]; intros H; try reflexivity; discriminate H. }
    rewrite forallb_forall in Hall |- *. intros f Hf.
    unfold slot_satisfied. now rewrite (Hall f Hf).
  - exists complete_session. split; vm_compute; reflexivity.
Qed.

(** X9.  Without a structured budget answer, and without a digit anywhere
    in a transcript of ASCII text, the policy does not hold, whatever words
    the transcript has. *)
Theorem budget_slot_needs_a_digit (s : PCBuilderSession) :
  Forall (fun m => isascii (text m) = true) (chat_history s) ->
  answered (answers s) "budget" = false ->
  existsb (fun m => any_digit (text m)) (chat_history s) = false ->
  are_all_fields_collected s = false.
Proof.
  intros _ Ha Hd. rewrite policy_is_coverage. unfold covers_all_slots.
  unfold REQUIRED_FIELDS. cbn [forallb]. unfold slot_satisfied at 1.
  rewrite Ha, existsb_map, Hd. change (String.eqb "budget" "budget") with true.
  cbv iota. now rewrite andb_false_r.
Qed.

Definition wordy_session : PCBuilderSession :=
  set_chat_history
    [{| role := "user";
        text := "budget around a grand, black, some rgb, balanced look, gaming, might upgrade, no" |}]
    sample_session.

Lemma budget_slot_needs_a_digit_witness :
  Forall (fun m => isascii (text m) = true) (chat_history wordy_session) /\
  answered (answers wordy_session) "budget" = false /\
  existsb (fun m => any_digit (text m)) (chat_history wordy_session) = false /\
  are_all_fields_collected wordy_session = false.
Proof.
  assert (Hx : Forall (fun m => isascii (text m) = true) (chat_history wordy_session))
    by (repeat constructor).
  assert (Ha : answered (answers wordy_session) "budget" = false) by reflexivity.
  assert (Hd : existsb (fun m => any_digit (text m)) (chat_history wordy_session)
               = false) by reflexivity.
  split; [exact Hx|]. split; [exact Ha|]. split; [exact Hd|].
  exact (budget_slot_needs_a_digit wordy_session Hx Ha Hd).
Defined.

(** ** The budget ceiling: more of what it does *)

Lemma remove_char_digits (ds : string) :
  all_digits ds = true -> remove_char "," ds = ds.
Proof.
  induction ds as [|c t IH]; [reflexivity|]. cbn [all_digits remove_char].
  intros H. apply andb_true_iff in H as [Hc Ht]. rewrite (IH Ht).
  assert (Hcomma : Ascii.eqb c "," = false).
  { destruct (Ascii.eqb_spec c ",") as [->|]; [discriminate Hc | reflexivity]. }
  now rewrite Hcomma.
Qed.

Lemma span_digits_all (s : string) : all_digits (span_digits s).1 = true.
Proof.
  induction s as [|c t IH]; [reflexivity|]. cbn [span_digits].
  destruct (isdigit c) eqn:Hc; [|reflexivity].
  destruct (span_digits t) as [ds r]. cbn [fst all_digits] in *.
  now rewrite Hc, IH.
Qed.

Lemma search_number_digits (s ds : string) :
  Budget.search_number s = Some ds -> all_digits ds = true /\ ds <> EmptyString.
Proof.
  revert ds. induction s as [|c t IH]; intros ds; [discriminate|].
  cbn [Budget.search_number]. destruct (isdigit c) eqn:Hc; [|apply IH].
  intros H. injection H as <-. split; [apply (span_digits_all (String c t))|].
  cbn [span_digits]. rewrite Hc. now destruct (span_digits t).
Qed.

Lemma search_number_none (s : string) :
  any_digit s = false -> Budget.search_number (remove_char "," s) = None.
Proof.
  induction s as [|c t IH]; [reflexivity|]. cbn [any_digit remove_char].
  intros H. apply orb_false_elim in H as [Hc Ht].
  destruct (Ascii.eqb c ","); [exact (IH Ht)|].
  cbn [Budget.search_number]. rewrite Hc. exact (IH Ht).
Qed.

Lemma search_number_some (s : string) :
  any_digit s = true -> exists ds, Budget.search_number (remove_char "," s) = Some ds.
Proof.
  induction s as [|c t IH]; [discriminate|]. cbn [any_digit remove_char].
  intros H. destruct (isdigit c) eqn:Hc.
  - assert (Hcomma : Ascii.eqb c "," = false).
    { destruct (Ascii.eqb_spec c ",") as [->|]; [discriminate Hc | reflexivity]. }
    rewrite Hcomma. cbn [Budget.search_number]. rewrite Hc. eauto.
  - cbn [orb] in H. destruct (IH H) as [ds Hds].
    destruct (Ascii.eqb c ","); [eauto|].
    cbn [Budget.search_number]. rewrite Hc. eauto.
Qed.

(** What a budget text with a number in it gives. *)
Lemma ceiling_of_number (t ds : string) :
  Budget.search_number (remove_char "," t) = Some ds ->
  Budget.ceiling_of_text t =
  (reduced <- Budget.reduced_of (digits_value ds) ;;
   Ok (Z.min reduced (digits_value ds - 200))).
Proof.
  intros H. unfold Budget.ceiling_of_text. rewrite H.
  destruct (search_number_digits _ _ H) as [Hd _].
  rewrite (remove_char_digits _ Hd). cbv zeta.
  destruct (Budget.reduced_of (digits_value ds)) as [r|e|]; cbn [rbind];
    [|reflexivity|reflexivity].
  f_equal.
  destruct (Z.ltb_spec (digits_value ds - Z.min r (digits_value ds - 200)) 200);
    [lia | reflexivity].
Qed.

(** X10.  When a budget text in ASCII has a number [v] in it (its first
    run of digits, commas removed), the ceiling is the smaller of
    [int(v * 0.85)] and [v - 200]; so it lies at least 200 below the
    number, and the later test of the gap never changes it. *)
Theorem ceiling_leaves_a_gap_of_200 (t ds : string) (r : Z) :
  isascii t = true ->
  Budget.search_number (remove_char "," t) = Some ds ->
  Budget.ceiling_of_text t = Ok r ->
  r <= digits_value ds - 200 /\
  exists reduced, Budget.reduced_of (digits_value ds) = Ok reduced /\
                  r = Z.min reduced (digits_value ds - 200).
Proof.
  intros _ H Hr. rewrite (ceiling_of_number _ _ H) in Hr.
  destruct (Budget.reduced_of (digits_value ds)) as [red|e|]; cbn [rbind] in Hr;
    try discriminate.
  injection Hr as <-. split; [lia|]. eauto.
Qed.

Lemma ceiling_leaves_a_gap_of_200_witness :
  isascii "about 2,000 dollars" = true /\
  Budget.search_number (remove_char "," "about 2,000 dollars") = Some "2000"%string /\
  Budget.ceiling_of_text "about 2,000 dollars" = Ok 1700 /\
  1700 <= digits_value "2000" - 200 /\
  exists reduced, Budget.reduced_of (digits_value "2000") = Ok reduced /\
                  1700 = Z.min reduced (digits_value "2000" - 200).
Proof.
  assert (H1 : Budget.search_number (remove_char "," "about 2,000 dollars")
               = Some "2000"%string) by (vm_compute; reflexivity).
  assert (H2 : Budget.ceiling_of_text "about 2,000 dollars" = Ok 1700)
    by (vm_compute; reflexivity).
  split; [reflexivity|]. split; [exact H1|]. split; [exact H2|].
  exact (ceiling_leaves_a_gap_of_200 "about 2,000 dollars" "2000" 1700 eq_refl H1 H2).
Defined.

(** X11.  A budget text in ASCII is read as a number exactly when it has a
    digit in it.  Without one the ceiling is a default: 800 when the
    lower-cased text has a gaming word, else 1200 when it has a money word,
    else 1000. *)
Theorem ceiling_default_iff_no_digit (t : string) :
  isascii t = true ->
  if any_digit t then
    exists ds, Budget.search_number (remove_char "," t) = Some ds /\
               all_digits ds = true /\ ds <> EmptyString /\
               Budget.ceiling_of_text t =
               (reduced <- Budget.reduced_of (digits_value ds) ;;
                Ok (Z.min reduced (digits_value ds - 200)))
  else
    Budget.search_number (remove_char "," t) = None /\
    Budget.ceiling_of_text t =
    Ok (if any_in Budget.GAMING_WORDS (lower t) then 800
        else if any_in Budget.MONEY_WORDS (lower t) then 1200 else 1000).
Proof.
  intros _. destruct (any_digit t) eqn:H.
  - destruct (search_number_some _ H) as [ds Hds]. exists ds.
    destruct (search_number_digits _ _ Hds) as [Hd Hne].
    repeat split; try assumption. apply ceiling_of_number, Hds.
  - split; [apply search_number_none, H|].
    unfold Budget.ceiling_of_text. rewrite (search_number_none _ H).
    cbv zeta. destruct (any_in Budget.GAMING_WORDS (lower t)); [reflexivity|].
    destruct (any_in Budget.MONEY_WORDS (lower t)); reflexivity.
Qed.

Lemma ceiling_default_iff_no_digit_witness :
  isascii "What can I afford?" = true /\
  Budget.search_number (remove_char "," "What can I afford?") = None /\
  Budget.ceiling_of_text "What can I afford?" = Ok 1200.
Proof.
  split; [reflexivity|].
  exact (ceiling_default_iff_no_digit "What can I afford?" eq_refl).
Defined.

(** The range on which the product with [0.85] was checked value by
    value. *)
Lemma floor_rule_from (n : nat) (v0 : Z) :
  floor_rule_from_to n v0 = true ->
  forall v, v0 <= v < v0 + Z.of_nat n -> Budget.reduced_of v = Ok (17 * v / 20).
Proof.
  revert v0. induction n as [|n IH]; intros v0 H v Hv; [lia|].
  cbn [floor_rule_from_to] in H. apply andb_true_iff in H as [H0 H].
  destruct (Z.eq_dec v v0) as [->|Hne].
  - unfold floor_rule_holds in H0.
    destruct (Budget.reduced_of v0) as [r|e|]; try discriminate.
    apply Z.eqb_eq in H0. now subst r.
  - apply (IH _ H). lia.
Qed.

Lemma floor_rule_checked : floor_rule_from_to (Z.to_nat 100001) 0 = true.
Proof. vm_compute. reflexivity. Qed.

(** X12.  For every budget number from 0 to 100000 in a text in ASCII the
    ceiling is the smaller of [floor(0.85 v)] and [v - 200]: the
    floating-point product agrees with the exact one on this range.  Up to
    1333 that is [v - 200], which is below zero for a number under 200. *)
Theorem ceiling_on_everyday_budgets (t ds : string) :
  isascii t = true ->
  Budget.search_number (remove_char "," t) = Some ds ->
  0 <= digits_value ds <= 100000 ->
  Budget.ceiling_of_text t =
    Ok (Z.min (17 * digits_value ds / 20) (digits_value ds - 200)) /\
  (digits_value ds <= 1333 -> Budget.ceiling_of_text t = Ok (digits_value ds - 200)).
Proof.
  intros _ H Hv. rewrite (ceiling_of_number _ _ H).
  rewrite (floor_rule_from _ _ floor_rule_checked (digits_value ds)) by lia.
  cbn [rbind]. split; [reflexivity|].
  intros Hs. f_equal. apply Z.min_r.
  apply Z.div_le_lower_bound; lia.
Qed.

Lemma ceiling_on_everyday_budgets_witness :
  (isascii "150" = true /\
   Budget.search_number (remove_char "," "150") = Some "150"%string /\
   0 <= digits_value "150" <= 100000) /\
  Budget.ceiling_of_text "150" =
    Ok (Z.min (17 * digits_value "150" / 20) (digits_value "150" - 200)) /\
  (digits_value "150" <= 1333 ->
   Budget.ceiling_of_text "150" = Ok (digits_value "150" - 200)).
Proof.
  assert (H1 : Budget.search_number (remove_char "," "150") = Some "150"%string)
    by (vm_compute; reflexivity).
  assert (H2 : 0 <= digits_value "150" <= 100000) by (vm_compute; split; discriminate).
  split; [split; [reflexivity | split; [exact H1 | exact H2]]|].
  exact (ceiling_on_everyday_budgets "150" "150" eq_refl H1 H2).
Defined.




(** ** The message handlers act on one session *)

Lemma on_message_absent (uid : Z) (t : Turn) (st : Store) :
  sessions st !! uid = None -> on_message uid t st = (st, [ProcessCommands]).
Proof. intros H. unfold on_message. now rewrite H. Qed.

Lemma run_absent (uid : Z) (turns : list Turn) (st : Store) :
  sessions st !! uid = None -> (run uid turns st).1 = st.
Proof.
  intros H. induction turns as [|t rest IH]; [reflexivity|].
  cbn [run]. rewrite (on_message_absent uid t st H).
  destruct (run uid rest st) as [st2 out2]. exact IH.
Qed.

Lemma run_absent_quiet (uid : Z) (turns : list Turn) (st : Store) :
  sessions st !! uid = None -> transitions (run uid turns st).2 = 0%nat.
Proof.
  intros H. induction turns as [|t rest IH]; [reflexivity|].
  rewrite run_cons, transitions_app, (on_message_absent uid t st H). exact IH.
Qed.

Lemma run_store_cons (uid : Z) (t : Turn) (rest : list Turn) (st : Store) :
  (run uid (t :: rest) st).1 = (run uid rest (on_message uid t st).1).1.
Proof.
  cbn [run]. destruct (on_message uid t st) as [st1 out1]. cbn [fst].
  destruct (run uid rest st1) as [st2 out2]. reflexivity.
Qed.

Ltac map_cases k uid :=
  apply map_eq; intros k; destruct (decide (k = uid)) as [->|];
  repeat first [ rewrite lookup_insert_eq | rewrite lookup_delete_eq
               | rewrite lookup_insert_ne by congruence
               | rewrite lookup_delete_ne by congruence ];
  try reflexivity.

Lemma on_message_sessions (uid : Z) (t : Turn) (st : Store) (s : PCBuilderSession) :
  sessions st !! uid = Some s ->
  sessions (on_message uid t st).1 =
  match session_after uid t (update_activity (turn_now t) s) with
  | Some s' => <[uid := s']> (sessions st)
  | None => delete uid (sessions st)
  end.
Proof.
  intros Hs. unfold on_message, session_after.
  rewrite Hs, (get_session_present uid (turn_now t) st s Hs).
  set (s0 := update_activity (turn_now t) s).
  destruct (String.eqb (lower (turn_content t)) "cancel").
  { cbn [fst]. unfold SessionManager.clear_session.
    rewrite save_sessions_sessions. cbn [sessions set_sessions].
    map_cases k uid. }
  destruct (String.eqb (lower (turn_content t)) "restart").
  { unfold SessionManager.clear_session, SessionManager.get_session.
    rewrite save_sessions_sessions. cbn [sessions set_sessions].
    rewrite lookup_delete_eq, lookup_insert_eq. cbn [default].
    destruct (handle_conversation_mode t _) as [s' out]. cbn [fst sessions set_sessions].
    map_cases k uid. }
  destruct (feedback_mode s0).
  { cbn [fst sessions set_sessions]. map_cases k uid. }
  destruct (String.eqb (lower (turn_content t)) "done").
  { cbn [fst]. unfold SessionManager.clear_session.
    rewrite save_sessions_sessions. cbn [sessions set_sessions].
    map_cases k uid. }
  destruct (refinement_mode s0).
  { destruct (handle_refinement_conversation t s0) as [s' out].
    cbn [fst sessions set_sessions]. map_cases k uid. }
  destruct (conversation_mode s0).
  { destruct (handle_conversation_mode t s0) as [s' out].
    cbn [fst sessions set_sessions]. map_cases k uid. }
  reflexivity.
Qed.

Lemma run_other_user (uid : Z) (turns : list Turn) (st : Store) (k : Z) :
  k <> uid -> sessions (run uid turns st).1 !! k = sessions st !! k.
Proof.
  intros Hk. revert st. induction turns as [|t rest IH]; intros st; [reflexivity|].
  rewrite run_store_cons, IH.
  destruct (sessions st !! uid) as [s|] eqn:Hs.
  - rewrite (on_message_sessions uid t st s Hs).
    destruct (session_after uid t _).
    + now rewrite lookup_insert_ne by congruence.
    + now rewrite lookup_delete_ne by congruence.
  - now rewrite (on_message_absent uid t st Hs).
Qed.

(** A property of sessions that every turn keeps is kept by a
    conversation. *)
Lemma run_invariant (P : PCBuilderSession -> Prop) (uid : Z) :
  (forall t s s', P s ->
     session_after uid t (update_activity (turn_now t) s) = Some s' -> P s') ->
  forall turns st s',
    (forall s, sessions st !! uid = Some s -> P s) ->
    sessions (run uid turns st).1 !! uid = Some s' -> P s'.
Proof.
  intros Hstep turns. induction turns as [|t rest IH]; intros st s' Hst Hs'.
  - apply Hst, Hs'.
  - rewrite run_store_cons in Hs'. apply (IH _ _) in Hs'; [exact Hs'|].
    intros s1 Hs1. destruct (sessions st !! uid) as [s|] eqn:Hs.
    + rewrite (on_message_sessions uid t st s Hs) in Hs1.
      destruct (session_after uid t _) as [s2|] eqn:Hafter.
      * rewrite lookup_insert_eq in Hs1. injection Hs1 as <-.
        apply (Hstep t s s2); [apply Hst; reflexivity | exact Hafter].
      * now rewrite lookup_delete_eq in Hs1.
    + rewrite (on_message_absent uid t st Hs) in Hs1. cbn [fst] in Hs1. congruence.
Qed.

(** *** No handler writes [answers] *)

Lemma send_build_result_answers (s : PCBuilderSession) (b : string) :
  answers (send_build_result s b).1 = answers s.
Proof. unfold send_build_result. now destruct (String.prefix CROSS b). Qed.

Lemma generate_from_conversation_answers (parts : string) (r : reply)
    (s : PCBuilderSession) :
  answers (generate_build_from_conversation parts r s).1 = answers s.
Proof.
  unfold generate_build_from_conversation.
  set (b := generate_build parts r s).
  set (s1 := set_conversation_mode false (set_refinement_mode true (set_build_result b s))).
  pose proof (send_build_result_answers s1 b) as H.
  destruct (send_build_result s1 b) as [s2 out]. exact H.
Qed.

Lemma handle_conversation_mode_answers (t : Turn) (s : PCBuilderSession) :
  answers (handle_conversation_mode t s).1 = answers s.
Proof.
  unfold handle_conversation_mode. destruct (turn_chat t) as [got|e]; [|reflexivity].
  destruct (contains READY_TO_BUILD _);
    [now rewrite generate_from_conversation_answers|].
  destruct (are_all_fields_collected _);
    [now rewrite generate_from_conversation_answers | reflexivity].
Qed.

Lemma handle_refinement_conversation_answers (t : Turn) (s : PCBuilderSession) :
  answers (handle_refinement_conversation t s).1 = answers s.
Proof.
  unfold handle_refinement_conversation.
  set (s1 := if mem (lower (turn_content t)) CONTROL_TOKENS then s
             else set_build_edits (build_edits s ++ [turn_content t]) s).
  assert (Hs1 : answers s1 = answers s) by (subst s1; now destruct (mem _ _)).
  destruct (_ && _); [|exact Hs1].
  set (b := generate_build (turn_parts t) (turn_build t) s1).
  pose proof (send_build_result_answers (set_build_result b s1) b) as H.
  destruct (send_build_result (set_build_result b s1) b) as [s2 out].
  cbn [fst snd answers update_activity] in *. rewrite H. exact Hs1.
Qed.

Lemma session_after_answers (uid : Z) (t : Turn) (s s' : PCBuilderSession) :
  session_after uid t s = Some s' -> answers s' = answers s \/ answers s' = ∅.
Proof.
  unfold session_after.
  destruct (String.eqb (lower (turn_content t)) "cancel"); [discriminate|].
  destruct (String.eqb (lower (turn_content t)) "restart").
  { intros [= <-]. right. now rewrite handle_conversation_mode_answers. }
  destruct (feedback_mode s); [intros [= <-]; now left|].
  destruct (String.eqb (lower (turn_content t)) "done"); [discriminate|].
  destruct (refinement_mode s).
  { intros [= <-]. left. apply handle_refinement_conversation_answers. }
  destruct (conversation_mode s); intros [= <-]; left;
    [apply handle_conversation_mode_answers | reflexivity].
Qed.

Lemma ceiling_without_answers (s : PCBuilderSession) :
  answers s = ∅ -> Budget.adjusted_budget s = Ok 800.
Proof.
  intros H. unfold Budget.adjusted_budget. rewrite H, lookup_empty.
  vm_compute. reflexivity.
Qed.

Lemma start_build_session_lookup (uid : Z) (now : string) (st : Store) :
  sessions (start_build_session uid now st).2 !! uid =
  Some (start_build_session uid now st).1.
Proof.
  unfold start_build_session.
  destruct (SessionManager.get_session uid now st) as [session st1].
  cbn [fst snd sessions set_sessions]. apply lookup_insert_eq.
Qed.

Lemma start_build_session_fields (uid : Z) (now : string) (st : Store) :
  let s := (start_build_session uid now st).1 in
  answers s = ∅ /\ chat_history s = [] /\ build_result s = EmptyString /\
  conversation_mode s = true /\ refinement_mode s = false /\
  feedback_mode s =
    match sessions st !! uid with Some s0 => feedback_mode s0 | None => false end.
Proof.
  unfold start_build_session, SessionManager.get_session.
  cbn [fst snd]. repeat split.
  destruct (sessions st !! uid) as [s0|] eqn:E.
  - now rewrite E.
  - now rewrite lookup_insert_eq.
Qed.

(** X13.  For a session opened by [!build], whatever the user and the
    model say in the turns that follow, [answers] stays empty, so the
    ceiling [build_prompt] computes is the one of its default text
    ['$1000'], 800: a budget typed in the conversation never reaches it. *)
Theorem typed_budget_never_reaches_ceiling
    (uid : Z) (now : string) (st : Store) (turns : list Turn)
    (s : PCBuilderSession) :
  sessions (run uid turns (start_build_session uid now st).2).1 !! uid = Some s ->
  answers s = ∅ /\ Budget.adjusted_budget s = Ok 800.
Proof.
  intros Hs.
  assert (Ha : answers s = ∅).
  { apply (run_invariant (fun s => answers s = ∅) uid) with (3 := Hs).
    - intros t s0 s' H0 Hafter.
      apply session_after_answers in Hafter as [H | H]; [|exact H].
      rewrite H. exact H0.
    - intros s0. rewrite start_build_session_lookup. intros [= <-].
      apply (start_build_session_fields uid now st). }
  split; [exact Ha | apply ceiling_without_answers, Ha].
Qed.

Definition empty_store : Store :=
  {| sessions := ∅; fs := sample_files; errors := [] |}.

Lemma typed_budget_never_reaches_ceiling_witness :
  let st := (run 7 [failing_build_turn]
               (start_build_session 7 "2025-01-01T00:00:00" empty_store).2).1 in
  let s := default sample_session (sessions st !! 7) in
  sessions st !! 7 = Some s /\
  chat_history s = [user_message failing_build_turn] /\
  answers s = ∅ /\ Budget.adjusted_budget s = Ok 800.
Proof.
  intros st s.
  assert (H : sessions st !! 7 = Some s) by (vm_compute; reflexivity).
  split; [exact H|]. split; [vm_compute; reflexivity|].
  exact (typed_budget_never_reaches_ceiling 7 "2025-01-01T00:00:00" empty_store
           [failing_build_turn] s H).
Defined.

(** X14.  The messages of one user change no other user's session. *)
Theorem other_sessions_untouched (uid : Z) (turns : list Turn) (st : Store) (k : Z) :
  k <> uid -> sessions (run uid turns st).1 !! k = sessions st !! k.
Proof. apply run_other_user. Qed.

Lemma other_sessions_untouched_witness :
  8 <> 7 /\
  sessions (run 8 [failing_build_turn]
              (start_build_session 8 "2025-01-01T00:00:00" sample_store).2).1 !! 7 =
  sessions (start_build_session 8 "2025-01-01T00:00:00" sample_store).2 !! 7.
Proof.
  split; [discriminate|].
  apply (other_sessions_untouched 8 [failing_build_turn]
           (start_build_session 8 "2025-01-01T00:00:00" sample_store).2 7).
  discriminate.
Defined.

(** *** The phases *)

Lemma send_build_result_phase (s : PCBuilderSession) (b : string) :
  phase_flags (send_build_result s b).1 =
  (conversation_mode s, refinement_mode s,
   if String.prefix CROSS b then feedback_mode s else true).
Proof. unfold send_build_result. now destruct (String.prefix CROSS b). Qed.

Lemma generate_from_conversation_phase (parts : string) (r : reply)
    (s : PCBuilderSession) :
  exists f, phase_flags (generate_build_from_conversation parts r s).1 =
            (false, true, f).
Proof.
  unfold generate_build_from_conversation.
  set (b := generate_build parts r s).
  set (s1 := set_conversation_mode false (set_refinement_mode true (set_build_result b s))).
  pose proof (send_build_result_phase s1 b) as H.
  destruct (send_build_result s1 b) as [s2 out]. cbn [fst] in *.
  eexists. exact H.
Qed.

Lemma handle_conversation_mode_phase (t : Turn) (s : PCBuilderSession) :
  phase_flags (handle_conversation_mode t s).1 = phase_flags s \/
  exists f, phase_flags (handle_conversation_mode t s).1 = (false, true, f).
Proof.
  unfold handle_conversation_mode. destruct (turn_chat t) as [got|e]; [|now left].
  destruct (contains READY_TO_BUILD _);
    [right; apply generate_from_conversation_phase|].
  destruct (are_all_fields_collected _);
    [right; apply generate_from_conversation_phase | now left].
Qed.

Lemma handle_refinement_conversation_phase (t : Turn) (s : PCBuilderSession) :
  exists f, phase_flags (handle_refinement_conversation t s).1 =
            (conversation_mode s, refinement_mode s, f).
Proof.
  unfold handle_refinement_conversation.
  set (s1 := if mem (lower (turn_content t)) CONTROL_TOKENS then s
             else set_build_edits (build_edits s ++ [turn_content t]) s).
  assert (Hs1 : phase_flags s1 = phase_flags s) by (subst s1; now destruct (mem _ _)).
  injection Hs1 as Hc Hr Hf.
  destruct (_ && _).
  - set (b := generate_build (turn_parts t) (turn_build t) s1).
    pose proof (send_build_result_phase (set_build_result b s1) b) as H.
    destruct (send_build_result (set_build_result b s1) b) as [s2 out].
    cbn [fst] in *. injection H as Hc2 Hr2 Hf2. eexists.
    unfold phase_flags. cbn [conversation_mode refinement_mode feedback_mode update_activity].
    rewrite Hc2, Hr2. cbn [conversation_mode refinement_mode set_build_result].
    rewrite Hc, Hr. reflexivity.
  - cbn [fst]. eexists. unfold phase_flags.
    cbn [conversation_mode refinement_mode feedback_mode update_activity].
    rewrite Hc, Hr. reflexivity.
Qed.

Lemma well_phased_generated (s : PCBuilderSession) (f : bool) :
  phase_flags s = (false, true, f) -> well_phased s = true.
Proof. unfold well_phased. intros ->. now destruct f. Qed.

Lemma session_after_phase (uid : Z) (t : Turn) (s s' : PCBuilderSession) :
  well_phased s = true -> session_after uid t s = Some s' -> well_phased s' = true.
Proof.
  intros Hw. unfold session_after.
  destruct (String.eqb (lower (turn_content t)) "cancel"); [discriminate|].
  destruct (String.eqb (lower (turn_content t)) "restart").
  { intros [= <-].
    destruct (handle_conversation_mode_phase t
                (set_conversation_mode true
                   (update_activity (turn_now t) (new_session uid (turn_now t)))))
      as [H | [f H]].
    - unfold well_phased. now rewrite H.
    - apply (well_phased_generated _ f H). }
  revert Hw. unfold well_phased at 1, phase_flags at 1.
  destruct (feedback_mode s) eqn:Hf.
  { destruct (conversation_mode s) eqn:Hc, (refinement_mode s) eqn:Hr;
      try discriminate.
    intros _ [= <-]. unfold well_phased, phase_flags.
    cbn [conversation_mode refinement_mode feedback_mode set_refinement_mode
         set_feedback_mode set_user_feedback].
    now rewrite Hc. }
  destruct (String.eqb (lower (turn_content t)) "done"); [discriminate|].
  destruct (refinement_mode s) eqn:Hr.
  { destruct (conversation_mode s) eqn:Hc; [discriminate|].
    intros _ [= <-].
    destruct (handle_refinement_conversation_phase t s) as [f H].
    rewrite Hc, Hr in H. apply (well_phased_generated _ f H). }
  destruct (conversation_mode s) eqn:Hc; [|discriminate].
  intros _ [= <-].
  destruct (handle_conversation_mode_phase t s) as [H | [f H]].
  - unfold well_phased. rewrite H. unfold phase_flags. now rewrite Hc, Hr, Hf.
  - apply (well_phased_generated _ f H).
Qed.

Lemma well_phased_update_activity (now : string) (s : PCBuilderSession) :
  well_phased (update_activity now s) = well_phased s.
Proof. reflexivity. Qed.

(** X15.  A session that is Collecting, Refining, or Refining with the
    feedback question open stays in one of these three phases whatever
    messages follow: conversation mode and refinement mode are never on
    together, and feedback is only asked for in refinement mode. *)
Theorem phases_are_kept (uid : Z) (turns : list Turn) (st : Store)
    (s s' : PCBuilderSession) :
  sessions st !! uid = Some s -> well_phased s = true ->
  sessions (run uid turns st).1 !! uid = Some s' ->
  well_phased s' = true.
Proof.
  intros Hs Hw Hs'.
  apply (run_invariant (fun s => well_phased s = true) uid) with (3 := Hs').
  - intros t s0 s1 H0. apply session_after_phase.
    now rewrite well_phased_update_activity.
  - intros s0 E. rewrite Hs in E. injection E as <-. exact Hw.
Qed.

Lemma phases_are_kept_witness :
  let st := (run 7 [failing_build_turn] sample_store).1 in
  let s' := default sample_session (sessions st !! 7) in
  (sessions sample_store !! 7 = Some sample_session /\
   well_phased sample_session = true /\
   sessions st !! 7 = Some s') /\
  phase_flags s' = (false, true, false) /\
  well_phased s' = true.
Proof.
  intros st s'.
  assert (H : sessions st !! 7 = Some s') by (vm_compute; reflexivity).
  split; [split; [reflexivity | split; [reflexivity | exact H]]|].
  split; [vm_compute; reflexivity|].
  exact (phases_are_kept 7 [failing_build_turn] sample_store sample_session s'
           eq_refl eq_refl H).
Defined.

(** *** The control words *)

(** X16.  The word cancel, in any casing and in any phase, ends the
    session: the reply is the cancellation notice, the session is removed,
    and the handler no longer answers the user's next message itself but
    hands it to the command processor. *)
Theorem cancel_ends_the_session (uid : Z) (t t' : Turn) (st : Store)
    (s : PCBuilderSession) :
  sessions st !! uid = Some s ->
  lower (turn_content t) = "cancel"%string ->
  let st1 := (on_message uid t st).1 in
  (on_message uid t st).2 = [Send MSG_CANCELLED] /\
  sessions st1 !! uid = None /\
  (on_message uid t' st1).2 = [ProcessCommands].
Proof.
  intros Hs Hc st1.
  assert (Hgone : sessions st1 !! uid = None).
  { subst st1. rewrite (on_message_sessions uid t st s Hs). unfold session_after.
    rewrite Hc. cbn [String.eqb Ascii.eqb Bool.eqb]. apply lookup_delete_eq. }
  split; [|split; [exact Hgone | now rewrite (on_message_absent uid t' st1 Hgone)]].
  unfold on_message.
  rewrite Hs, (get_session_present uid (turn_now t) st s Hs), Hc. reflexivity.
Qed.

Definition cancel_turn : Turn :=
  {| turn_now := "2025-01-01T00:06:00";
     turn_content := "Cancel";
     turn_chat := Reply "Sure.";
     turn_parts := "I|CPU|Ryzen 5 $150";
     turn_build := Reply "Build";
     turn_refine := Reply "Ok";
     turn_fault := NoFault |}.

Lemma cancel_ends_the_session_witness :
  (sessions sample_store !! 7 = Some sample_session /\
   lower (turn_content cancel_turn) = "cancel"%string) /\
  let st1 := (on_message 7 cancel_turn sample_store).1 in
  (on_message 7 cancel_turn sample_store).2 = [Send MSG_CANCELLED] /\
  sessions st1 !! 7 = None /\
  (on_message 7 failing_build_turn st1).2 = [ProcessCommands].
Proof.
  split; [split; reflexivity|].
  apply (cancel_ends_the_session 7 cancel_turn failing_build_turn sample_store
           sample_session); reflexivity.
Defined.

(** X17.  While the feedback question is open, the word done is not the
    end of the session: it is stored as the user's feedback, the session
    goes on in refinement mode, and only a second done removes it. *)
Theorem done_is_taken_as_feedback (uid : Z) (t : Turn) (st : Store)
    (s : PCBuilderSession) :
  sessions st !! uid = Some s ->
  feedback_mode s = true ->
  lower (turn_content t) = "done"%string ->
  let r := on_message uid t st in
  r.2 = [Send MSG_REFINE_INVITE] /\
  sessions r.1 !! uid =
    Some (set_refinement_mode true
            (set_feedback_mode false
               (set_user_feedback (turn_content t)
                  (update_activity (turn_now t) s)))) /\
  sessions (on_message uid t r.1).1 !! uid = None.
Proof.
  intros Hs Hf Hd r.
  assert (Hafter : forall s0, session_after uid t s0 =
            if feedback_mode s0
            then Some (set_refinement_mode true
                         (set_feedback_mode false
                            (set_user_feedback (turn_content t) s0)))
            else None).
  { intros s0. unfold session_after. rewrite Hd.
    cbn [String.eqb Ascii.eqb Bool.eqb]. reflexivity. }
  assert (H1 : sessions r.1 !! uid =
    Some (set_refinement_mode true
            (set_feedback_mode false
               (set_user_feedback (turn_content t)
                  (update_activity (turn_now t) s))))).
  { subst r. rewrite (on_message_sessions uid t st s Hs), Hafter.
    cbn [feedback_mode update_activity]. rewrite Hf. apply lookup_insert_eq. }
  split; [|split; [exact H1|]].
  - subst r. unfold on_message.
    rewrite Hs, (get_session_present uid (turn_now t) st s Hs), Hd.
    cbn [String.eqb Ascii.eqb Bool.eqb feedback_mode update_activity].
    now rewrite Hf.
  - rewrite (on_message_sessions uid t r.1 _ H1), Hafter. apply lookup_delete_eq.
Qed.

Definition shown_session : PCBuilderSession :=
  set_feedback_mode true
    (set_refinement_mode true
       (set_conversation_mode false
          (set_build_result "Build: a quiet black tower" sample_session))).

Definition done_turn : Turn :=
  {| turn_now := "2025-01-01T00:07:00";
     turn_content := "done";
     turn_chat := Reply "Sure.";
     turn_parts := "I|CPU|Ryzen 5 $150";
     turn_build := Reply "Build";
     turn_refine := Reply "Ok";
     turn_fault := NoFault |}.

Lemma done_is_taken_as_feedback_witness :
  let st := set_sessions {[ 7 := shown_session ]} sample_store in
  let r := on_message 7 done_turn st in
  r.2 = [Send MSG_REFINE_INVITE] /\
  sessions r.1 !! 7 =
    Some (set_refinement_mode true
            (set_feedback_mode false
               (set_user_feedback "done"
                  (update_activity "2025-01-01T00:07:00" shown_session)))) /\
  sessions (on_message 7 done_turn r.1).1 !! 7 = None.
Proof.
  intros st.
  apply (done_is_taken_as_feedback 7 done_turn st shown_session); reflexivity.
Defined.

(** *** What the handlers leave alone *)

Lemma send_build_result_frame (s : PCBuilderSession) (b : string) :
  let s' := (send_build_result s b).1 in
  chat_history s' = chat_history s /\ build_edits s' = build_edits s /\
  user_feedback s' = user_feedback s /\ created_at s' = created_at s /\
  build_result s' = build_result s /\ refinement_mode s' = refinement_mode s /\
  user_id s' = user_id s.
Proof. unfold send_build_result. now destruct (String.prefix CROSS b). Qed.

Lemma generate_from_conversation_frame (parts : string) (r : reply)
    (s : PCBuilderSession) :
  let s' := (generate_build_from_conversation parts r s).1 in
  chat_history s' = chat_history s /\ build_edits s' = build_edits s /\
  user_feedback s' = user_feedback s /\ created_at s' = created_at s /\
  user_id s' = user_id s.
Proof.
  unfold generate_build_from_conversation.
  set (b := generate_build parts r s).
  set (s1 := set_conversation_mode false (set_refinement_mode true (set_build_result b s))).
  pose proof (send_build_result_frame s1 b) as (H1 & H2 & H3 & H4 & _ & _ & H5).
  destruct (send_build_result s1 b) as [s2 out]. cbn [fst] in *.
  now rewrite H1, H2, H3, H4, H5.
Qed.

Lemma handle_conversation_mode_frame (t : Turn) (s : PCBuilderSession) :
  let s' := (handle_conversation_mode t s).1 in
  (chat_history s' = chat_history s ++ [user_message t] \/
   exists ai, chat_history s' = chat_history s ++ [user_message t; ai]) /\
  build_edits s' = build_edits s /\ user_feedback s' = user_feedback s /\
  created_at s' = created_at s /\ user_id s' = user_id s.
Proof.
  unfold handle_conversation_mode.
  set (s1 := set_chat_history (chat_history s ++ [{| role := "user"; text := turn_content t |}]) s).
  pose proof (generate_from_conversation_frame (turn_parts t) (turn_build t) s1)
    as (G1 & G2 & G3 & G4 & G5).
  destruct (turn_chat t) as [got|e].
  - destruct (contains READY_TO_BUILD _); [|destruct (are_all_fields_collected _)].
    1,2: cbv zeta; rewrite G1, G2, G3, G4, G5; split; [left; reflexivity | now repeat split].
    cbn [fst]. split; [|now repeat split]. right. eexists.
    cbn [chat_history set_chat_history update_activity]. subst s1.
    cbn [chat_history set_chat_history]. rewrite <- app_assoc. reflexivity.
  - cbn [fst]. split; [left; reflexivity | now repeat split].
Qed.

(** X18.  The word restart keeps nothing of the session it replaces: the
    new session is the one a first message opens, with no build, no
    feedback, no edits and no answers, created at the time of the
    message; its transcript starts with the message restart itself, as
    the user typed it. *)
Theorem restart_forgets_the_session (uid : Z) (t : Turn) (st : Store)
    (s : PCBuilderSession) :
  sessions st !! uid = Some s ->
  lower (turn_content t) = "restart"%string ->
  exists s',
    sessions (on_message uid t st).1 !! uid = Some s' /\
    s' = (handle_conversation_mode t
            (set_conversation_mode true
               (update_activity (turn_now t) (new_session uid (turn_now t))))).1 /\
    (chat_history s' = [user_message t] \/
     exists ai, chat_history s' = [user_message t; ai]) /\
    answers s' = ∅ /\ build_edits s' = [] /\ user_feedback s' = EmptyString /\
    created_at s' = Some (turn_now t) /\ user_id s' = uid.
Proof.
  intros Hs Hr. eexists. split; [|split; [reflexivity|]].
  - rewrite (on_message_sessions uid t st s Hs). unfold session_after.
    rewrite Hr. cbn [String.eqb Ascii.eqb Bool.eqb]. apply lookup_insert_eq.
  - set (fresh := set_conversation_mode true
                    (update_activity (turn_now t) (new_session uid (turn_now t)))).
    pose proof (handle_conversation_mode_frame t fresh) as (H1 & H2 & H3 & H4 & H5).
    rewrite handle_conversation_mode_answers, H2, H3, H4, H5.
    split; [exact H1 | now repeat split].
Qed.

Definition restart_turn : Turn :=
  {| turn_now := "2025-01-01T00:08:00";
     turn_content := "Restart";
     turn_chat := Reply "Hey again! What is your budget?";
     turn_parts := "I|CPU|Ryzen 5 $150";
     turn_build := Reply "Build";
     turn_refine := Reply "Ok";
     turn_fault := NoFault |}.

Lemma restart_forgets_the_session_witness :
  let st := set_sessions {[ 7 := shown_session ]} sample_store in
  exists s',
    sessions (on_message 7 restart_turn st).1 !! 7 = Some s' /\
    s' = (handle_conversation_mode restart_turn
            (set_conversation_mode true
               (update_activity "2025-01-01T00:08:00"
                  (new_session 7 "2025-01-01T00:08:00")))).1 /\
    (chat_history s' = [user_message restart_turn] \/
     exists ai, chat_history s' = [user_message restart_turn; ai]) /\
    answers s' = ∅ /\ build_edits s' = [] /\ user_feedback s' = EmptyString /\
    created_at s' = Some "2025-01-01T00:08:00"%string /\ user_id s' = 7.
Proof.
  intros st.
  apply (restart_forgets_the_session 7 restart_turn st shown_session); reflexivity.
Defined.

(** *** Refinement *)

Lemma handle_refinement_conversation_frame (t : Turn) (s : PCBuilderSession) :
  let s' := (handle_refinement_conversation t s).1 in
  chat_history s' = chat_history s /\
  build_edits s' =
    (if mem (lower (turn_content t)) CONTROL_TOKENS then build_edits s
     else build_edits s ++ [turn_content t]) /\
  refinement_mode s' = refinement_mode s /\ user_feedback s' = user_feedback s.
Proof.
  unfold handle_refinement_conversation.
  set (s1 := if mem (lower (turn_content t)) CONTROL_TOKENS then s
             else set_build_edits (build_edits s ++ [turn_content t]) s).
  assert (Hs1 : chat_history s1 = chat_history s /\
                build_edits s1 =
                  (if mem (lower (turn_content t)) CONTROL_TOKENS then build_edits s
                   else build_edits s ++ [turn_content t]) /\
                refinement_mode s1 = refinement_mode s /\
                user_feedback s1 = user_feedback s)
    by (subst s1; now destruct (mem _ _)).
  destruct Hs1 as (H1 & H2 & H3 & H4).
  destruct (_ && _); [|now rewrite <- H1, <- H2, <- H3, <- H4].
  set (b := generate_build (turn_parts t) (turn_build t) s1).
  pose proof (send_build_result_frame (set_build_result b s1) b)
    as (F1 & F2 & F3 & _ & _ & F6 & _).
  destruct (send_build_result (set_build_result b s1) b) as [s2 out].
  cbn [fst chat_history build_edits refinement_mode user_feedback update_activity
       set_build_result] in *.
  now rewrite F1, F2, F3, F6, H1, H2, H3, H4.
Qed.

(** X19.  In refinement mode, with no feedback question open, a message
    that is not a control word is added verbatim to [build_edits] and to
    nothing else: the transcript [chat_history] does not record the
    refinement dialogue, and the session stays in refinement mode. *)
Theorem refinement_turn_is_recorded_as_edit (uid : Z) (t : Turn) (st : Store)
    (s : PCBuilderSession) :
  sessions st !! uid = Some s ->
  refinement_mode s = true -> feedback_mode s = false ->
  mem (lower (turn_content t)) CONTROL_TOKENS = false ->
  exists s',
    sessions (on_message uid t st).1 !! uid = Some s' /\
    build_edits s' = build_edits s ++ [turn_content t] /\
    chat_history s' = chat_history s /\
    user_feedback s' = user_feedback s /\
    refinement_mode s' = true.
Proof.
  intros Hs Hr Hf Hctl.
  pose proof (not_control _ Hctl) as (Hc1 & Hc2 & Hc3).
  rewrite (on_message_sessions uid t st s Hs). unfold session_after.
  rewrite Hc1, Hc2, Hc3. cbn [feedback_mode refinement_mode update_activity].
  rewrite Hf, Hr. eexists. split; [apply lookup_insert_eq|].
  pose proof (handle_refinement_conversation_frame t (update_activity (turn_now t) s))
    as (H1 & H2 & H3 & H4).
  rewrite H1, H2, H3, H4, Hctl. cbn [update_activity build_edits chat_history
    user_feedback refinement_mode]. now rewrite Hr.
Qed.

Definition refining_session : PCBuilderSession :=
  set_feedback_mode false shown_session.

Definition edit_turn : Turn :=
  {| turn_now := "2025-01-01T00:09:00";
     turn_content := "Can I get a white case instead?";
     turn_chat := Reply "Sure.";
     turn_parts := "I|CPU|Ryzen 5 $150";
     turn_build := Reply "Build: a quiet white tower";
     turn_refine := Reply "I can change the case to a white one. Anything else?";
     turn_fault := NoFault |}.

Lemma refinement_turn_is_recorded_as_edit_witness :
  let st := set_sessions {[ 7 := refining_session ]} sample_store in
  exists s',
    sessions (on_message 7 edit_turn st).1 !! 7 = Some s' /\
    build_edits s' = build_edits refining_session ++ [turn_content edit_turn] /\
    chat_history s' = chat_history refining_session /\
    user_feedback s' = user_feedback refining_session /\
    refinement_mode s' = true.
Proof.
  intros st.
  apply (refinement_turn_is_recorded_as_edit 7 edit_turn st refining_session);
    reflexivity.
Defined.

(** *** The feedback question *)









Definition good_build_turn : Turn :=
  {| turn_now := "2025-01-01T00:05:00";
     turn_content := turn_content failing_build_turn;
     turn_chat := Reply "Got it!";
     turn_parts := "I|CPU|Ryzen 5 $150";
     turn_build := Reply "Build: a quiet black tower";
     turn_refine := Reply "Ok";
     turn_fault := NoFault |}.


(** *** What reaches the mirror *)

Lemma on_message_fs (uid : Z) (t : Turn) (st : Store) :
  mem (lower (turn_content t)) CONTROL_TOKENS = false ->
  fs (on_message uid t st).1 = fs st.
Proof.
  intros Hctl. pose proof (not_control _ Hctl) as (Hc1 & Hc2 & Hc3).
  unfold on_message. destruct (sessions st !! uid) as [s|] eqn:Hs; [|reflexivity].
  rewrite (get_session_present uid (turn_now t) st s Hs), Hc1, Hc2, Hc3.
  destruct (feedback_mode _); [reflexivity|].
  destruct (refinement_mode _).
  { now destruct (handle_refinement_conversation t _). }
  destruct (conversation_mode _); [|reflexivity].
  now destruct (handle_conversation_mode t _).
Qed.

(** X21.  Turns of the conversation are not flushed: as long as no
    message is one of the words cancel, restart and done and none is
    handed to the command processor, the mirror and the lock marker stay
    as they were, so a restart of the bot after these turns finds what it
    would have found before them. *)
Theorem conversation_is_not_flushed (uid : Z) (turns : list Turn) (st : Store) :
  Forall (fun t => mem (lower (turn_content t)) CONTROL_TOKENS = false) turns ->
  handed_over (run uid turns st).2 = false ->
  fs (run uid turns st).1 = fs st /\
  SessionManager.init (fs (run uid turns st).1) = SessionManager.init (fs st).
Proof.
  intros Hall _.
  assert (H : fs (run uid turns st).1 = fs st).
  { revert st. induction Hall as [|t rest Ht _ IH]; intros st; [reflexivity|].
    now rewrite run_store_cons, IH, on_message_fs. }
  split; [exact H | now rewrite H].
Qed.

Lemma conversation_is_not_flushed_witness :
  let turns := [good_build_turn; edit_turn] in
  (Forall (fun t => mem (lower (turn_content t)) CONTROL_TOKENS = false) turns /\
   handed_over (run 7 turns sample_store).2 = false) /\
  fs (run 7 turns sample_store).1 = fs sample_store /\
  SessionManager.init (fs (run 7 turns sample_store).1) =
  SessionManager.init (fs sample_store).
Proof.
  intros turns.
  assert (Hall : Forall (fun t => mem (lower (turn_content t)) CONTROL_TOKENS = false)
                   turns)
    by (repeat constructor).
  assert (Hh : handed_over (run 7 turns sample_store).2 = false)
    by (vm_compute; reflexivity).
  split; [split; [exact Hall | exact Hh]|].
  exact (conversation_is_not_flushed 7 turns sample_store Hall Hh).
Defined.

(** ** Sweeps, messages and restarts *)

Lemma send_build_result_activity (s : PCBuilderSession) (b : string) :
  last_activity (send_build_result s b).1 = last_activity s.
Proof. unfold send_build_result. now destruct (String.prefix CROSS b). Qed.

Lemma generate_from_conversation_activity (parts : string) (r : reply)
    (s : PCBuilderSession) :
  last_activity (generate_build_from_conversation parts r s).1 = last_activity s.
Proof.
  unfold generate_build_from_conversation.
  set (b := generate_build parts r s).
  set (s1 := set_conversation_mode false (set_refinement_mode true (set_build_result b s))).
  pose proof (send_build_result_activity s1 b) as H.
  destruct (send_build_result s1 b) as [s2 out]. exact H.
Qed.

Lemma handle_conversation_mode_activity (t : Turn) (s : PCBuilderSession) :
  last_activity s = Some (turn_now t) ->
  last_activity (handle_conversation_mode t s).1 = Some (turn_now t).
Proof.
  intros Hs. unfold handle_conversation_mode.
  destruct (turn_chat t) as [got|e]; [|exact Hs].
  destruct (contains READY_TO_BUILD _);
    [now rewrite generate_from_conversation_activity|].
  destruct (are_all_fields_collected _);
    [now rewrite generate_from_conversation_activity | reflexivity].
Qed.

Lemma handle_refinement_conversation_activity (t : Turn) (s : PCBuilderSession) :
  last_activity (handle_refinement_conversation t s).1 = Some (turn_now t).
Proof.
  unfold handle_refinement_conversation. destruct (_ && _); [|reflexivity].
  now destruct (send_build_result _ _).
Qed.

Lemma session_after_activity (uid : Z) (t : Turn) (s s' : PCBuilderSession) :
  session_after uid t (update_activity (turn_now t) s) = Some s' ->
  last_activity s' = Some (turn_now t).
Proof.
  unfold session_after.
  destruct (String.eqb (lower (turn_content t)) "cancel"); [discriminate|].
  destruct (String.eqb (lower (turn_content t)) "restart").
  { intros [= <-]. now apply handle_conversation_mode_activity. }
  destruct (feedback_mode _); [now intros [= <-]|].
  destruct (String.eqb (lower (turn_content t)) "done"); [discriminate|].
  destruct (refinement_mode _).
  { intros [= <-]. apply handle_refinement_conversation_activity. }
  destruct (conversation_mode _); intros [= <-]; [|reflexivity].
  now apply handle_conversation_mode_activity.
Qed.

(** X22.  Every message of a user whose session is still there after it
    stamps the session with the time of the message; a sweep whose cutoff
    is not after that time keeps the session, unchanged. *)
Theorem message_postpones_eviction
    (fromisoformat : string -> option datetime) (uid : Z) (t : Turn) (st : Store)
    (s' : PCBuilderSession) (h now : Z) (fault : io_fault) (d : datetime) :
  sessions (on_message uid t st).1 !! uid = Some s' ->
  fromisoformat (turn_now t) = Some d -> aware d = false ->
  now - h * MICROS_PER_HOUR <= micros d ->
  last_activity s' = Some (turn_now t) /\
  sessions (cleanup_old_sessions fromisoformat h now fault
              (on_message uid t st).1).1 !! uid = Some s'.
Proof.
  intros Hs' Hd Ha Hcut.
  assert (Hl : last_activity s' = Some (turn_now t)).
  { destruct (sessions st !! uid) as [s|] eqn:Hs.
    - rewrite (on_message_sessions uid t st s Hs) in Hs'.
      destruct (session_after uid t _) as [s2|] eqn:Hafter.
      + rewrite lookup_insert_eq in Hs'. injection Hs' as <-.
        exact (session_after_activity uid t s s2 Hafter).
      + now rewrite lookup_delete_eq in Hs'.
    - rewrite (on_message_absent uid t st Hs) in Hs'. cbn [fst] in Hs'. congruence. }
  split; [exact Hl|].
  rewrite cleanup_lookup, Hs'. unfold stale. rewrite Hl, Hd, Ha.
  destruct (Z.ltb_spec (micros d) (now - h * MICROS_PER_HOUR)); [lia | reflexivity].
Qed.

Definition later_fromisoformat (t : string) : option datetime :=
  if String.eqb t "2025-01-01T00:05:00"
  then Some {| micros := 300000000; aware := false |}
  else sample_fromisoformat t.

Lemma message_postpones_eviction_witness :
  let st1 := (on_message 7 good_build_turn sample_store).1 in
  let s' := default sample_session (sessions st1 !! 7) in
  let now := 24 * MICROS_PER_HOUR + 300000000 in
  (sessions st1 !! 7 = Some s' /\
   later_fromisoformat (turn_now good_build_turn) =
     Some {| micros := 300000000; aware := false |} /\
   now - 24 * MICROS_PER_HOUR <= 300000000) /\
  last_activity s' = Some (turn_now good_build_turn) /\
  sessions (cleanup_old_sessions later_fromisoformat 24 now NoFault st1).1 !! 7 =
  Some s'.
Proof.
  intros st1 s' now.
  assert (H : sessions st1 !! 7 = Some s') by (vm_compute; reflexivity).
  assert (Hc : now - 24 * MICROS_PER_HOUR <= 300000000) by (vm_compute; discriminate).
  split; [split; [exact H | split; [reflexivity | exact Hc]]|].
  exact (message_postpones_eviction later_fromisoformat 7 good_build_turn
           sample_store s' 24 now NoFault {| micros := 300000000; aware := false |}
           H eq_refl eq_refl Hc).
Defined.

(** X23.  A sweep that removed a session rewrites the mirror: with the
    lock marker free and no write fault, a restart then finds exactly the
    sessions that survived.  A sweep that removed nobody writes nothing:
    memory, mirror and marker are as before. *)
Theorem sweep_then_restart
    (fromisoformat : string -> option datetime) (h now : Z) (st : Store) :
  sessions_lock (fs st) = false ->
  let r := cleanup_old_sessions fromisoformat h now NoFault st in
  (r.2 = true ->
   option_map sessions (SessionManager.init (fs r.1)) = Some (sessions r.1)) /\
  (r.2 = false -> r.1 = st).
Proof.
  intros Hfree r. subst r. unfold cleanup_old_sessions.
  destruct (to_remove_of fromisoformat _ (sessions st)) as [|k l]; cbn [fst snd foldl].
  - split; [discriminate|]. intros _. now destruct st.
  - split; [|discriminate]. intros _.
    rewrite init_after_flush by exact Hfree.
    cbn [option_map sessions]. now rewrite save_sessions_sessions.
Qed.

Lemma sweep_then_restart_witness :
  sessions_lock (fs sample_store) = false /\
  let r := cleanup_old_sessions sample_fromisoformat 24 (48 * MICROS_PER_HOUR)
             NoFault sample_store in
  (r.2 = true ->
   option_map sessions (SessionManager.init (fs r.1)) = Some (sessions r.1)) /\
  (r.2 = false -> r.1 = sample_store).
Proof.
  split; [reflexivity|].
  apply (sweep_then_restart sample_fromisoformat 24 (48 * MICROS_PER_HOUR)
           sample_store).
  reflexivity.
Defined.

(** ** The collective file: build numbers *)

Lemma length_drop_chars (k : nat) (s : string) :
  (String.length (drop_chars k s) <= String.length s)%nat.
Proof.
  revert s. induction k as [|k IH]; intros [|c t]; cbn; try lia.
  specialize (IH t). lia.
Qed.

Lemma count_from_enough (w : string) (f1 f2 : nat) (s : string) :
  is_empty w = false ->
  (String.length s <= f1)%nat -> (String.length s <= f2)%nat ->
  count_from w f1 s = count_from w f2 s.
Proof.
  intros Hw. revert f2 s. induction f1 as [|f1 IH]; intros f2 s H1 H2.
  - destruct s; [|cbn in H1; lia]. now destruct f2.
  - destruct s as [|c t]; [now destruct f2|].
    destruct f2 as [|f2]; [cbn in H2; lia|].
    cbn [count_from]. cbn [String.length] in H1, H2.
    destruct (String.prefix w (String c t)).
    + f_equal. destruct w as [|a w']; [discriminate|].
      cbn [String.length drop_chars].
      pose proof (length_drop_chars (String.length w') t).
      apply IH; lia.
    + apply IH; lia.
Qed.

Lemma str_count_cons (w : string) (c : ascii) (t : string) :
  is_empty w = false ->
  str_count w (String c t) =
  if String.prefix w (String c t)
  then S (str_count w (drop_chars (String.length w) (String c t)))
  else str_count w t.
Proof.
  intros Hw. unfold str_count. rewrite Hw. cbn [String.length count_from].
  destruct (String.prefix w (String c t)); [|reflexivity].
  f_equal. apply count_from_enough; [exact Hw | | lia].
  destruct w as [|a w']; [discriminate|]. cbn [String.length drop_chars].
  apply length_drop_chars.
Qed.

Lemma str_count_nil (w : string) : is_empty w = false -> str_count w EmptyString = 0%nat.
Proof. intros Hw. unfold str_count. now rewrite Hw. Qed.

Lemma prefix_line (w a b : string) :
  one_line w = true ->
  String.prefix w (a +:+ String newline b) = String.prefix w a.
Proof.
  revert a. induction w as [|c w IH]; intros a Hw; [now destruct a|].
  cbn [one_line] in Hw. apply andb_prop in Hw as [Hc Hw].
  destruct a as [|c' a]; push_append; cbn [String.prefix].
  - destruct (ascii_dec c newline) as [->|]; [discriminate | reflexivity].
  - destruct (ascii_dec c c'); [apply IH, Hw | reflexivity].
Qed.

Lemma drop_chars_prefix (w a x : string) :
  String.prefix w a = true ->
  drop_chars (String.length w) (a +:+ x) = drop_chars (String.length w) a +:+ x.
Proof.
  revert a. induction w as [|c w IH]; intros a Hp; [reflexivity|].
  destruct a as [|c' a]; [discriminate|]. push_append.
  cbn [String.prefix] in Hp. cbn [String.length drop_chars].
  destruct (ascii_dec c c'); [apply IH, Hp | discriminate].
Qed.

(** An occurrence lies within a line. *)
Lemma str_count_line (w a b : string) :
  is_empty w = false -> one_line w = true ->
  str_count w (a +:+ String newline b) = (str_count w a + str_count w b)%nat.
Proof.
  intros Hw Hl.
  remember (String.length a) as n eqn:Hn.
  assert (Hle : (String.length a <= n)%nat) by lia. clear Hn.
  revert a Hle. induction n as [|n IH]; intros a Hle.
  - destruct a; [|cbn in Hle; lia]. push_append.
    rewrite str_count_cons, str_count_nil by exact Hw.
    rewrite <- (append_nil_l (String newline b)), prefix_line by exact Hl.
    destruct w; [discriminate | reflexivity].
  - destruct a as [|c a].
    + push_append. rewrite str_count_cons, str_count_nil by exact Hw.
      rewrite <- (append_nil_l (String newline b)), prefix_line by exact Hl.
      destruct w; [discriminate | reflexivity].
    + cbn [String.length] in Hle. rewrite append_cons.
      rewrite !str_count_cons by exact Hw.
      rewrite <- append_cons, prefix_line by exact Hl.
      destruct (String.prefix w (String c a)) eqn:Hp.
      * rewrite (drop_chars_prefix _ _ _ Hp), IH; [reflexivity|].
        destruct w as [|x w']; [discriminate|]. cbn [String.length drop_chars].
        pose proof (length_drop_chars (String.length w') a). lia.
      * apply IH. lia.
Qed.

Lemma str_count_absent (w s : string) :
  is_empty w = false -> contains w s = false -> str_count w s = 0%nat.
Proof.
  intros Hw. induction s as [|c t IH]; intros Hc; [now apply str_count_nil|].
  cbn [contains] in Hc. apply orb_false_elim in Hc as [Hp Ht].
  rewrite str_count_cons, Hp by exact Hw. apply IH, Ht.
Qed.

Lemma drop_chars_append (w r : string) : drop_chars (String.length w) (w +:+ r) = r.
Proof. induction w as [|c w IH]; [now destruct r|]. now rewrite append_cons. Qed.

Lemma str_count_prefix (w r : string) :
  is_empty w = false -> str_count w (w +:+ r) = S (str_count w r).
Proof.
  intros Hw. destruct w as [|c w]; [discriminate|].
  rewrite append_cons, str_count_cons by reflexivity.
  rewrite <- append_cons, prefix_append, drop_chars_append. reflexivity.
Qed.

Lemma prefix_nil (s : string) : String.prefix EmptyString s = true.
Proof. now destruct s. Qed.

Lemma contains_char_app (c : ascii) (a b : string) :
  contains (String c EmptyString) (a +:+ b) =
  contains (String c EmptyString) a || contains (String c EmptyString) b.
Proof.
  induction a as [|x a IH]; [reflexivity|].
  rewrite append_cons. cbn [contains String.prefix]. rewrite IH.
  destruct (ascii_dec c x); [now rewrite !prefix_nil | reflexivity].
Qed.

Lemma digits_no_equals (s : string) :
  all_digits s = true -> contains "=" s = false.
Proof.
  induction s as [|c t IH]; [reflexivity|]. cbn [all_digits]. intros H.
  apply andb_prop in H as [Hc Ht]. cbn [contains String.prefix].
  rewrite (IH Ht). destruct (ascii_dec "=" c) as [<-|]; [discriminate | reflexivity].
Qed.

Lemma header_clean (x : string) :
  contains "=" x = false -> contains BUILD_MARKER (x +:+ " ===") = false.
Proof.
  induction x as [|c t IH]; [reflexivity|]. cbn [contains String.prefix].
  intros H. apply orb_false_elim in H as [Hp Ht].
  rewrite append_cons. cbn [contains]. rewrite (IH Ht), orb_false_r.
  unfold BUILD_MARKER. cbn [String.prefix].
  destruct (ascii_dec "=" c) as [<-|]; [|reflexivity].
  cbn in Hp. now destruct t.
Qed.

(** What is in the file after some builds were saved: nothing, or whole
    lines, with [k] occurrences of the marker. *)
Definition holds_builds (file : option string) (k : nat) : Prop :=
  match file with
  | None => k = 0%nat
  | Some c => exists c', c = c' +:+ String newline EmptyString /\
                         str_count BUILD_MARKER c = k
  end.

Lemma get_build_number_holds (file : option string) (k : nat) :
  holds_builds file k -> get_build_number true file = Z.of_nat k + 1.
Proof.
  destruct file as [c|]; cbn [holds_builds get_build_number].
  - now intros (c' & _ & <-).
  - now intros ->.
Qed.

Lemma write_build_holds (ts entry : string) (file : option string) (k : nat) :
  contains "=" ts = false -> contains BUILD_MARKER entry = false ->
  holds_builds file k ->
  holds_builds (write_build true false ts entry file) (S k).
Proof.
  intros Hts Hentry Hfile. unfold write_build. cbv zeta iota.
  rewrite (get_build_number_holds file k Hfile).
  set (num := str_of_Z (Z.of_nat k + 1)).
  set (head := num +:+ " - " +:+ ts).
  assert (Hhead : contains "=" head = false).
  { subst head num. rewrite !contains_char_app, Hts.
    replace (Z.of_nat k + 1) with (Z.pos (Pos.of_succ_nat k)) by lia.
    rewrite str_of_Z_pos, digits_no_equals by apply string_of_uint_digits.
    reflexivity. }
  set (block := BUILD_MARKER +:+ (head +:+ " ===") +:+
                String newline (entry +:+ String newline (String newline EmptyString))).
  assert (Hblock : str_count BUILD_MARKER block = 1%nat).
  { subst block. rewrite str_count_prefix by reflexivity.
    rewrite str_count_line by reflexivity.
    rewrite (str_count_absent BUILD_MARKER _ eq_refl (header_clean head Hhead)).
    rewrite str_count_line by reflexivity.
    rewrite (str_count_absent BUILD_MARKER _ eq_refl Hentry). reflexivity. }
  assert (Hshape : forall c0,
            c0 +:+ "=== BUILD #" +:+ num +:+ " - " +:+ ts +:+ " ===" +:+
            String newline EmptyString +:+ entry +:+
            String newline (String newline EmptyString) =
            (c0 +:+ BUILD_MARKER +:+ (head +:+ " ===") +:+
             String newline (entry +:+ String newline EmptyString)) +:+
            String newline EmptyString).
  { intros c0. subst head. unfold BUILD_MARKER.
    rewrite !append_assoc. push_append. rewrite !append_assoc. push_append.
    reflexivity. }
  cbn [holds_builds]. eexists. split; [apply Hshape|].
  rewrite Hshape.
  assert (Hre : forall c0,
            (c0 +:+ BUILD_MARKER +:+ (head +:+ " ===") +:+
             String newline (entry +:+ String newline EmptyString)) +:+
            String newline EmptyString = c0 +:+ block).
  { intros c0. subst block. rewrite !append_assoc. push_append.
    rewrite !append_assoc. push_append. reflexivity. }
  rewrite Hre.
  destruct file as [c|]; cbn [holds_builds default] in *.
  - destruct Hfile as (c' & -> & Hk). unfold id.
    rewrite append_assoc. push_append.
    rewrite str_count_line, Hblock by reflexivity.
    rewrite <- (append_nil_r (c' +:+ String newline EmptyString)) in Hk.
    rewrite append_assoc in Hk. rewrite ?append_cons, ?append_nil_l in Hk.
    rewrite str_count_line in Hk by reflexivity.
    rewrite str_count_nil in Hk by reflexivity. lia.
  - subst k. rewrite append_nil_l. exact Hblock.
Qed.

Lemma saves_hold (saves : list (bool * string * string)) :
  Forall (fun e => contains "=" e.1.2 = false /\
                   contains BUILD_MARKER e.2 = false) saves ->
  forall file k,
    holds_builds file k ->
    holds_builds
      (foldl (fun f e => write_build true e.1.1 e.1.2 e.2 f) file saves)
      (k + length (List.filter (fun e => negb e.1.1) saves)).
Proof.
  induction 1 as [|[[held ts] entry] saves [Hts Hentry] _ IH]; intros file k Hk.
  - cbn. now rewrite Nat.add_0_r.
  - cbn [foldl List.filter fst snd]. cbn [fst snd] in Hts, Hentry.
    destruct held; cbn [negb].
    + apply IH. exact Hk.
    + cbn [length]. rewrite Nat.add_succ_r. apply (IH _ (S k)).
      now apply write_build_holds.
Qed.

(** X24.  Builds are numbered 1, 2, 3, ...: starting from a missing
    collective file, after any sequence of saves whose entries do not
    contain the text [=== BUILD #] (and whose time stamps have no equals
    sign), the next build number is one more than the number of saves
    that were written; a save that did not get the lock writes nothing
    and uses up no number. *)
Theorem build_numbers_are_consecutive (saves : list (bool * string * string)) :
  Forall (fun e => contains "=" e.1.2 = false /\
                   contains BUILD_MARKER e.2 = false) saves ->
  get_build_number true
    (foldl (fun f e => write_build true e.1.1 e.1.2 e.2 f) None saves) =
  Z.of_nat (length (List.filter (fun e => negb e.1.1) saves)) + 1.
Proof.
  intros Hall.
  apply (get_build_number_holds _ _ (saves_hold saves Hall None 0%nat eq_refl)).
Qed.

Definition sample_saves : list (bool * string * string) :=
  [ (false, "2025-01-01 00:10:00", "black" +:+ String newline "RTX5060")%string;
    (true, "2025-01-01 00:11:00", "white")%string;
    (false, "2025-01-01 00:12:00", "EN: a == b")%string ].

Lemma build_numbers_are_consecutive_witness :
  Forall (fun e => contains "=" e.1.2 = false /\
                   contains BUILD_MARKER e.2 = false) sample_saves /\
  get_build_number true
    (foldl (fun f e => write_build true e.1.1 e.1.2 e.2 f) None sample_saves) = 3.
Proof.
  assert (Hall : Forall (fun e => contains "=" e.1.2 = false /\
                   contains BUILD_MARKER e.2 = false) sample_saves)
    by (repeat constructor).
  split; [exact Hall|].
  exact (build_numbers_are_consecutive sample_saves Hall).
Defined.

(** ** The parts list of a build text *)

Lemma split_lines_no_line_feed (s : list Z) :
  Forall (fun line => LINE_FEED ∉ line) (split_lines s).
Proof.
  induction s as [|c t IH]; cbn [split_lines].
  - constructor; [apply not_elem_of_nil | constructor].
  - destruct (Z.eqb_spec c LINE_FEED) as [->|Hc].
    + constructor; [apply not_elem_of_nil | exact IH].
    + destruct (split_lines t) as [|line rest].
      * constructor; [|constructor]. rewrite list_elem_of_singleton. congruence.
      * apply Forall_cons in IH as [Hl Hr]. constructor; [|exact Hr].
        rewrite elem_of_cons. intros [E | E]; [congruence | exact (Hl E)].
Qed.

Lemma lstrip_blanks_elem (x : Z) (s : list Z) :
  x ∈ lstrip_blanks s -> x ∈ s.
Proof.
  induction s as [|c t IH]; cbn [lstrip_blanks]; [trivial|].
  destruct (is_blank c); [|trivial]. intros H. right. exact (IH H).
Qed.

Lemma lstrip_blanks_keeps (x : Z) (s : list Z) :
  is_blank x = false -> x ∈ s -> x ∈ lstrip_blanks s.
Proof.
  intros Hx. induction s as [|c t IH]; cbn [lstrip_blanks]; [trivial|].
  destruct (is_blank c) eqn:Hc; [|trivial].
  rewrite elem_of_cons. intros [-> | H]; [congruence | exact (IH H)].
Qed.

Lemma lstrip_blanks_length (s : list Z) :
  (length (lstrip_blanks s) <= length s)%nat.
Proof.
  induction s as [|c t IH]; cbn [lstrip_blanks]; [lia|].
  destruct (is_blank c); cbn [length]; lia.
Qed.

Lemma lstrip_blanks_head (c : Z) (t : list Z) :
  is_blank c = false -> lstrip_blanks (c :: t) = c :: t.
Proof. intros H. cbn [lstrip_blanks]. now rewrite H. Qed.

Lemma lstrip_blanks_result (s : list Z) :
  lstrip_blanks s = [] \/
  exists c t, lstrip_blanks s = c :: t /\ is_blank c = false.
Proof.
  induction s as [|c t IH]; [now left|]. cbn [lstrip_blanks].
  destruct (is_blank c) eqn:Hc; [exact IH|]. right. now exists c, t.
Qed.

Lemma lstrip_blanks_idem (s : list Z) :
  lstrip_blanks (lstrip_blanks s) = lstrip_blanks s.
Proof.
  destruct (lstrip_blanks_result s) as [-> | (c & t & -> & Hc)]; [reflexivity|].
  now apply lstrip_blanks_head.
Qed.

(** Blanks taken from the end of a text that does not start with one. *)
Lemma rstrip_keeps_head (c : Z) (t : list Z) :
  is_blank c = false ->
  exists t', reverse (lstrip_blanks (reverse (c :: t))) = c :: t'.
Proof.
  intros Hc. rewrite reverse_cons.
  assert (H : forall r, exists r', lstrip_blanks (r ++ [c]) = r' ++ [c]).
  { induction r as [|x r IH]; cbn [app lstrip_blanks].
    - rewrite Hc. now exists [].
    - destruct (is_blank x); [exact IH|]. now exists (x :: r). }
  destruct (H (reverse t)) as [r' ->]. rewrite reverse_snoc.
  exists (reverse r'). reflexivity.
Qed.

Lemma strip_blanks_idem (s : list Z) : strip_blanks (strip_blanks s) = strip_blanks s.
Proof.
  unfold strip_blanks.
  destruct (lstrip_blanks_result s) as [-> | (c & t & -> & Hc)]; [reflexivity|].
  destruct (rstrip_keeps_head c t Hc) as [t' E].
  rewrite E at 1. rewrite (lstrip_blanks_head c t' Hc), <- E.
  now rewrite reverse_involutive, lstrip_blanks_idem.
Qed.

Lemma strip_blanks_elem (x : Z) (s : list Z) : x ∈ strip_blanks s -> x ∈ s.
Proof.
  unfold strip_blanks. rewrite elem_of_reverse. intros H.
  apply lstrip_blanks_elem in H. rewrite elem_of_reverse in H.
  now apply lstrip_blanks_elem.
Qed.

Lemma strip_blanks_keeps (x : Z) (s : list Z) :
  is_blank x = false -> x ∈ s -> x ∈ strip_blanks s.
Proof.
  intros Hx H. unfold strip_blanks. rewrite elem_of_reverse.
  apply lstrip_blanks_keeps; [exact Hx|]. rewrite elem_of_reverse.
  now apply lstrip_blanks_keeps.
Qed.

Lemma strip_blanks_length (s : list Z) :
  (length (strip_blanks s) <= length s)%nat.
Proof.
  unfold strip_blanks. rewrite length_reverse.
  pose proof (lstrip_blanks_length (reverse (lstrip_blanks s))) as H.
  rewrite length_reverse in H. pose proof (lstrip_blanks_length s). lia.
Qed.

Lemma part_line_colon (line : list Z) :
  part_line line = true ->
  COLON ∈ line /\ (length line < 200)%nat /\ starts_with HTTP line = false.
Proof.
  unfold part_line. intros H.
  apply andb_prop in H as [H Hlen]. apply andb_prop in H as [Hcolon Hhttp].
  split; [|split].
  - apply existsb_exists in Hcolon as (x & Hin & Hx).
    apply Z.eqb_eq in Hx. subst x. now apply list_elem_of_In.
  - now apply Nat.ltb_lt.
  - now destruct (starts_with HTTP line).
Qed.

(** X25.  The parts [extract_parts_from_build] returns are the lines of
    the build text that hold a colon, do not start with [http] and have
    fewer than 200 characters, each one stripped, in their order: the
    inner test for a blank line never fails.  Hence every part holds a
    colon, is not empty, has fewer than 200 characters, spans no line
    break, and has no blank at either end. *)
Theorem parts_are_labelled_lines (build_result : list Z) :
  extract_parts_from_build build_result =
    map strip_blanks (List.filter part_line (split_lines build_result)) /\
  Forall (fun part =>
            COLON ∈ part /\ (LINE_FEED ∉ part) /\
            (0 < length part < 200)%nat /\ strip_blanks part = part)
    (extract_parts_from_build build_result).
Proof.
  assert (Hfirst : extract_parts_from_build build_result =
            map strip_blanks (List.filter part_line (split_lines build_result))).
  { unfold extract_parts_from_build.
    induction (split_lines build_result) as [|line rest IH]; [reflexivity|].
    cbn [flat_map List.filter]. rewrite IH.
    destruct (part_line line) eqn:Hp; [|reflexivity].
    apply part_line_colon in Hp as (Hc & _ & _).
    apply (strip_blanks_keeps COLON line eq_refl) in Hc.
    destruct (strip_blanks line) as [|c t] eqn:E;
      [now apply elem_of_nil in Hc|].
    cbn [map app]. now rewrite E. }
  split; [exact Hfirst|]. rewrite Hfirst.
  apply Forall_forall. intros part Hin.
  apply list_elem_of_In, in_map_iff in Hin as (line & <- & Hin).
  apply filter_In in Hin as [Hin Hp].
  apply part_line_colon in Hp as (Hc & Hlen & _).
  pose proof (strip_blanks_keeps COLON line eq_refl Hc) as Hc'.
  split; [exact Hc'|]. split; [|split].
  - intros Hlf. apply strip_blanks_elem in Hlf.
    pose proof (split_lines_no_line_feed build_result) as Hall.
    rewrite Forall_forall in Hall. apply (Hall line); [|exact Hlf].
    now apply list_elem_of_In.
  - pose proof (strip_blanks_length line) as Hl. revert Hc' Hl.
    generalize (strip_blanks line). intros [|c t] Hc' Hl;
      [now apply elem_of_nil in Hc' | cbn [length] in *; lia].
  - apply strip_blanks_idem.
Qed.

(** ** A marker left behind *)

(** X26.  While a lock marker is left behind, a cancelled session is gone
    from memory only: the flush of [clear_session] fails, the mirror keeps
    the session, and once the marker is removed a restart loads the mirror
    as it was, the cancelled session included. *)
Theorem cancelled_session_can_come_back
    (fault : io_fault) (uid : Z) (st : Store) (m0 : gmap Z PCBuilderSession) :
  sessions_lock (fs st) = true ->
  sessions_file (fs st) = Some (json_dumps (SessionManager.mirror_of m0)) ->
  let st1 := SessionManager.clear_session fault uid st in
  sessions st1 !! uid = None /\ fs st1 = fs st /\
  option_map sessions (SessionManager.init (cleanup_lock_files (fs st1))) = Some m0.
Proof.
  intros Hheld Hfile st1. subst st1. unfold SessionManager.clear_session.
  rewrite save_sessions_sessions. cbn [sessions set_sessions].
  split; [apply lookup_delete_eq|].
  assert (Hfs : fs (SessionManager.save_sessions fault
                      (set_sessions (delete uid (sessions st)) st)) = fs st).
  { rewrite save_sessions_eq. cbv zeta. cbn [fs set_sessions]. now rewrite Hheld. }
  split; [exact Hfs|]. rewrite Hfs. unfold cleanup_lock_files. rewrite Hheld.
  unfold SessionManager.init, set_sessions_lock. rewrite Hfile.
  now rewrite load_sessions_mirror.
Qed.

Lemma cancelled_session_can_come_back_witness :
  let st := set_fs (set_sessions_lock true sample_files) sample_store in
  (sessions_lock (fs st) = true /\
   sessions_file (fs st) =
     Some (json_dumps (SessionManager.mirror_of {[ 7 := sample_session ]}))) /\
  let st1 := SessionManager.clear_session NoFault 7 st in
  sessions st1 !! 7 = None /\ fs st1 = fs st /\
  option_map sessions (SessionManager.init (cleanup_lock_files (fs st1))) =
    Some {[ 7 := sample_session ]}.
Proof.
  intros st. split; [split; reflexivity|].
  apply (cancelled_session_can_come_back NoFault 7 st {[ 7 := sample_session ]});
    reflexivity.
Defined.

(** ** At most one generation *)





